(** * Claude Code Docs mirror: installer, helper and uninstaller

    A shallow embedding of the three Python entry points
    ([install.py], [claude-docs-helper.py], [uninstall.py]) and the
    properties their specification states about them.

    Conventions of the embedding.
    - Text is a sequence of code points below 256. [str.lower], [str.strip]
      and [str.splitlines] are exact on that range; [str.isdigit] and [int]
      are applied to what git prints as a count or a timestamp only, and
      are written out for ASCII digits.
    - A script runs against a [world]: the files it reads and writes plus a
      chronological [trace] of what it did to its surroundings (lines
      printed, prompts, git processes spawned, files touched or removed).
    - What the surroundings answer (the outcome of a git process, the line
      typed at a prompt, whether a removal raises) comes from an [env].
    - A filesystem call inside a [try] gets a failing outcome in the
      model. Outside a [try] two calls get one, [Path.exists] in [read_doc]
      and the reading of the settings in [setup_hooks], and what they raise
      leaves the function; the others are taken to succeed. *)

From Stdlib Require Import String Ascii List ZArith NArith Bool Lia.
From Stdlib Require Import DecimalString.
Import ListNotations.
Local Open Scope list_scope.
Local Open Scope string_scope.

(** ** Python string operations *)

Module Py.

Definition code (c : ascii) : nat := nat_of_ascii c.

(** The code points below 256 that [str.lower] changes: A to Z, and the
    Latin-1 capitals from 192 to 222 other than the multiplication sign 215;
    each goes to the code point 32 above it. *)
Definition is_upper (c : ascii) : bool :=
  ((65 <=? code c)%nat && (code c <=? 90)%nat) ||
  ((192 <=? code c)%nat && (code c <=? 222)%nat && negb (code c =? 215)%nat).

Definition lower_char (c : ascii) : ascii :=
  if is_upper c then ascii_of_nat (code c + 32) else c.

(** [s.lower()] *)
Fixpoint lower (s : string) : string :=
  match s with
  | EmptyString => EmptyString
  | String c t => String (lower_char c) (lower t)
  end.

(** [sub in s] for two strings *)
Fixpoint contains (sub s : string) : bool :=
  String.prefix sub s ||
  match s with
  | EmptyString => false
  | String _ t => contains sub t
  end.

(** [bool(s)] for a string *)
Definition truthy (s : string) : bool := negb (s =? "").

(** whitespace of [str.strip()]: TAB LF VT FF CR, FS GS RS US, SPACE, NEL
    and the no-break space *)
Definition is_space (c : ascii) : bool :=
  ((9 <=? code c)%nat && (code c <=? 13)%nat) ||
  ((28 <=? code c)%nat && (code c <=? 32)%nat) ||
  (code c =? 133)%nat || (code c =? 160)%nat.

Fixpoint lstrip (s : string) : string :=
  match s with
  | EmptyString => EmptyString
  | String c t => if is_space c then lstrip t else s
  end.

Fixpoint rev_string (acc s : string) : string :=
  match s with
  | EmptyString => acc
  | String c t => rev_string (String c acc) t
  end.

Definition rstrip (s : string) : string :=
  rev_string "" (lstrip (rev_string "" s)).

(** [s.strip()] *)
Definition strip (s : string) : string := rstrip (lstrip s).

(** line boundaries of [str.splitlines()]: LF VT FF CR FS GS RS NEL (and
    CR LF) *)
Definition is_linebreak (c : ascii) : bool :=
  ((10 <=? code c)%nat && (code c <=? 13)%nat) ||
  ((28 <=? code c)%nat && (code c <=? 30)%nat) ||
  (code c =? 133)%nat.

Definition is_cr (c : ascii) : bool := (code c =? 13)%nat.
Definition is_lf (c : ascii) : bool := (code c =? 10)%nat.

(** [s.splitlines()] *)
Fixpoint splitlines (s : string) : list string :=
  match s with
  | EmptyString => []
  | String c t =>
      if is_linebreak c then
        match t with
        | String c2 t2 =>
            if is_cr c && is_lf c2 then EmptyString :: splitlines t2
            else EmptyString :: splitlines t
        | EmptyString => [EmptyString]
        end
      else
        match splitlines t with
        | [] => [String c EmptyString]
        | l :: ls => String c l :: ls
        end
  end.

(** What text mode does to line endings when reading ([newline=None], as
    in [Path.read_text]): CR LF and a lone CR are read as LF. *)
Fixpoint universal_newlines (s : string) : string :=
  match s with
  | EmptyString => EmptyString
  | String c t =>
      if is_cr c then
        match t with
        | String c2 t2 =>
            if is_lf c2 then String c2 (universal_newlines t2)
            else String (ascii_of_nat 10) (universal_newlines t)
        | EmptyString => String (ascii_of_nat 10) EmptyString
        end
      else String c (universal_newlines t)
  end.

Definition is_digit (c : ascii) : bool := (48 <=? code c)%nat && (code c <=? 57)%nat.

(** [s.isdigit()], for the ASCII text git prints where the code applies it
    (a count, a timestamp) *)
Definition isdigit (s : string) : bool :=
  truthy s && forallb is_digit (list_ascii_of_string s).

(** [int(s)] for a string of decimal digits *)
Definition int (s : string) : N :=
  fold_left (fun acc c => (acc * 10 + N.of_nat (code c - 48))%N)
            (list_ascii_of_string s) 0%N.

(** [str(n)] for a non-negative integer *)
Definition str_of_N (n : N) : string := NilEmpty.string_of_uint (N.to_uint n).

(** [sep.join(parts)] *)
Fixpoint join (sep : string) (parts : list string) : string :=
  match parts with
  | [] => ""
  | [p] => p
  | p :: rest => p ++ sep ++ join sep rest
  end.

(** [x in xs] for a list of strings *)
Definition mem (x : string) (xs : list string) : bool :=
  existsb (String.eqb x) xs.

(** the double quote character, as a string *)
Definition dq : string := String (ascii_of_nat 34) EmptyString.

End Py.

(** ** Processes, events and the state monad of a script *)

(** Outcome of [subprocess.run(..., check=True)]. *)
Inductive proc_result : Type :=
| Completed (stdout : string)
| CalledProcessError (stderr : string).

(** What a script does to its surroundings, in the order it does it. *)
Inductive event : Type :=
| EPrint (line : string)
| EInput (prompt : string)
| EChdir (dir : string)
| EGit (cwd : string) (args : list string)
| ETouch (path : string)
| EUnlink (path : string)
| ECopy (src dst : string)
| EWrite (path : string)
| ERmtree (path : string).

Definition M (W A : Type) : Type := W -> A * W.

Definition ret {W A} (a : A) : M W A := fun w => (a, w).

Definition bind {W A B} (m : M W A) (k : A -> M W B) : M W B :=
  fun w => let (a, w') := m w in k a w'.

Declare Scope io_scope.
Delimit Scope io_scope with io.
Notation "x <- m ;; k" := (bind m (fun x => k))
  (at level 61, m at next level, right associativity) : io_scope.
Notation "' p <- m ;; k" := (bind m (fun x => let p := x in k))
  (at level 61, p pattern, m at next level, right associativity) : io_scope.
Notation "m ;; k" := (bind m (fun _ => k))
  (at level 61, right associativity) : io_scope.
Local Open Scope io_scope.

(** Python code that may raise: [None] is a raised exception. *)
Definition obind {A B} (m : option A) (k : A -> option B) : option B :=
  match m with
  | Some a => k a
  | None => None
  end.

Declare Scope opt_scope.
Delimit Scope opt_scope with opt.
Notation "x <- m ;; k" := (obind m (fun x => k))
  (at level 61, m at next level, right associativity) : opt_scope.

(** Python code that may raise, where the message matters: the value
    returned, or the text of the exception that leaves the call. *)
Inductive result (A : Type) : Type :=
| Returned (a : A)
| Raised (msg : string).
Arguments Returned {A} a.
Arguments Raised {A} msg.

Definition rbind {A B} (m : result A) (k : A -> result B) : result B :=
  match m with
  | Returned a => k a
  | Raised e => Raised e
  end.

Declare Scope res_scope.
Delimit Scope res_scope with res.
Notation "x <- m ;; k" := (rbind m (fun x => k))
  (at level 61, m at next level, right associativity) : res_scope.

(** [for x in xs: body x] *)
Fixpoint for_each {W A} (xs : list A) (body : A -> M W unit) : M W unit :=
  match xs with
  | [] => ret tt
  | x :: rest => body x ;; for_each rest body
  end.

Definition is_print (e : event) : bool :=
  match e with EPrint _ => true | _ => false end.

Definition is_git (e : event) : bool :=
  match e with EGit _ _ => true | _ => false end.

Definition is_input (e : event) : bool :=
  match e with EInput _ => true | _ => false end.

(** ** JSON values as Python sees them *)

Module Json.

(** What [json.load] returns. A dict keeps its keys in insertion order, so
    an object is an association list (keys distinct). *)
#[warnings="-register-all"]
Inductive json : Type :=
| JNull
| JBool (b : bool)
| JInt (n : Z)
| JFloat (repr : string)
| JStr (s : string)
| JArr (items : list json)
| JObj (members : list (string * json)).

(** The settings file on disk: missing; there, but opening or decoding it
    raises ([OSError], [UnicodeDecodeError]; with the message); text that is
    not valid JSON (with the message of [json.JSONDecodeError]); or valid. *)
Inductive file_state : Type :=
| Missing
| Unreadable (msg : string)
| Malformed (msg : string)
| Parsed (j : json).

Fixpoint dict_get (k : string) (m : list (string * json)) : option json :=
  match m with
  | [] => None
  | (k', v) :: rest => if k' =? k then Some v else dict_get k rest
  end.

(** [d[k] = v]: replaces in place, or appends a new key. *)
Fixpoint dict_set (k : string) (v : json) (m : list (string * json))
  : list (string * json) :=
  match m with
  | [] => [(k, v)]
  | (k', v') :: rest =>
      if k' =? k then (k, v) :: rest else (k', v') :: dict_set k v rest
  end.

(** [del d[k]] *)
Fixpoint dict_del (k : string) (m : list (string * json)) : list (string * json) :=
  match m with
  | [] => []
  | (k', v') :: rest =>
      if k' =? k then dict_del k rest else (k', v') :: dict_del k rest
  end.

Definition is_str (k : string) (v : json) : bool :=
  match v with
  | JStr s => s =? k
  | _ => false
  end.

Fixpoint chars (s : string) : list json :=
  match s with
  | EmptyString => []
  | String c t => JStr (String c EmptyString) :: chars t
  end.

(** In what follows [None] stands for a raised [TypeError],
    [AttributeError] or [KeyError]. *)

(** [k in v] for a string [k] *)
Definition py_in (k : string) (v : json) : option bool :=
  match v with
  | JObj m => Some (match dict_get k m with Some _ => true | None => false end)
  | JArr l => Some (existsb (is_str k) l)
  | JStr s => Some (Py.contains k s)
  | _ => None
  end.

(** [v[k]] for a string [k] *)
Definition py_getitem (v : json) (k : string) : option json :=
  match v with
  | JObj m => dict_get k m
  | _ => None
  end.

(** [v[k] = x] for a string [k]; the value is the updated [v] *)
Definition py_setitem (v : json) (k : string) (x : json) : option json :=
  match v with
  | JObj m => Some (JObj (dict_set k x m))
  | _ => None
  end.

(** [v.get(k, default)] *)
Definition py_get (v : json) (k : string) (default : json) : option json :=
  match v with
  | JObj m => Some (match dict_get k m with Some x => x | None => default end)
  | _ => None
  end.

(** [for x in v] *)
Definition py_iter (v : json) : option (list json) :=
  match v with
  | JArr l => Some l
  | JObj m => Some (map (fun kv => JStr (fst kv)) m)
  | JStr s => Some (chars s)
  | _ => None
  end.

(** [len(v)] *)
Definition py_len (v : json) : option Z :=
  match v with
  | JArr l => Some (Z.of_nat (List.length l))
  | JObj m => Some (Z.of_nat (List.length m))
  | JStr s => Some (Z.of_nat (String.length s))
  | _ => None
  end.

Definition MARKER : string := "claude-code-docs".

(** [any('claude-code-docs' in hook.get('command', '') for hook in hooks)];
    [any] stops at the first hit. *)
Fixpoint any_docs_command (hooks : list json) : option bool :=
  match hooks with
  | [] => Some false
  | hook :: rest =>
      match py_get hook "command" (JStr "") with
      | None => None
      | Some command =>
          match py_in MARKER command with
          | None => None
          | Some true => Some true
          | Some false => any_docs_command rest
          end
      end
  end.

(** [any(... for hook in hook_entry.get('hooks', []))] *)
Definition is_docs_entry (hook_entry : json) : option bool :=
  match py_get hook_entry "hooks" (JArr []) with
  | None => None
  | Some hooks =>
      match py_iter hooks with
      | None => None
      | Some hs => any_docs_command hs
      end
  end.

(** [[e for e in entries if not any(...)]], shared by installer and
    uninstaller. *)
Fixpoint without_docs_hooks (entries : list json) : option (list json) :=
  match entries with
  | [] => Some []
  | e :: rest =>
      match is_docs_entry e with
      | None => None
      | Some b =>
          match without_docs_hooks rest with
          | None => None
          | Some kept => Some (if b then kept else e :: kept)
          end
      end
  end.

End Json.

(** ** install.py *)

Module Install.

Import Json.

Record env : Type := {
  HOME : string;                                   (* [Path.home()] *)
  run_git : string -> list string -> proc_result;  (* cwd, arguments *)
  reply : string;                                  (* the line [input()] returns *)
  platform_windows : bool;                         (* [platform.system() == "Windows"] *)
  shell_script_exists : bool                       (* claude-docs-helper.sh is installed *)
}.

Record world : Type := {
  cwd : string;
  settings_file : file_state;                      (* [SETTINGS_FILE] *)
  trace : list event
}.

Definition INSTALL_BRANCH : string := "main".

Section WithEnv.
Variable E : env.

Definition INSTALL_DIR : string := HOME E ++ "/.claude-code-docs".

Definition emit (e : event) : M world unit :=
  fun w => (tt, {| cwd := cwd w; settings_file := settings_file w;
                   trace := (trace w ++ [e])%list |}).

Definition print (line : string) : M world unit := emit (EPrint line).

Definition input (prompt : string) : M world string :=
  emit (EInput prompt) ;; ret (reply E).

Definition chdir (dir : string) : M world unit :=
  fun w => (tt, {| cwd := dir; settings_file := settings_file w;
                   trace := (trace w ++ [EChdir dir])%list |}).

(** [git_operation(args, cwd=None)]: git is known to be installed here
    ([check_dependencies] exits otherwise), so the process either completes
    or exits non-zero. *)
Definition git_operation (args : list string) (dir : option string)
  : M world (bool * string) :=
  fun w =>
    let d := match dir with Some d => d | None => cwd w end in
    let w' := {| cwd := cwd w; settings_file := settings_file w;
                 trace := (trace w ++ [EGit d args])%list |} in
    match run_git E d args with
    | Completed out => ((true, Py.strip out), w')
    | CalledProcessError err => ((false, Py.strip err), w')
    end.

Definition is_non_manifest (line : string) : bool :=
  negb (Py.contains "docs_manifest.json" line) &&
  negb (Py.contains "docs\docs_manifest.json" line).

(** [safe_git_update()], lines 184-247. *)
Definition safe_git_update : M world bool :=
  chdir INSTALL_DIR ;;
  '(success, current_branch) <- git_operation ["rev-parse"; "--abbrev-ref"; "HEAD"] None ;;
  let current_branch := if success then current_branch else "unknown" in
  let target_branch := INSTALL_BRANCH in
  (if negb (current_branch =? target_branch)
   then print ("  Switching from " ++ current_branch ++ " to " ++ target_branch ++ " branch...")
   else print ("  Updating " ++ target_branch ++ " branch...")) ;;
  print "Updating to latest version..." ;;
  '(success, output) <- git_operation ["pull"; "--quiet"; "origin"; target_branch] None ;;
  if success then ret true else
  print "  Standard update failed, trying harder..." ;;
  '(success, output) <- git_operation ["fetch"; "origin"; target_branch] None ;;
  if negb success then
    print "  [WARNING]  Could not fetch from GitHub (offline?)" ;;
    ret false
  else
  '(success, status) <- git_operation ["status"; "--porcelain"] None ;;
  let has_changes := if success then Py.truthy status else false in
  let clean_state : M world bool :=
    print "  Updating to clean state..." ;;
    git_operation ["merge"; "--abort"] None ;;
    git_operation ["rebase"; "--abort"] None ;;
    git_operation ["reset"; "--hard"; "origin/" ++ target_branch] None ;;
    git_operation ["clean"; "-fd"] None ;;
    print "  [OK] Updated successfully to clean state" ;;
    ret true in
  if has_changes then
    let non_manifest_changes := filter is_non_manifest (Py.splitlines status) in
    match non_manifest_changes with
    | _ :: _ =>
        print "" ;;
        print "[WARNING]  WARNING: Local changes detected in your installation:" ;;
        print "" ;;
        print "The installer will reset to a clean state, discarding these changes." ;;
        print "" ;;
        response <- input "Continue and discard local changes? [y/N]: " ;;
        if negb (Py.lower response =? "y") then
          print "Installation cancelled. Your local changes are preserved." ;;
          ret false
        else clean_state
    | [] => clean_state
    end
  else clean_state.

(** [get_hook_command()] *)
Definition get_hook_command : string :=
  if platform_windows E then
    "python " ++ Py.dq ++ INSTALL_DIR ++ "\claude-docs-helper.py" ++ Py.dq ++ " hook-check"
  else if shell_script_exists E then
    INSTALL_DIR ++ "/claude-docs-helper.sh hook-check"
  else
    "python " ++ Py.dq ++ INSTALL_DIR ++ "/claude-docs-helper.py" ++ Py.dq ++ " hook-check".

Definition SETTINGS_FILE : string := HOME E ++ "/.claude/settings.json".

(** The entry appended by [setup_hooks]. *)
Definition new_hook_entry (hook_command : string) : json :=
  JObj [ ("matcher", JStr "Read");
         ("hooks", JArr [ JObj [ ("type", JStr "command");
                                 ("command", JStr hook_command) ] ]) ].

(** Lines 349-370 of [setup_hooks]: what becomes of the [settings] value.
    The source mutates [settings['hooks']] and the list
    [settings['hooks']['PreToolUse']] in place; here each update is written
    back into the enclosing object. *)
Definition upsert_hook (hook_command : string) (settings : json) : option json :=
  (has_hooks <- py_in "hooks" settings ;;
   settings <- (if negb has_hooks then py_setitem settings "hooks" (JObj [])
                else Some settings) ;;
   hooks <- py_getitem settings "hooks" ;;
   has_pre <- py_in "PreToolUse" hooks ;;
   hooks <- (if negb has_pre then py_setitem hooks "PreToolUse" (JArr [])
             else Some hooks) ;;
   pre_tool_use <- py_getitem hooks "PreToolUse" ;;
   entries <- py_iter pre_tool_use ;;
   kept <- without_docs_hooks entries ;;
   match pre_tool_use with
   | JArr _ =>
       (* [pre_tool_use[:] = kept] then [pre_tool_use.append(...)] *)
       hooks <- py_setitem hooks "PreToolUse"
                  (JArr (kept ++ [new_hook_entry hook_command])%list) ;;
       py_setitem settings "hooks" hooks
   | _ => None
   end)%opt.

Definition write_settings (settings : json) : M world unit :=
  fun w => (tt, {| cwd := cwd w; settings_file := Parsed settings;
                   trace := (trace w ++ [EWrite SETTINGS_FILE])%list |}).

(** [setup_hooks()], lines 327-376. The result is [None] when an exception
    escapes (nothing has been written then): only [json.JSONDecodeError] is
    caught where the settings are loaded. *)
Definition setup_hooks : M world (option unit) :=
  print "Setting up automatic updates..." ;;
  let hook_command := get_hook_command in
  loaded <- (fun w =>
     match settings_file w with
     | Parsed j =>
         (print "  Updating Claude settings..." ;; ret (Some j)) w
     | Malformed _ =>
         (print "  Updating Claude settings..." ;;
          print "  [WARNING]  Warning: Invalid settings.json, creating new one" ;;
          ret (Some (JObj []))) w
     | Unreadable _ =>
         (print "  Updating Claude settings..." ;; ret None) w
     | Missing =>
         (print "  Creating Claude settings..." ;; ret (Some (JObj []))) w
     end) ;;
  match obind loaded (upsert_hook hook_command) with
  | Some settings' =>
      write_settings settings' ;;
      print "[OK] Updated Claude settings" ;;
      ret (Some tt)
  | None => ret None
  end.

End WithEnv.

End Install.

(** ** uninstall.py *)

Module Uninstall.
Import Json.

Record env : Type := {
  HOME : string;
  installations : list string;                    (* what [find_all_installations()] returns *)
  reply : string;                                 (* the line [input()] returns *)
  git_installed : bool;                           (* else [FileNotFoundError] *)
  run_git : string -> list string -> proc_result; (* cwd, arguments *)
  has_dot_git : string -> bool;                   (* [(path / ".git").exists()] *)
  unlink_error : option string;                   (* [COMMAND_FILE.unlink()] raises *)
  copy_error : option string;                     (* [shutil.copy2] raises *)
  write_error : option string;                    (* opening the settings for writing raises *)
  rmtree_error : string -> option string;         (* [shutil.rmtree(path)] raises *)
  type_error_text : string;                       (* the interpreter's wording of a type error *)
  platform_windows : bool
}.

(** Directories are taken to be disjoint: removing one does not remove
    another. *)
Record world : Type := {
  command_file : bool;               (* [COMMAND_FILE.exists()] *)
  settings_file : file_state;        (* [SETTINGS_FILE] *)
  backup_file : option file_state;   (* settings.json.backup, once written *)
  dirs : list string;                (* the directories that exist *)
  trace : list event
}.

Section WithEnv.
Variable E : env.

Definition COMMAND_FILE : string := HOME E ++ "/.claude/commands/docs.md".
Definition SETTINGS_FILE : string := HOME E ++ "/.claude/settings.json".
Definition BACKUP_FILE : string := HOME E ++ "/.claude/settings.json.backup".

Definition emit (e : event) : M world unit :=
  fun w => (tt, {| command_file := command_file w; settings_file := settings_file w;
                   backup_file := backup_file w; dirs := dirs w;
                   trace := (trace w ++ [e])%list |}).

Definition print (line : string) : M world unit := emit (EPrint line).

Definition input (prompt : string) : M world string :=
  emit (EInput prompt) ;; ret (reply E).

(** [git_operation(args, cwd)] *)
Definition git_operation (args : list string) (dir : string)
  : M world (bool * string) :=
  if git_installed E then
    emit (EGit dir args) ;;
    match run_git E dir args with
    | Completed out => ret (true, Py.strip out)
    | CalledProcessError _ => ret (false, "")
    end
  else ret (false, "").

(** [remove_command_file()] *)
Definition remove_command_file : M world bool :=
  fun w =>
    if command_file w then
      match unlink_error E with
      | None =>
          (emit (EUnlink COMMAND_FILE) ;;
           print "[OK] Removed /docs command" ;;
           ret true)
            {| command_file := false; settings_file := settings_file w;
               backup_file := backup_file w; dirs := dirs w; trace := trace w |}
      | Some e =>
          (emit (EUnlink COMMAND_FILE) ;;
           print ("[WARNING] Could not remove command file: " ++ e) ;;
           ret false) w
      end
    else (true, w).

(** The body of the [if] at line 141 of [remove_hooks]: the rewritten
    settings and [removed_count]. [None] is a raised exception;
    [Some None] means the [if] is not taken. *)
Definition strip_hooks (settings : json) : option (option (json * Z)) :=
  (has_hooks <- py_in "hooks" settings ;;
   if negb has_hooks then Some None else
   hooks <- py_getitem settings "hooks" ;;
   has_pre <- py_in "PreToolUse" hooks ;;
   if negb has_pre then Some None else
   pre_tool_use <- py_getitem hooks "PreToolUse" ;;
   original_count <- py_len pre_tool_use ;;
   entries <- py_iter pre_tool_use ;;
   kept <- without_docs_hooks entries ;;
   hooks <- py_setitem hooks "PreToolUse" (JArr kept) ;;
   let removed_count := (original_count - Z.of_nat (List.length kept))%Z in
   (* [if not settings['hooks']['PreToolUse']: del settings['hooks']['PreToolUse']] *)
   let hooks :=
     match kept, hooks with
     | [], JObj m => JObj (dict_del "PreToolUse" m)
     | _, _ => hooks
     end in
   settings <- py_setitem settings "hooks" hooks ;;
   (* [if 'hooks' in settings and not settings['hooks']: del settings['hooks']] *)
   let settings :=
     match hooks, settings with
     | JObj [], JObj m => JObj (dict_del "hooks" m)
     | _, _ => settings
     end in
   Some (Some (settings, removed_count)))%opt.

Definition could_not_remove_hooks (e : string) : M world (option bool) :=
  print ("[WARNING] Could not remove hooks: " ++ e) ;;
  ret (Some false).

(** [remove_hooks()], lines 126-168. The result is [Some true] for
    [True], [Some false] for [False], [None] for falling off the end. *)
Definition remove_hooks : M world (option bool) :=
  fun w =>
    match settings_file w with
    | Missing => (Some true, w)
    | state =>
        (emit (ECopy SETTINGS_FILE BACKUP_FILE) ;;
         match copy_error E with
         | Some e => could_not_remove_hooks e
         | None =>
             fun w1 =>
               let w2 := {| command_file := command_file w1;
                            settings_file := settings_file w1;
                            backup_file := Some state; dirs := dirs w1;
                            trace := trace w1 |} in
               match state with
               | Missing => (Some true, w2)
               | Unreadable e => could_not_remove_hooks e w2
               | Malformed e => could_not_remove_hooks e w2
               | Parsed settings =>
                   match strip_hooks settings with
                   | None => could_not_remove_hooks (type_error_text E) w2
                   | Some None => (None, w2)
                   | Some (Some (settings', removed_count)) =>
                       match write_error E with
                       | Some e =>
                           (emit (EWrite SETTINGS_FILE) ;;
                            could_not_remove_hooks e) w2
                       | None =>
                           (emit (EWrite SETTINGS_FILE) ;;
                            (if (0 <? removed_count)%Z then
                               print ("[OK] Removed " ++ Py.str_of_N (Z.to_N removed_count)
                                        ++ " hook(s) (backup: " ++ BACKUP_FILE ++ ")")
                             else print "[OK] No hooks to remove") ;;
                            ret (Some true))
                             {| command_file := command_file w2;
                                settings_file := Parsed settings';
                                backup_file := backup_file w2; dirs := dirs w2;
                                trace := trace w2 |}
                       end
                   end
               end
         end) w
    end.

Definition dir_exists (w : world) (path : string) : bool := Py.mem path (dirs w).

(** [shutil.rmtree(path)] that did not raise *)
Definition rmtree (path : string) : M world unit :=
  fun w => (tt, {| command_file := command_file w; settings_file := settings_file w;
                   backup_file := backup_file w;
                   dirs := filter (fun d => negb (d =? path)) (dirs w);
                   trace := trace w |}).

(** One turn of the loop of [remove_directories]. *)
Definition remove_directory (path : string) : M world unit :=
  fun w =>
    if negb (dir_exists w path) then (tt, w) else
    (has_changes <-
       (if has_dot_git E path then
          '(success, output) <- git_operation ["status"; "--porcelain"] path ;;
          ret (if success then Py.truthy output else false)
        else ret false) ;;
     if has_changes then
       print ("[WARNING] Preserved " ++ path ++ " (has uncommitted changes)")
     else
       emit (ERmtree path) ;;
       match rmtree_error E path with
       | None => rmtree path ;; print ("[OK] Removed " ++ path)
       | Some e => print ("[WARNING] Could not remove " ++ path ++ ": " ++ e)
       end) w.

(** [remove_directories(installations)], lines 171-194. *)
Definition remove_directories (installations : list string) : M world unit :=
  match installations with
  | [] => ret tt
  | _ :: _ =>
      print "" ;;
      for_each installations remove_directory
  end.

(** the three characters printed before "Installation directories", as
    UTF-8 bytes *)
Definition BULLET : string :=
  string_of_list_ascii
    (map ascii_of_nat [195; 162; 226; 130; 172; 194; 162]%nat).

Definition print_header : M world unit :=
  print "Claude Code Documentation Mirror - Uninstaller" ;;
  print "==============================================" ;;
  print "".

Definition reinstall_hint : M world unit :=
  print "" ;;
  print "To reinstall:" ;;
  if platform_windows E then
    print "curl -fsSL https://raw.githubusercontent.com/ericbuess/claude-code-docs/main/install.py -o install.py && python install.py"
  else
    print "curl -fsSL https://raw.githubusercontent.com/ericbuess/claude-code-docs/main/install.sh | bash" ;;
    print "# or use Python installer:" ;;
    print "python <(curl -fsSL https://raw.githubusercontent.com/ericbuess/claude-code-docs/main/install.py)".

(** [bool(r)] for the result of [remove_hooks] *)
Definition truth (r : option bool) : bool :=
  match r with
  | Some b => b
  | None => false
  end.

(** [main()], lines 197-257. Path discovery ([find_all_installations], a
    scan of the command file and the settings by regular expressions) is
    not modelled: its result is [installations E]. *)
Definition main : M world unit :=
  print_header ;;
  let installations := installations E in
  (match installations with
   | _ :: _ =>
       print "Found installations at:" ;;
       for_each installations (fun path => print ("  [DIR] " ++ path)) ;;
       print ""
   | [] => ret tt
   end) ;;
  print "This will remove:" ;;
  print "  * The /docs command from ~/.claude/commands/docs.md" ;;
  print "  * All claude-code-docs hooks from ~/.claude/settings.json" ;;
  (match installations with
   | _ :: _ => print ("  " ++ BULLET ++ " Installation directories (if safe to remove)")
   | [] => ret tt
   end) ;;
  print "" ;;
  response <- input "Continue? (y/N): " ;;
  if negb (Py.lower response =? "y") then print "Cancelled." else
  print "" ;;
  command_removed <- remove_command_file ;;
  hooks_removed <- remove_hooks ;;
  let success := command_removed && truth hooks_removed in
  remove_directories installations ;;
  print "" ;;
  (if success then print "[SUCCESS] Uninstall complete!"
   else print "[WARNING] Uninstall completed with warnings") ;;
  reinstall_hint.

End WithEnv.

End Uninstall.

(** ** claude-docs-helper.py *)

Module Helper.

(** An entry of the docs directory: its file name, the text stored in it
    (decoded, line endings as stored), and, when
    [read_text(encoding='utf-8')] raises on it (a directory, no permission,
    bytes that are not UTF-8), the message of the exception. *)
Record file : Type := {
  name : string;
  text : string;
  unreadable : option string
}.

(** The filesystem as [read_doc] sees it: the entries of [DOCS_DIR] in
    directory listing order, what lives at a path that leaves the
    directory (a topic may contain a path separator), and the [OSError]
    that [Path.exists] lets through for a path that names nothing: it maps
    a missing file to [False] and re-raises the rest (a name too long for
    the file system, a directory on the way that may not be searched), on
    the interpreters where it does not swallow them. Entries are regular
    files or directories, so every listed entry exists and can be
    examined. *)
Record fs : Type := {
  docs : list file;
  elsewhere : string -> option file;
  stat_error : string -> option string
}.

(** A relative path of at most this many characters has no component
    longer than 255 bytes, the limit of the file systems in use (a code
    point below 256 takes at most two bytes), so examining it cannot fail
    for its length. *)
Definition SHORT_NAME : nat := 127.

(** A name that stays in the docs directory (no separator of either
    kind) and is short. Examining it either finds an entry or finds
    nothing; only for the other paths can [Path.exists] raise. *)
Definition plain_name (rel : string) : bool :=
  negb (Py.contains "/" rel) && negb (Py.contains "\" rel)
  && (String.length rel <=? SHORT_NAME)%nat.

(** [LAST_CHECK_FILE]: absent, or present with the time [stat().st_mtime]
    reports ([None] when the [stat] or the conversion raises). Times are
    microseconds, the resolution of [datetime]. *)
Inductive marker_state : Type :=
| Absent
| Present (mtime : option Z).

Record world : Type := {
  root : fs;
  marker : marker_state;
  clock : Z;                 (* what [datetime.now()] returns *)
  trace : list event
}.

Record env : Type := {
  INSTALL_DIR : string;
  git_installed : bool;                      (* else [FileNotFoundError] *)
  run_git : list string -> proc_result;
  git_effect : list string -> fs -> fs;      (* what a git command does to the mirror *)
  format_time_ago : Z -> Z -> string;        (* [format_time_ago(dt)] at a given [now] *)
  show_whats_new : M world (result unit);    (* changelog printing, not modelled *)
  wrap : string -> list string;              (* [textwrap.TextWrapper(...).wrap] *)
  os_name_nt : bool;                         (* [os.name == 'nt'] *)
  uninstall_sh_exists : bool
}.

Definition GITHUB_REPO : string := "https://github.com/ericbuess/claude-code-docs".
Definition OFFICIAL_DOCS : string := "https://docs.anthropic.com/en/docs/claude-code".

(** [timedelta(hours=3)] *)
Definition CHECK_INTERVAL : Z := 3 * 3600 * 1000000.

(** *** Paths of the docs directory *)

Definition has_sep (p : string) : bool := Py.contains "/" p.

Fixpoint ends_with (suf s : string) : bool :=
  (s =? suf) ||
  match s with
  | EmptyString => false
  | String _ t => ends_with suf t
  end.

(** [s.rfind(c)] *)
Fixpoint rfind (c : ascii) (s : string) : option nat :=
  match s with
  | EmptyString => None
  | String a t =>
      match rfind c t with
      | Some i => Some (S i)
      | None => if Ascii.eqb a c then Some 0%nat else None
      end
  end.

(** [PurePath.stem]: the name without its last suffix; a leading or a
    trailing dot starts no suffix. *)
Definition stem (n : string) : string :=
  match rfind "." n with
  | Some i =>
      if (0 <? i)%nat && (i <? String.length n - 1)%nat
      then String.substring 0 i n
      else n
  | None => n
  end.

(** [DOCS_DIR.glob("*.md")] *)
Definition glob_md (r : fs) : list file :=
  filter (fun f => ends_with ".md" (name f)) (docs r).

(** A path handled by [read_doc]: [DOCS_DIR / rel], or an entry that
    [glob] yielded. *)
Inductive doc_path : Type :=
| Joined (rel : string)
| Listed (f : file).

(** What is at the path: a listed entry is found by its name. *)
Definition lookup (r : fs) (p : doc_path) : option file :=
  match p with
  | Joined rel =>
      match find (fun f => name f =? rel) (docs r) with
      | Some f => Some f
      | None => if has_sep rel then elsewhere r rel else None
      end
  | Listed f => Some f
  end.

(** [p.exists()] *)
Definition exists_ (r : fs) (p : doc_path) : result bool :=
  match lookup r p with
  | Some _ => Returned true
  | None =>
      match p with
      | Joined rel =>
          if plain_name rel then Returned false
          else match stat_error r rel with
               | Some e => Raised e
               | None => Returned false
               end
      | Listed _ => Returned false
      end
  end.

(** [for file in files: if test(file): doc_file = file; break] *)
Definition first_match (test : file -> bool) (files : list file)
                       (doc_file : doc_path) : doc_path :=
  match find test files with
  | Some f => Listed f
  | None => doc_file
  end.

(** [doc_file] when line 149 is reached; the two existence tests are
    outside any [try]. *)
Definition locate (r : fs) (topic : string) : result doc_path :=
  (let doc_file := Joined (topic ++ ".md") in
   found <- exists_ r doc_file ;;
   let doc_file :=
     if negb found then
       first_match (fun file => Py.lower (stem (name file)) =? Py.lower topic)
                   (glob_md r) doc_file
     else doc_file in
   found <- exists_ r doc_file ;;
   let doc_file :=
     if negb found then
       first_match (fun file => Py.contains (Py.lower topic) (Py.lower (stem (name file))))
                   (glob_md r) doc_file
     else doc_file in
   Returned doc_file)%res.

(** [doc_file.read_text(encoding='utf-8')] inside its [try] *)
Definition read_text (f : file) : string :=
  match unreadable f with
  | None => Py.universal_newlines (text f)
  | Some e => "Error reading file: " ++ e
  end.

(** [read_doc(topic)], lines 130-155. *)
Definition read_doc (r : fs) (topic : string) : result (option string) :=
  (doc_file <- locate r topic ;;
   found <- exists_ r doc_file ;;
   if found then
     match lookup r doc_file with
     | Some f => Returned (Some (read_text f))
     | None => Returned None
     end
   else Returned None)%res.

(** [sorted(paths)] for entries of one directory: by name, stable. *)
Fixpoint insert_sorted (f : file) (fs : list file) : list file :=
  match fs with
  | [] => [f]
  | g :: rest =>
      if String.ltb (name f) (name g) then f :: g :: rest
      else g :: insert_sorted f rest
  end.

Definition sorted (fs : list file) : list file :=
  fold_right insert_sorted [] fs.

(** [list_topics()]; a missing [DOCS_DIR] is an empty listing. *)
Definition list_topics (r : fs) : list string :=
  map (fun f => stem (name f)) (sorted (glob_md r)).

Section WithEnv.
Variable E : env.

Definition LAST_CHECK_FILE : string := INSTALL_DIR E ++ "/.last_check".

Definition emit (e : event) : M world unit :=
  fun w => (tt, {| root := root w; marker := marker w; clock := clock w;
                   trace := (trace w ++ [e])%list |}).

Definition print (line : string) : M world unit := emit (EPrint line).

(** [git_operation(args)] *)
Definition git_operation (args : list string) : M world (bool * string) :=
  fun w =>
    if git_installed E then
      let w' := {| root := git_effect E args (root w); marker := marker w;
                   clock := clock w;
                   trace := (trace w ++ [EGit (INSTALL_DIR E) args])%list |} in
      match run_git E args with
      | Completed out => ((true, Py.strip out), w')
      | CalledProcessError err => ((false, Py.strip err), w')
      end
    else ((false, "Git not found"), w).

(** [check_for_updates()] *)
Definition check_for_updates : M world (bool * string) :=
  '(success, output) <- git_operation ["fetch"; "--quiet"] ;;
  if negb success then ret (false, "Could not check for updates") else
  '(success, behind) <- git_operation ["rev-list"; "--count"; "HEAD..origin/main"] ;;
  if negb success then ret (false, "Could not compare with remote") else
  let behind_count := if Py.isdigit behind then Py.int behind else 0%N in
  if (0 <? behind_count)%N
  then ret (true, Py.str_of_N behind_count ++ " update(s) available")
  else ret (false, "Already up to date").

(** [pull_updates()] *)
Definition pull_updates : M world bool :=
  print "[UPDATE] Updating documentation..." ;;
  '(success, output) <- git_operation ["pull"; "--quiet"] ;;
  if success then
    print "[OK] Documentation updated successfully" ;;
    ret true
  else
    print ("[WARNING]  Update failed: " ++ output) ;;
    ret false.

(** [get_last_update_time()] *)
Definition get_last_update_time : M world (option Z) :=
  '(success, output) <- git_operation ["log"; "-1"; "--format=%ct"; "docs/"] ;;
  if success && Py.isdigit output
  then ret (Some (Z.of_N (Py.int output) * 1000000)%Z)
  else ret None.

(** [check_freshness()] *)
Definition check_freshness : M world unit :=
  last_update <- get_last_update_time ;;
  (match last_update with
   | Some dt =>
       fun w => print ("[INFO] Docs last updated: " ++ format_time_ago E (clock w) dt) w
   | None => print "[INFO] Could not determine last update time"
   end) ;;
  '(has_updates, message) <- check_for_updates ;;
  (if has_updates then
     print ("[UPDATE] " ++ message) ;;
     pull_updates ;;
     ret tt
   else print ("[OK] " ++ message)) ;;
  print "".

(** [LAST_CHECK_FILE.touch()] *)
Definition touch_marker : M world unit :=
  fun w => (tt, {| root := root w; marker := Present (Some (clock w));
                   clock := clock w;
                   trace := (trace w ++ [ETouch LAST_CHECK_FILE])%list |}).

(** [hook_check()], lines 226-246. *)
Definition hook_check : M world unit :=
  fun w =>
    let should_check :=
      match marker w with
      | Present (Some last_check_time) =>
          if (clock w - last_check_time <? CHECK_INTERVAL)%Z then false else true
      | Present None => true
      | Absent => true
      end in
    if should_check then
      (touch_marker ;;
       '(has_updates, _) <- check_for_updates ;;
       if has_updates then pull_updates ;; ret tt else ret tt) w
    else (tt, w).

Definition first_arg_is (x : string) (args : list string) : bool :=
  match args with
  | a :: _ => a =? x
  | [] => false
  end.

(** [bool(content)] for an [Optional[str]] *)
Definition has_content (content : option string) : bool :=
  match content with
  | Some c => Py.truthy c
  | None => false
  end.

(** what [print(content)] shows *)
Definition shown (content : option string) : string :=
  match content with
  | Some c => c
  | None => "None"
  end.

Definition reading_local : M world unit :=
  print "" ;;
  print "[INFO] Reading from local docs (run /docs -t to check freshness)".

(** [main()] with [args = sys.argv[1:]], lines 249-356. The result is
    [Raised] when an exception leaves [main]: [read_doc] is called outside
    any [try]. *)
Definition main (args : list string) : M world (result unit) :=
  if first_arg_is "hook-check" args then hook_check ;; ret (Returned tt) else
  if first_arg_is "uninstall" args then
    print "To uninstall Claude Code Docs, run:" ;;
    print "" ;;
    (if os_name_nt E then
       print ("python " ++ Py.dq ++ INSTALL_DIR E ++ "\uninstall.py" ++ Py.dq)
     else if uninstall_sh_exists E then
       print (INSTALL_DIR E ++ "/uninstall.sh")
     else
       print ("python " ++ Py.dq ++ INSTALL_DIR E ++ "/uninstall.py" ++ Py.dq)) ;;
    ret (Returned tt)
  else
  let check_fresh := first_arg_is "-t" args in
  let args := if check_fresh then tl args else args in
  match args with
  | [] =>
      (if check_fresh then check_freshness else ret tt) ;;
      print ("[INFO] COMMUNITY MIRROR: " ++ GITHUB_REPO) ;;
      print ("[INFO] OFFICIAL DOCS: " ++ OFFICIAL_DOCS) ;;
      print "" ;;
      print "Available documentation topics:" ;;
      print "" ;;
      (fun w =>
         let topics := list_topics (root w) in
         match topics with
         | _ :: _ =>
             for_each (wrap E (Py.join "  " topics)) print w
         | [] => print "  No documentation files found" w
         end) ;;
      print "" ;;
      print "Usage: /docs <topic>" ;;
      print "       /docs -t         # Check sync status" ;;
      print "       /docs what's new # Show recent changes" ;;
      (if negb check_fresh then reading_local else ret tt) ;;
      ret (Returned tt)
  | topic :: _ =>
      let full_arg := Py.lower (Py.join " " args) in
      if Py.mem full_arg ["what's new"; "whats new"; "what is new"; "changelog"] then
        (if check_fresh then check_freshness else ret tt) ;;
        show_whats_new E
      else
        (if check_fresh then check_freshness else ret tt) ;;
        print ("[INFO] COMMUNITY MIRROR: " ++ GITHUB_REPO) ;;
        print ("[INFO] OFFICIAL DOCS: " ++ OFFICIAL_DOCS) ;;
        print "" ;;
        (fun w =>
           match read_doc (root w) topic with
           | Raised e => (Raised e, w)
           | Returned content =>
               ((if has_content content then
                   print (shown content) ;;
                   print "" ;;
                   print ("[INFO] Official page: " ++ OFFICIAL_DOCS ++ "/" ++ topic)
                 else
                   print ("[ERROR] Documentation for '" ++ topic ++ "' not found") ;;
                   print "" ;;
                   print "Available topics:" ;;
                   (fun w =>
                      let topics := list_topics (root w) in
                      match topics with
                      | _ :: _ =>
                          let similar :=
                            filter (fun t => Py.contains (Py.lower topic) (Py.lower t)
                                             || Py.contains (Py.lower t) (Py.lower topic))
                                   topics in
                          match similar with
                          | _ :: _ =>
                              (print "  Similar topics:" ;;
                               for_each (firstn 5 similar)
                                        (fun t => print ("    - " ++ t))) w
                          | [] =>
                              (for_each (firstn 10 topics) (fun t => print ("  - " ++ t)) ;;
                               if (10 <? List.length topics)%nat then
                                 print ("  ... and "
                                          ++ Py.str_of_N (N.of_nat (List.length topics - 10))
                                          ++ " more")
                               else ret tt) w
                          end
                      | [] => (tt, w)
                      end)) ;;
                (if negb check_fresh then reading_local else ret tt) ;;
                ret (Returned tt)) w
           end)
  end.


End WithEnv.

End Helper.

(** * Reference definitions for the properties *)

Module InstallSpec.
Import Install.

Definition pull_args : list string := ["pull"; "--quiet"; "origin"; "main"].

Definition fetch_args : list string := ["fetch"; "origin"; "main"].

Definition status_args : list string := ["status"; "--porcelain"].

Definition prompt : string := "Continue and discard local changes? [y/N]: ".

(** The four commands of the destructive fallback. *)
Definition destructive (e : event) : bool :=
  match e with
  | EGit _ ["merge"; "--abort"] => true
  | EGit _ ["rebase"; "--abort"] => true
  | EGit _ ("reset" :: "--hard" :: _) => true
  | EGit _ ["clean"; "-fd"] => true
  | _ => false
  end.

(** What a run does up to and including the status query, once the pull
    has failed and the fetch has succeeded. *)
Definition probe (d branch_line : string) : list event :=
  [ EChdir d;
    EGit d ["rev-parse"; "--abbrev-ref"; "HEAD"];
    EPrint branch_line;
    EPrint "Updating to latest version...";
    EGit d pull_args;
    EPrint "  Standard update failed, trying harder...";
    EGit d fetch_args;
    EGit d status_args ].

Definition ask : list event :=
  [ EPrint "";
    EPrint "[WARNING]  WARNING: Local changes detected in your installation:";
    EPrint "";
    EPrint "The installer will reset to a clean state, discarding these changes.";
    EPrint "";
    EInput prompt ].

Definition cancelled : list event :=
  [ EPrint "Installation cancelled. Your local changes are preserved." ].

Definition reset_to_remote (d : string) : list event :=
  [ EPrint "  Updating to clean state...";
    EGit d ["merge"; "--abort"];
    EGit d ["rebase"; "--abort"];
    EGit d ["reset"; "--hard"; "origin/main"];
    EGit d ["clean"; "-fd"];
    EPrint "  [OK] Updated successfully to clean state" ].

Definition branch_line (E : env) : string :=
  match run_git E (INSTALL_DIR E) ["rev-parse"; "--abbrev-ref"; "HEAD"] with
  | Completed out =>
      if negb (Py.strip out =? "main")
      then "  Switching from " ++ Py.strip out ++ " to main branch..."
      else "  Updating main branch..."
  | CalledProcessError _ => "  Switching from unknown to main branch..."
  end.

(** Everything a declined run does. *)
Definition declined_run (d branch_line : string) : list event :=
  (probe d branch_line ++ ask ++ cancelled)%list.

(** Everything a run does that resets without asking. *)
Definition unprompted_reset_run (d branch_line : string) : list event :=
  (probe d branch_line ++ reset_to_remote d)%list.

Definition env_declining : env :=
  {| HOME := "/home/u";
     run_git := fun _ args =>
       match args with
       | "pull" :: _ => CalledProcessError "error: unmerged files"
       | "status" :: _ => Completed " M docs/hooks.md"
       | _ => Completed "main"
       end;
     reply := "n";
     platform_windows := false;
     shell_script_exists := false |}.

Definition env_capital_Y : env :=
  {| HOME := "/home/u";
     run_git := run_git env_declining;
     reply := "Y";
     platform_windows := false;
     shell_script_exists := false |}.

Definition env_manifest_only : env :=
  {| HOME := "/home/u";
     run_git := fun _ args =>
       match args with
       | "pull" :: _ => CalledProcessError "error: unmerged files"
       | "status" :: _ => Completed " M docs/docs_manifest.json"
       | _ => Completed "main"
       end;
     reply := "n";
     platform_windows := false;
     shell_script_exists := false |}.

Definition world0 : world :=
  {| cwd := "/tmp"; settings_file := Json.Missing; trace := [] |}.

(** *** The working copy

    [safe_git_update] touches the working copy of the installation only
    through the git processes it starts, and each of them is in the trace.
    What a git command does to a working copy, whether it ends well or
    not, is an [effect]; the working copy after a run is what the effects
    of its git commands, in their order, make of the one before. *)
Definition working_copy {tree : Type} (effect : list string -> tree -> tree)
           (before : tree) (evs : list event) : tree :=
  fold_left (fun t e => match e with
                        | EGit _ args => effect args t
                        | _ => t
                        end) evs before.

(** The four commands a run issues before it may ask. *)
Definition enquiries : list (list string) :=
  [ ["rev-parse"; "--abbrev-ref"; "HEAD"]; pull_args; fetch_args; status_args ].

(** The path of the manifest in the working copy, and the porcelain lines
    that are about it: status letters, a blank, the path. *)
Definition MANIFEST : string := "docs/docs_manifest.json".

Definition about_manifest (line : string) : bool :=
  let n := String.length line in
  let k := String.length (" " ++ MANIFEST) in
  (k <=? n)%nat && (String.substring (n - k) k line =? " " ++ MANIFEST).

(** A changed file that is not the manifest but has its name in its own. *)
Definition env_lookalike : env :=
  {| HOME := "/home/u";
     run_git := fun _ args =>
       match args with
       | "pull" :: _ => CalledProcessError "error: unmerged files"
       | "status" :: _ => Completed " M notes/docs_manifest.json.bak"
       | _ => Completed "main"
       end;
     reply := "n";
     platform_windows := false;
     shell_script_exists := false |}.

(** A working copy given by the files that hold conflict markers, and a
    pull that fails on a conflict in [docs/hooks.md]. *)
Definition conflicting_pull (args : list string) (t : list string) : list string :=
  match args with
  | "pull" :: _ => "docs/hooks.md" :: t
  | _ => t
  end.

Definition untouched (args : list string) (t : list string) : list string := t.

End InstallSpec.

Module HelperSpec.
Import Helper.

(** What [read_doc] returns once a file is chosen: its text as text mode
    reads it (CR LF and CR as LF), or the error text. *)
Definition outcome (f : file) : string :=
  match unreadable f with
  | None => Py.universal_newlines (text f)
  | Some e => "Error reading file: " ++ e
  end.

(** The three resolution rules, in the words of the specification, with
    notions of their own: a [*.md] file is an entry whose name ends in
    [.md], and its stem is the name without that ending (the name [.md]
    itself has no ending to drop and is its own stem). *)
Definition is_md (n : string) : bool :=
  (3 <=? String.length n)%nat &&
  (String.substring (String.length n - 3) 3 n =? ".md").

Definition md_stem (n : string) : string :=
  if n =? ".md" then n else String.substring 0 (String.length n - 3) n.

Definition md_files (r : fs) : list file :=
  filter (fun f => is_md (name f)) (docs r).

(** The first rule: the path [<topic>.md] if something is there, nothing
    if not, or the error that examining the path raises. *)
Definition rule_exact (r : fs) (topic : string) : result (option doc_path) :=
  match lookup r (Joined (topic ++ ".md")) with
  | Some _ => Returned (Some (Joined (topic ++ ".md")))
  | None =>
      if plain_name (topic ++ ".md") then Returned None
      else match stat_error r (topic ++ ".md") with
           | Some e => Raised e
           | None => Returned None
           end
  end.

Definition stem_equals (topic : string) (f : file) : bool :=
  Py.lower (md_stem (name f)) =? Py.lower topic.

Definition stem_contains (topic : string) (f : file) : bool :=
  Py.contains (Py.lower topic) (Py.lower (md_stem (name f))).

Definition rule_stem (r : fs) (topic : string) : option doc_path :=
  option_map Listed (find (stem_equals topic) (md_files r)).

Definition rule_substring (r : fs) (topic : string) : option doc_path :=
  option_map Listed (find (stem_contains topic) (md_files r)).

(** The path chosen by the first rule that matches, in the order exact,
    stem, substring; [None] when no rule matches; [Raised] when the test of
    the first rule raises. *)
Definition resolve (r : fs) (topic : string) : result (option doc_path) :=
  match rule_exact r topic with
  | Raised e => Raised e
  | Returned (Some p) => Returned (Some p)
  | Returned None =>
      Returned (match rule_stem r topic with
                | Some p => Some p
                | None => rule_substring r topic
                end)
  end.

(** The text has no carriage return. *)
Definition no_cr (s : string) : bool :=
  forallb (fun c => negb (Py.is_cr c)) (list_ascii_of_string s).

(** Entries of one directory have distinct names without separators. *)
Definition wf_fs (r : fs) : Prop :=
  NoDup (map name (docs r)) /\
  Forall (fun f => has_sep (name f) = false) (docs r).

(** The world after more events. *)
Definition out (w : world) (evs : list event) : world :=
  {| root := root w; marker := marker w; clock := clock w;
     trace := (trace w ++ evs)%list |}.

(** [/docs T ...] or [/docs -t T ...] *)
Definition invocation (check_fresh : bool) (topic : string) (rest : list string)
  : list string :=
  if check_fresh then "-t" :: topic :: rest else topic :: rest.

(** The invocation asks for a document: its first word is no subcommand and
    its words do not spell a changelog request. *)
Definition is_request (check_fresh : bool) (topic : string) (rest : list string)
  : Prop :=
  (check_fresh = false ->
     topic <> "hook-check" /\ topic <> "uninstall" /\ topic <> "-t")
  /\ Py.mem (Py.lower (Py.join " " (topic :: rest)))
            ["what's new"; "whats new"; "what is new"; "changelog"] = false.

Definition banner : list event :=
  [ EPrint ("[INFO] COMMUNITY MIRROR: " ++ GITHUB_REPO);
    EPrint ("[INFO] OFFICIAL DOCS: " ++ OFFICIAL_DOCS);
    EPrint "" ].

Definition footer (check_fresh : bool) : list event :=
  if check_fresh then []
  else [ EPrint "";
         EPrint "[INFO] Reading from local docs (run /docs -t to check freshness)" ].

Definition document_lines (topic shown_text : string) : list event :=
  [ EPrint shown_text;
    EPrint "";
    EPrint ("[INFO] Official page: " ++ OFFICIAL_DOCS ++ "/" ++ topic) ].

Definition not_found_lines (topic : string) : list event :=
  [ EPrint ("[ERROR] Documentation for '" ++ topic ++ "' not found");
    EPrint "";
    EPrint "Available topics:" ].

(** [T] and [t] overlap: one is a substring of the other, ignoring case. *)
Definition overlaps (topic t : string) : bool :=
  Py.contains (Py.lower topic) (Py.lower t) || Py.contains (Py.lower t) (Py.lower topic).

Definition suggestion_lines (suggested : list string) : list event :=
  EPrint "  Similar topics:" :: map (fun t => EPrint ("    - " ++ t)) suggested.

Definition plain_topic_lines (topics : list string) : list event :=
  (map (fun t => EPrint ("  - " ++ t)) (firstn 10 topics) ++
   if (10 <? List.length topics)%nat
   then [EPrint ("  ... and " ++ Py.str_of_N (N.of_nat (List.length topics - 10)) ++ " more")]
   else [])%list.

(** What follows "Available topics:". *)
Definition topic_lines (topic : string) (topics : list string) : list event :=
  match topics with
  | [] => []
  | _ :: _ =>
      match filter (overlaps topic) topics with
      | [] => plain_topic_lines topics
      | similar => suggestion_lines (firstn 5 similar)
      end
  end.

(** The world in which the document is looked up. *)
Definition looked_up_in (E : env) (check_fresh : bool) (w : world) : world :=
  if check_fresh then snd (check_freshness E w) else w.

Definition plain (n t : string) : file :=
  {| name := n; text := t; unreadable := None |}.

Definition locked (n t e : string) : file :=
  {| name := n; text := t; unreadable := Some e |}.

Definition nothing_elsewhere : string -> option file := fun _ => None.

Definition no_stat_error : string -> option string := fun _ => None.

Definition mirror_two : fs :=
  {| docs := [plain "hooks.md" "# Hooks"; plain "mcp.md" "# MCP"];
     elsewhere := nothing_elsewhere;
     stat_error := no_stat_error |}.

Definition mirror_locked : fs :=
  {| docs := [locked "hooks.md" "# Hooks" "[Errno 13] Permission denied"];
     elsewhere := nothing_elsewhere;
     stat_error := no_stat_error |}.

Definition CR : string := String (ascii_of_nat 13) EmptyString.

Definition LF : string := String (ascii_of_nat 10) EmptyString.

(** A document stored with CR LF line endings and a final lone CR. *)
Definition mirror_crlf : fs :=
  {| docs := [plain "hooks.md" ("# Hooks" ++ CR ++ LF ++ "text" ++ CR)];
     elsewhere := nothing_elsewhere;
     stat_error := no_stat_error |}.




Definition mirror_dot_md : fs :=
  {| docs := [plain ".md" "A"; plain ".md.md" "B"];
     elsewhere := nothing_elsewhere;
     stat_error := no_stat_error |}.

Definition env_quiet : env :=
  {| INSTALL_DIR := "/home/u/.claude-code-docs";
     git_installed := true;
     run_git := fun _ => Completed "";
     git_effect := fun _ r => r;
     format_time_ago := fun _ _ => "1 hour ago";
     show_whats_new := ret (Returned tt);
     wrap := fun s => [s];
     os_name_nt := false;
     uninstall_sh_exists := false |}.

Definition env_behind : env :=
  {| INSTALL_DIR := "/home/u/.claude-code-docs";
     git_installed := true;
     run_git := fun args =>
       match args with
       | "rev-list" :: _ => Completed "2"
       | _ => Completed ""
       end;
     git_effect := fun _ r => r;
     format_time_ago := fun _ _ => "1 hour ago";
     show_whats_new := ret (Returned tt);
     wrap := fun s => [s];
     os_name_nt := false;
     uninstall_sh_exists := false |}.

Definition world_of (r : fs) (m : marker_state) (now : Z) : world :=
  {| root := r; marker := m; clock := now; trace := [] |}.

Definition hook_fetch : list string := ["fetch"; "--quiet"].

Definition hook_rev_list : list string := ["rev-list"; "--count"; "HEAD..origin/main"].

Definition hook_pull : list string := ["pull"; "--quiet"].

(** The marker exists, its time can be read, and less than the interval
    has passed since. *)
Definition throttled (w : world) : bool :=
  match marker w with
  | Present (Some t) => (clock w - t <? CHECK_INTERVAL)%Z
  | Present None => false
  | Absent => false
  end.

(** [behind_count] as [check_for_updates] computes it. *)
Definition behind_count (E : env) : N :=
  match run_git E hook_rev_list with
  | Completed out => if Py.isdigit (Py.strip out) then Py.int (Py.strip out) else 0%N
  | CalledProcessError _ => 0%N
  end.

Definition pull_events (E : env) : list event :=
  [ EPrint "[UPDATE] Updating documentation...";
    EGit (INSTALL_DIR E) hook_pull;
    EPrint (match run_git E hook_pull with
            | Completed _ => "[OK] Documentation updated successfully"
            | CalledProcessError err => "[WARNING]  Update failed: " ++ Py.strip err
            end) ].

(** Everything the remote check and the update that may follow it do. *)
Definition remote_check_events (E : env) : list event :=
  if git_installed E then
    EGit (INSTALL_DIR E) hook_fetch ::
    match run_git E hook_fetch with
    | CalledProcessError _ => []
    | Completed _ =>
        EGit (INSTALL_DIR E) hook_rev_list ::
        match run_git E hook_rev_list with
        | CalledProcessError _ => []
        | Completed _ => if (0 <? behind_count E)%N then pull_events E else []
        end
    end
  else [].

Definition is_touch (e : event) : bool :=
  match e with ETouch _ => true | _ => false end.

End HelperSpec.

Module SettingsSpec.
Import Json.

(** [settings['hooks']], or the empty object when there is none. *)
Definition hooks_of (settings : json) : json :=
  match py_getitem settings "hooks" with
  | Some h => h
  | None => JObj []
  end.

(** [settings'] agrees with [settings] on every top-level key other than
    [hooks] and on every key of [hooks] other than [PreToolUse]. *)
Definition same_outside_pre_tool_use (settings settings' : json) : Prop :=
  (forall k, k <> "hooks" -> py_getitem settings' k = py_getitem settings k)
  /\ (forall k, k <> "PreToolUse" ->
        py_getitem (hooks_of settings') k = py_getitem (hooks_of settings) k).

(** The schema of the settings file: an object whose [hooks], if present,
    is an object whose [PreToolUse], if present, is a list of objects, each
    with an optional list [hooks] of objects with an optional string
    [command]. *)
Definition hook_ok (h : json) : bool :=
  match h with
  | JObj m =>
      match dict_get "command" m with
      | None => true
      | Some (JStr _) => true
      | Some _ => false
      end
  | _ => false
  end.

Definition entry_ok (e : json) : bool :=
  match e with
  | JObj m =>
      match dict_get "hooks" m with
      | None => true
      | Some (JArr hs) => forallb hook_ok hs
      | Some _ => false
      end
  | _ => false
  end.

Definition settings_ok (s : json) : bool :=
  match s with
  | JObj m =>
      match dict_get "hooks" m with
      | None => true
      | Some (JObj h) =>
          match dict_get "PreToolUse" h with
          | None => true
          | Some (JArr es) => forallb entry_ok es
          | Some _ => false
          end
      | Some _ => false
      end
  | _ => false
  end.

(** The entries of [hooks.PreToolUse], when the path exists and is a list. *)
Definition pre_tool_use_of (settings : json) : list json :=
  match py_getitem (hooks_of settings) "PreToolUse" with
  | Some (JArr es) => es
  | _ => []
  end.

Definition settings_sample : json :=
  JObj [ ("model", JStr "opus");
         ("hooks",
          JObj [ ("PreToolUse",
                  JArr [ JObj [ ("matcher", JStr "Bash");
                                ("hooks", JArr [ JObj [ ("type", JStr "command");
                                                        ("command", JStr "echo hi") ] ]) ];
                         JObj [ ("matcher", JStr "Read");
                                ("hooks", JArr [ JObj [ ("type", JStr "command");
                                                        ("command",
                                                         JStr "~/.claude-code-docs/claude-docs-helper.sh hook-check") ] ]) ] ]);
                 ("PostToolUse", JArr []) ]);
         ("theme", JStr "dark") ].

Definition install_env_sample : Install.env :=
  {| Install.HOME := "/home/u";
     Install.run_git := fun _ _ => Completed "";
     Install.reply := "n";
     Install.platform_windows := false;
     Install.shell_script_exists := false |}.

Definition install_world_sample : Install.world :=
  {| Install.cwd := "/tmp";
     Install.settings_file := Parsed settings_sample;
     Install.trace := [] |}.

Definition uninstall_env_sample : Uninstall.env :=
  {| Uninstall.HOME := "/home/u";
     Uninstall.installations := ["/home/u/.claude-code-docs"; "/home/u/old-docs"];
     Uninstall.reply := "y";
     Uninstall.git_installed := true;
     Uninstall.run_git := fun dir _ =>
       if dir =? "/home/u/old-docs" then Completed " M docs/hooks.md" else Completed "";
     Uninstall.has_dot_git := fun _ => true;
     Uninstall.unlink_error := None;
     Uninstall.copy_error := None;
     Uninstall.write_error := None;
     Uninstall.rmtree_error := fun _ => None;
     Uninstall.type_error_text := "'NoneType' object is not iterable";
     Uninstall.platform_windows := false |}.

Definition uninstall_world_sample : Uninstall.world :=
  {| Uninstall.command_file := true;
     Uninstall.settings_file := Parsed settings_sample;
     Uninstall.backup_file := None;
     Uninstall.dirs := ["/home/u/.claude-code-docs"; "/home/u/old-docs"];
     Uninstall.trace := [] |}.

End SettingsSpec.

Module UninstallSpec.
Import Json Uninstall SettingsSpec.

Definition status_args : list string := ["status"; "--porcelain"].

(** [path] is a working copy ([.git] exists) whose porcelain status, as
    [git_operation] returns it, is not empty. *)
Definition dirty (E : env) (path : string) : bool :=
  has_dot_git E path && git_installed E &&
  match run_git E path status_args with
  | Completed out => Py.truthy (Py.strip out)
  | CalledProcessError _ => false
  end.

Definition preserved_line (path : string) : event :=
  EPrint ("[WARNING] Preserved " ++ path ++ " (has uncommitted changes)").

Definition removed_line (path : string) : event :=
  EPrint ("[OK] Removed " ++ path).

Definition not_removed_line (path e : string) : event :=
  EPrint ("[WARNING] Could not remove " ++ path ++ ": " ++ e).

(** The status query of one turn of the loop, when it is made. *)
Definition probe_events (E : env) (path : string) : list event :=
  if has_dot_git E path && git_installed E then [EGit path status_args] else [].

Definition out (w : world) (evs : list event) : world :=
  {| command_file := command_file w; settings_file := settings_file w;
     backup_file := backup_file w; dirs := dirs w;
     trace := (trace w ++ evs)%list |}.

Definition without_dir (path : string) (w : world) : world :=
  {| command_file := command_file w; settings_file := settings_file w;
     backup_file := backup_file w;
     dirs := filter (fun d => negb (d =? path)) (dirs w);
     trace := trace w |}.

(** The world after one turn of the loop of [remove_directories]. *)
Definition step (E : env) (path : string) (w : world) : world :=
  if negb (dir_exists w path) then w
  else if dirty E path then out w (probe_events E path ++ [preserved_line path])
  else match rmtree_error E path with
       | None =>
           out (without_dir path w)
               (probe_events E path ++ [ERmtree path; removed_line path])
       | Some e =>
           out w (probe_events E path ++ [ERmtree path; not_removed_line path e])
       end.

(** The world after the whole loop. *)
Definition sweep (E : env) (paths : list string) (w : world) : world :=
  fold_left (fun w path => step E path w) paths w.

(** What one turn of the loop adds to the trace. *)
Definition step_events (E : env) (path : string) (w : world) : list event :=
  if negb (dir_exists w path) then []
  else if dirty E path then (probe_events E path ++ [preserved_line path])%list
  else match rmtree_error E path with
       | None => (probe_events E path ++ [ERmtree path; removed_line path])%list
       | Some e => (probe_events E path ++ [ERmtree path; not_removed_line path e])%list
       end.

(** The turn removes the directory. *)
Definition removes (E : env) (path : string) (w : world) : bool :=
  dir_exists w path && negb (dirty E path) &&
  match rmtree_error E path with None => true | Some _ => false end.

Definition intro_events (E : env) : list event :=
  ([ EPrint "Claude Code Documentation Mirror - Uninstaller";
     EPrint "==============================================";
     EPrint "" ] ++
   match installations E with
   | [] => []
   | _ :: _ =>
       EPrint "Found installations at:" ::
       map (fun path => EPrint ("  [DIR] " ++ path)) (installations E) ++ [EPrint ""]
   end ++
   [ EPrint "This will remove:";
     EPrint "  * The /docs command from ~/.claude/commands/docs.md";
     EPrint "  * All claude-code-docs hooks from ~/.claude/settings.json" ] ++
   match installations E with
   | [] => []
   | _ :: _ => [EPrint ("  " ++ BULLET ++ " Installation directories (if safe to remove)")]
   end ++
   [ EPrint ""; EInput "Continue? (y/N): " ])%list.

Definition closing_events (E : env) (success : bool) : list event :=
  ([ EPrint "";
     EPrint (if success then "[SUCCESS] Uninstall complete!"
             else "[WARNING] Uninstall completed with warnings");
     EPrint "";
     EPrint "To reinstall:" ] ++
   if platform_windows E then
     [ EPrint "curl -fsSL https://raw.githubusercontent.com/ericbuess/claude-code-docs/main/install.py -o install.py && python install.py" ]
   else
     [ EPrint "curl -fsSL https://raw.githubusercontent.com/ericbuess/claude-code-docs/main/install.sh | bash";
       EPrint "# or use Python installer:";
       EPrint "python <(curl -fsSL https://raw.githubusercontent.com/ericbuess/claude-code-docs/main/install.py)" ])%list.

(** The world after [remove_directories]. *)
Definition after_directories (E : env) (w : world) : world :=
  match installations E with
  | [] => w
  | _ :: _ => sweep E (installations E) (out w [EPrint ""])
  end.




Definition unlink_raises (E : env) : bool :=
  match unlink_error E with Some _ => true | None => false end.

Definition separator (E : env) : list event :=
  match installations E with
  | [] => []
  | _ :: _ => [EPrint ""]
  end.










End UninstallSpec.

Module UpdateSpec.
Import Install InstallSpec.

Definition rev_parse_args : list string := ["rev-parse"; "--abbrev-ref"; "HEAD"].

(** What every run of [safe_git_update] starts with. *)
Definition first_try (d branch_line : string) : list event :=
  [ EChdir d;
    EGit d rev_parse_args;
    EPrint branch_line;
    EPrint "Updating to latest version...";
    EGit d pull_args ].

Definition second_try (d : string) : list event :=
  [ EPrint "  Standard update failed, trying harder...";
    EGit d fetch_args ].

Definition offline_warning : list event :=
  [ EPrint "  [WARNING]  Could not fetch from GitHub (offline?)" ].

(** The status query succeeded and listed a line outside the manifest. *)
Definition asks (E : env) : bool :=
  match run_git E (INSTALL_DIR E) status_args with
  | Completed out =>
      Py.truthy (Py.strip out) &&
      match filter is_non_manifest (Py.splitlines (Py.strip out)) with
      | [] => false
      | _ :: _ => true
      end
  | CalledProcessError _ => false
  end.

(** The reply, lowercased, is not "y". *)
Definition declines (E : env) : bool := negb (Py.lower (reply E) =? "y").

Definition pull_ok (E : env) : bool :=
  match run_git E (INSTALL_DIR E) pull_args with
  | Completed _ => true
  | CalledProcessError _ => false
  end.

Definition fetch_ok (E : env) : bool :=
  match run_git E (INSTALL_DIR E) fetch_args with
  | Completed _ => true
  | CalledProcessError _ => false
  end.

(** Everything a run of [safe_git_update] does, by the answers it gets. *)
Definition update_events (E : env) : list event :=
  let d := INSTALL_DIR E in
  (first_try d (branch_line E) ++
   if pull_ok E then []
   else second_try d ++
        if fetch_ok E then
          EGit d status_args ::
          (if asks E
           then ask ++ (if declines E then cancelled else reset_to_remote d)
           else reset_to_remote d)
        else offline_warning)%list.

(** What [safe_git_update] returns, by the answers it gets. *)
Definition update_result (E : env) : bool :=
  pull_ok E || (fetch_ok E && negb (asks E && declines E)).

(** The events a run added to the trace. *)
Definition new_events (w w' : world) : list event :=
  skipn (List.length (trace w)) (trace w').

Definition env_pull_ok : env :=
  {| HOME := "/home/u";
     run_git := fun _ _ => Completed "main";
     reply := "n";
     platform_windows := false;
     shell_script_exists := false |}.

Definition env_offline : env :=
  {| HOME := "/home/u";
     run_git := fun _ args =>
       match args with
       | "rev-parse" :: _ => Completed "main"
       | _ => CalledProcessError "fatal: unable to access remote"
       end;
     reply := "n";
     platform_windows := false;
     shell_script_exists := false |}.

Definition env_status_fails : env :=
  {| HOME := "/home/u";
     run_git := fun _ args =>
       match args with
       | "pull" :: _ => CalledProcessError "error: unmerged files"
       | "status" :: _ => CalledProcessError "fatal: index file corrupt"
       | _ => Completed "main"
       end;
     reply := "n";
     platform_windows := false;
     shell_script_exists := false |}.

End UpdateSpec.

Module SettingsMoreSpec.
Import Json.

(** The entry has a hook whose command holds the marker (and testing it
    does not raise). *)
Definition is_docs (e : json) : bool :=
  match is_docs_entry e with
  | Some true => true
  | _ => false
  end.

(** The top level is an object, [hooks] (if there) is an object and
    [hooks.PreToolUse] (if there) is a list. *)
Definition shape_ok (s : json) : bool :=
  match s with
  | JObj m =>
      match dict_get "hooks" m with
      | None => true
      | Some (JObj hm) =>
          match dict_get "PreToolUse" hm with
          | None => true
          | Some (JArr _) => true
          | Some _ => false
          end
      | Some _ => false
      end
  | _ => false
  end.

(** The settings [setup_hooks] writes when there were none to start from. *)
Definition fresh_settings (hook_command : string) : json :=
  JObj [ ("hooks",
          JObj [ ("PreToolUse", JArr [Install.new_hook_entry hook_command]) ]) ].

(** What the uninstaller makes of an object [m] whose [hooks] is the
    object [hm], once it has decided which entries to keep. *)
Definition stripped (m hm : list (string * json)) (kept : list json) : json :=
  let hm' := match kept with
             | [] => dict_del "PreToolUse" (dict_set "PreToolUse" (JArr kept) hm)
             | _ :: _ => dict_set "PreToolUse" (JArr kept) hm
             end in
  match hm' with
  | [] => JObj (dict_del "hooks" (dict_set "hooks" (JObj hm') m))
  | _ :: _ => JObj (dict_set "hooks" (JObj hm') m)
  end.

Definition settings_null_hooks : json :=
  JObj [ ("model", JStr "opus"); ("hooks", JNull) ].

Definition settings_plain : json :=
  JObj [ ("model", JStr "opus"); ("theme", JStr "dark") ].

End SettingsMoreSpec.

Module UninstallMoreSpec.
Import Json Uninstall SettingsSpec UninstallSpec.

(** The settings are an object without [hooks], or with an object [hooks]
    without [PreToolUse]. *)
Definition lacks_pre_tool_use (s : json) : bool :=
  match s with
  | JObj m =>
      match dict_get "hooks" m with
      | None => true
      | Some (JObj hm) =>
          match dict_get "PreToolUse" hm with
          | None => true
          | Some _ => false
          end
      | Some _ => false
      end
  | _ => false
  end.

Definition warnings_line : event :=
  EPrint "[WARNING] Uninstall completed with warnings".

Definition env_declines : env :=
  {| HOME := "/home/u";
     installations := ["/home/u/.claude-code-docs"];
     reply := "yes";
     git_installed := true;
     run_git := fun _ _ => Completed "";
     has_dot_git := fun _ => true;
     unlink_error := None;
     copy_error := None;
     write_error := None;
     rmtree_error := fun _ => None;
     type_error_text := "'NoneType' object is not iterable";
     platform_windows := false |}.

Definition world_no_hooks : world :=
  {| command_file := true;
     settings_file := Parsed (JObj [ ("model", JStr "opus") ]);
     backup_file := None;
     dirs := ["/home/u/.claude-code-docs"; "/home/u/old-docs"];
     trace := [] |}.

End UninstallMoreSpec.

Module HelperMoreSpec.
Import Helper HelperSpec.

Definition WHATS_NEW : list string :=
  ["what's new"; "whats new"; "what is new"; "changelog"].

(** git is there, the fetch succeeds and the count of commits behind is
    positive. *)
Definition updates_found (E : env) : bool :=
  git_installed E
  && match run_git E hook_fetch with Completed _ => true | CalledProcessError _ => false end
  && (0 <? behind_count E)%N.

Definition updates_line (E : env) : event :=
  EPrint ("[UPDATE] " ++ Py.str_of_N (behind_count E) ++ " update(s) available").

Definition mirror_empty_doc : fs :=
  {| docs := [plain "hooks.md" ""; plain "mcp.md" "# MCP"];
     elsewhere := nothing_elsewhere;
     stat_error := no_stat_error |}.

Definition mirror_changelog : fs :=
  {| docs := [plain "changelog.md" "# Changelog"];
     elsewhere := nothing_elsewhere;
     stat_error := no_stat_error |}.

End HelperMoreSpec.

(** * The installer and the directories of older installations

    [migrate_installation] and [cleanup_old_installations] of [install.py].
    The world of [Install] is extended by the set of directories that
    exist; directories are taken to be disjoint, as for the uninstaller. *)

Module InstallDirs.

Record env : Type := {
  base : Install.env;
  has_dot_git : string -> bool;             (* [(old_dir / ".git").exists()] *)
  rmtree_error : string -> option string    (* [shutil.rmtree(old_dir)] raises *)
}.

Record world : Type := {
  io : Install.world;
  dirs : list string                        (* the directories that exist *)
}.

Definition REPO_URL : string := "https://github.com/ericbuess/claude-code-docs.git".

(** An action of [Install] as an action on the extended world. *)
Definition lift {A} (m : M Install.world A) : M world A :=
  fun w => (fst (m (io w)), {| io := snd (m (io w)); dirs := dirs w |}).

Section WithEnv.
Variable E : env.

Definition emit (e : event) : M world unit := lift (Install.emit e).

Definition print (line : string) : M world unit := lift (Install.print line).

Definition git_operation (args : list string) (dir : option string)
  : M world (bool * string) :=
  lift (Install.git_operation (base E) args dir).

Definition dir_exists (w : world) (path : string) : bool := Py.mem path (dirs w).

(** [shutil.rmtree(path)] that did not raise *)
Definition rmtree (path : string) : M world unit :=
  fun w => (tt, {| io := io w;
                   dirs := filter (fun d => negb (d =? path)) (dirs w) |}).

(** [git clone -b main REPO_URL INSTALL_DIR]; a clone that succeeds has
    made the directory. *)
Definition clone : M world (bool * string) :=
  '(success, output) <-
     git_operation ["clone"; "-b"; Install.INSTALL_BRANCH; REPO_URL;
                    Install.INSTALL_DIR (base E)] None ;;
  fun w =>
    ((success, output),
     if success
     then {| io := io w; dirs := Install.INSTALL_DIR (base E) :: dirs w |}
     else w).

(** [migrate_installation(old_dir)], lines 148-181. The result is [None]
    when the function leaves by [sys.exit(1)]. *)
Definition migrate_installation (old_dir : string) : M world (option unit) :=
  print ("[INFO] Found existing installation at: " ++ old_dir) ;;
  print ("   Migrating to: " ++ Install.INSTALL_DIR (base E)) ;;
  print "" ;;
  should_preserve <-
    (if has_dot_git E old_dir then
       '(success, output) <- git_operation ["status"; "--porcelain"] (Some old_dir) ;;
       if success && Py.truthy output then
         print "[WARNING]  Uncommitted changes detected in old installation" ;;
         ret true
       else ret false
     else ret false) ;;
  print "Installing fresh at ~/.claude-code-docs..." ;;
  '(success, output) <- clone ;;
  if negb success then
    print ("[ERROR] Failed to clone repository: " ++ output) ;;
    ret None
  else
    (if negb should_preserve then
       emit (ERmtree old_dir) ;;
       match rmtree_error E old_dir with
       | None => rmtree old_dir ;; print "[OK] Old installation removed"
       | Some e => print ("[WARNING]  Could not remove old installation: " ++ e)
       end
     else
       print ("[INFO] Old installation preserved at: " ++ old_dir) ;;
       print "   (has uncommitted changes)") ;;
    print "" ;;
    print "[SUCCESS] Migration complete!" ;;
    ret (Some tt).

(** One turn of the loop of [cleanup_old_installations]. *)
Definition cleanup_one (old_dir : string) : M world unit :=
  fun w =>
    if negb (dir_exists w old_dir) then (tt, w) else
    (print ("  - " ++ old_dir) ;;
     if has_dot_git E old_dir then
       '(success, output) <- git_operation ["status"; "--porcelain"] (Some old_dir) ;;
       if success && negb (Py.truthy output) then
         emit (ERmtree old_dir) ;;
         match rmtree_error E old_dir with
         | None => rmtree old_dir ;; print "    [OK] Removed (clean)"
         | Some e => print ("    [WARNING]  Could not remove: " ++ e)
         end
       else print "    [WARNING]  Preserved (has uncommitted changes)"
     else print "    [WARNING]  Preserved (not a git repo)") w.

(** [cleanup_old_installations(old_installations)], lines 426-453. *)
Definition cleanup_old_installations (old_installations : list string)
  : M world unit :=
  match old_installations with
  | [] => ret tt
  | _ :: _ =>
      print "" ;;
      print "Cleaning up old installations..." ;;
      print ("Found " ++ Py.str_of_N (N.of_nat (List.length old_installations))
                ++ " old installation(s) to remove:") ;;
      for_each old_installations cleanup_one
  end.

End WithEnv.

End InstallDirs.

Module InstallDirsSpec.
Import InstallDirs.

Definition status_args : list string := ["status"; "--porcelain"].

Definition clone_args (E : env) : list string :=
  ["clone"; "-b"; Install.INSTALL_BRANCH; REPO_URL; Install.INSTALL_DIR (base E)].

(** The porcelain status of [path] is obtained and is empty. *)
Definition status_clean (E : env) (path : string) : bool :=
  match Install.run_git (base E) path status_args with
  | Completed out => negb (Py.truthy (Py.strip out))
  | CalledProcessError _ => false
  end.

(** The porcelain status of [path] is obtained and is not empty. *)
Definition status_dirty (E : env) (path : string) : bool :=
  match Install.run_git (base E) path status_args with
  | Completed out => Py.truthy (Py.strip out)
  | CalledProcessError _ => false
  end.

(** [cleanup_old_installations] may remove [path]. *)
Definition clean_repo (E : env) (path : string) : bool :=
  has_dot_git E path && status_clean E path.

(** [migrate_installation] keeps [path]. *)
Definition should_preserve (E : env) (path : string) : bool :=
  has_dot_git E path && status_dirty E path.

(** The clone is run where the installer was started. *)
Definition clone_succeeds (E : env) (w : world) : bool :=
  match Install.run_git (base E) (Install.cwd (io w)) (clone_args E) with
  | Completed _ => true
  | CalledProcessError _ => false
  end.

Definition events_of (w : world) : list event := Install.trace (io w).

(** The world after more events. *)
Definition out (w : world) (evs : list event) : world :=
  {| io := {| Install.cwd := Install.cwd (io w);
              Install.settings_file := Install.settings_file (io w);
              Install.trace := (Install.trace (io w) ++ evs)%list |};
     dirs := dirs w |}.

(** What [migrate_installation] does up to and including the clone. *)
Definition opening_events (E : env) (old_dir : string) (w : world) : list event :=
  ([ EPrint ("[INFO] Found existing installation at: " ++ old_dir);
     EPrint ("   Migrating to: " ++ Install.INSTALL_DIR (base E));
     EPrint "" ] ++
   (if has_dot_git E old_dir then
      EGit old_dir status_args ::
      (if status_dirty E old_dir
       then [EPrint "[WARNING]  Uncommitted changes detected in old installation"]
       else [])
    else []) ++
   [ EPrint "Installing fresh at ~/.claude-code-docs...";
     EGit (Install.cwd (io w)) (clone_args E) ])%list.

Definition env_old_plain : env :=
  {| base := {| Install.HOME := "/home/u";
                Install.run_git := fun _ _ => Completed "";
                Install.reply := "n";
                Install.platform_windows := false;
                Install.shell_script_exists := false |};
     has_dot_git := fun p => p =? "/home/u/repo";
     rmtree_error := fun _ => None |}.

Definition env_no_network : env :=
  {| base := {| Install.HOME := "/home/u";
                Install.run_git := fun _ args =>
                  match args with
                  | "clone" :: _ => CalledProcessError "fatal: unable to access"
                  | _ => Completed ""
                  end;
                Install.reply := "n";
                Install.platform_windows := false;
                Install.shell_script_exists := false |};
     has_dot_git := fun _ => true;
     rmtree_error := fun _ => None |}.

Definition world_old : world :=
  {| io := {| Install.cwd := "/tmp"; Install.settings_file := Json.Missing;
              Install.trace := [] |};
     dirs := ["/home/u/repo"; "/home/u/notes"] |}.

End InstallDirsSpec.

(** * The age of the documentation

    [format_time_ago] of [claude-docs-helper.py], lines 102-115, as a
    function of [datetime.now()] and its argument, both in microseconds. *)

Module HelperTime.

Definition MINUTE : Z := 60 * 1000000.
Definition HOUR : Z := 3600 * 1000000.
Definition DAY : Z := 86400 * 1000000.

(** [f"{n}"] for an [int] *)
Definition str (n : Z) : string := NilEmpty.string_of_int (Z.to_int n).

(** ['s' if n != 1 else ''] *)
Definition plural (n : Z) : string := if (n =? 1)%Z then "" else "s".

(** [int(diff.total_seconds() / 60)] and [int(diff.total_seconds() / 3600)]
    truncate toward zero; [diff.days] rounds down. The two float divisions
    are exact to the whole unit for differences below 10^15 microseconds
    (some 31 years) in absolute value. *)
Definition format_time_ago (now dt : Z) : string :=
  let diff := (now - dt)%Z in
  if (diff <? HOUR)%Z then
    let minutes := Z.quot diff MINUTE in
    str minutes ++ " minute" ++ plural minutes ++ " ago"
  else if (diff <? DAY)%Z then
    let hours := Z.quot diff HOUR in
    str hours ++ " hour" ++ plural hours ++ " ago"
  else
    let days := (diff / DAY)%Z in
    str days ++ " day" ++ plural days ++ " ago".


End HelperTime.

(** * Properties *)

(** ** The state monad *)

Lemma bind_run {W A B} (m : M W A) (k : A -> M W B) (w : W) :
  bind m k w = k (fst (m w)) (snd (m w)).
Proof. unfold bind. destruct (m w). reflexivity. Qed.

(** ** Strings *)

Lemma contains_prefix (b s : string) :
  String.prefix b s = true -> Py.contains b s = true.
Proof. intros H. destruct s; cbn [Py.contains]; rewrite H; reflexivity. Qed.

Lemma contains_tail (b : string) (c : ascii) (s : string) :
  Py.contains b s = true -> Py.contains b (String c s) = true.
Proof. intros H. cbn [Py.contains]. rewrite H. apply orb_true_r. Qed.

Lemma prefix_app_contains (a b s : string) :
  String.prefix (a ++ b) s = true -> Py.contains b s = true.
Proof.
  revert s; induction a as [|c a IH]; intros s H.
  - apply contains_prefix. exact H.
  - destruct s as [|c' s]; [discriminate|].
    cbn [String.append String.prefix] in H.
    destruct (Ascii.ascii_dec c c') as [->|Hne]; [|discriminate].
    apply contains_tail, IH, H.
Qed.

Lemma contains_app_r (a b s : string) :
  Py.contains (a ++ b) s = true -> Py.contains b s = true.
Proof.
  induction s as [|c s IH]; cbn [Py.contains]; intros H.
  - rewrite orb_false_r in H. apply prefix_app_contains in H. exact H.
  - apply orb_true_iff in H as [H|H].
    + apply prefix_app_contains in H. exact H.
    + fold (Py.contains b (String c s)). apply contains_tail, IH, H.
Qed.


Lemma splitlines_nonempty (s : string) (l : string) :
  In l (Py.splitlines s) -> Py.truthy s = true.
Proof. destruct s; simpl; [contradiction | reflexivity]. Qed.

(** ** install.py: the update reconciler *)

Module InstallFacts.
Import Install InstallSpec.

Lemma non_manifest_filter_nonempty (status line : string) :
  In line (Py.splitlines status) ->
  Py.contains "docs_manifest.json" line = false ->
  exists l ls, filter is_non_manifest (Py.splitlines status) = l :: ls.
Proof.
  intros Hin Hc.
  assert (Hf : In line (filter is_non_manifest (Py.splitlines status))).
  { apply filter_In; split; [exact Hin|].
    unfold is_non_manifest. rewrite Hc. simpl.
    destruct (Py.contains "docs\docs_manifest.json" line) eqn:Hd; [|reflexivity].
    apply (contains_app_r "docs\" "docs_manifest.json") in Hd. congruence. }
  destruct (filter is_non_manifest (Py.splitlines status)) as [|l ls];
    [contradiction | eauto].
Qed.

Lemma manifest_only_filter_empty (status : string) :
  Forall (fun line => Py.contains "docs_manifest.json" line = true)
         (Py.splitlines status) ->
  filter is_non_manifest (Py.splitlines status) = [].
Proof.
  induction 1 as [|l ls Hl _ IH]; simpl; [reflexivity|].
  unfold is_non_manifest at 1. rewrite Hl. simpl. exact IH.
Qed.

Lemma git_value (E : env) (args : list string) (w : world) :
  fst (git_operation E args None w) =
    match run_git E (cwd w) args with
    | Completed out => (true, Py.strip out)
    | CalledProcessError err => (false, Py.strip err)
    end.
Proof. unfold git_operation. destruct (run_git E (cwd w) args); reflexivity. Qed.

Lemma git_world (E : env) (args : list string) (w : world) :
  snd (git_operation E args None w) =
    {| cwd := cwd w; settings_file := settings_file w;
       trace := (trace w ++ [EGit (cwd w) args])%list |}.
Proof. unfold git_operation. destruct (run_git E (cwd w) args); reflexivity. Qed.

Ltac run_io :=
  repeat (rewrite bind_run; rewrite ?git_value, ?git_world; cbn [fst snd cwd settings_file trace]).

(** A run whose pull fails, whose fetch succeeds and whose status shows a
    change outside the manifest: it asks, then either stops or resets. *)
Lemma run_asked (E : env) (w : world) perr fout sout line :
  run_git E (INSTALL_DIR E) pull_args = CalledProcessError perr ->
  run_git E (INSTALL_DIR E) fetch_args = Completed fout ->
  run_git E (INSTALL_DIR E) status_args = Completed sout ->
  In line (Py.splitlines (Py.strip sout)) ->
  Py.contains "docs_manifest.json" line = false ->
  safe_git_update E w =
    if negb (Py.lower (reply E) =? "y") then
      (false, {| cwd := INSTALL_DIR E; settings_file := settings_file w;
                 trace := (trace w ++ probe (INSTALL_DIR E) (branch_line E)
                             ++ ask ++ cancelled)%list |})
    else
      (true, {| cwd := INSTALL_DIR E; settings_file := settings_file w;
                trace := (trace w ++ probe (INSTALL_DIR E) (branch_line E)
                            ++ ask ++ reset_to_remote (INSTALL_DIR E))%list |}).
Proof.
  intros Hpull Hfetch Hstatus Hin Hc.
  destruct (non_manifest_filter_nonempty _ _ Hin Hc) as (l & ls & Hf).
  pose proof (splitlines_nonempty _ _ Hin) as Ht.
  unfold pull_args, fetch_args, status_args in *.
  unfold safe_git_update, INSTALL_BRANCH, chdir, print, input, emit, ret.
  unfold branch_line.
  rewrite bind_run. cbn [fst snd cwd settings_file trace].
  rewrite bind_run, git_value, git_world. cbn [fst snd cwd settings_file trace].
  destruct (run_git E (INSTALL_DIR E) ["rev-parse"; "--abbrev-ref"; "HEAD"]) as [out|err];
    [ cbn iota; destruct (negb (Py.strip out =? "main"))
    | change (negb ("unknown" =? "main")) with true ];
    run_io; rewrite Hpull; run_io; rewrite Hfetch; cbn [negb]; run_io;
    rewrite Hstatus; cbn iota; rewrite Ht, Hf; run_io;
    destruct (negb (Py.lower (reply E) =? "y")); run_io;
    unfold probe, ask, cancelled, reset_to_remote, pull_args, fetch_args,
      status_args, prompt;
    rewrite <- ?app_assoc; reflexivity.
Qed.

(** A run whose pull fails, whose fetch succeeds and whose status lists the
    manifest only (or nothing): no question, straight to the reset. *)
Lemma run_manifest_only (E : env) (w : world) perr fout sout :
  run_git E (INSTALL_DIR E) pull_args = CalledProcessError perr ->
  run_git E (INSTALL_DIR E) fetch_args = Completed fout ->
  run_git E (INSTALL_DIR E) status_args = Completed sout ->
  Forall (fun line => Py.contains "docs_manifest.json" line = true)
         (Py.splitlines (Py.strip sout)) ->
  safe_git_update E w =
    (true, {| cwd := INSTALL_DIR E; settings_file := settings_file w;
              trace := (trace w ++ probe (INSTALL_DIR E) (branch_line E)
                          ++ reset_to_remote (INSTALL_DIR E))%list |}).
Proof.
  intros Hpull Hfetch Hstatus Hall.
  pose proof (manifest_only_filter_empty _ Hall) as Hf.
  unfold pull_args, fetch_args, status_args in *.
  unfold safe_git_update, INSTALL_BRANCH, chdir, print, input, emit, ret.
  unfold branch_line.
  rewrite bind_run. cbn [fst snd cwd settings_file trace].
  rewrite bind_run, git_value, git_world. cbn [fst snd cwd settings_file trace].
  destruct (run_git E (INSTALL_DIR E) ["rev-parse"; "--abbrev-ref"; "HEAD"]) as [out|err];
    [ cbn iota; destruct (negb (Py.strip out =? "main"))
    | change (negb ("unknown" =? "main")) with true ];
    run_io; rewrite Hpull; run_io; rewrite Hfetch; cbn [negb]; run_io;
    rewrite Hstatus; cbn iota; rewrite Hf;
    destruct (Py.truthy (Py.strip sout)); run_io;
    unfold probe, reset_to_remote, pull_args, fetch_args, status_args;
    rewrite <- ?app_assoc; reflexivity.
Qed.

(** C1 (as amended): when the pull fails, the fetch succeeds and the
    porcelain status has a line that does not contain the text
    docs_manifest.json, the operator is asked, whatever the reply will be.
    If the reply is neither "y" nor "Y", the run returns False; after the
    failed pull and the fetch it issues no state-changing git command (none
    of merge --abort, rebase --abort, reset --hard, clean -fd; the status
    query is the last git command at all); the working copy is left as the
    status query found it, which is as it was before the run when the pull,
    the fetch and the two queries did not touch it; and the last line
    printed is the cancellation notice, not the success notice. *)
Theorem safe_git_update_declined (E : env) (w : world) perr fout sout line
        (tree : Type) (effect : list string -> tree -> tree) (before : tree) :
  run_git E (INSTALL_DIR E) pull_args = CalledProcessError perr ->
  run_git E (INSTALL_DIR E) fetch_args = Completed fout ->
  run_git E (INSTALL_DIR E) status_args = Completed sout ->
  In line (Py.splitlines (Py.strip sout)) ->
  Py.contains "docs_manifest.json" line = false ->
  let d := INSTALL_DIR E in
  let r := safe_git_update E w in
  let asked := (probe d (branch_line E) ++ ask)%list in
  let done := declined_run d (branch_line E) in
  (exists rest, trace (snd r) = (trace w ++ asked ++ rest)%list)
  /\ last asked (EPrint "") = EInput prompt
  /\ (Py.lower (reply E) <> "y" ->
      r = (false, {| cwd := d; settings_file := settings_file w;
                     trace := (trace w ++ done)%list |})
      /\ forallb (fun e => negb (destructive e)) done = true
      /\ filter is_git done = map (EGit d) enquiries
      /\ working_copy effect before done
         = working_copy effect before (probe d (branch_line E))
      /\ ((forall args t, In args enquiries -> effect args t = t) ->
          working_copy effect before done = before)
      /\ last done (EPrint "") =
           EPrint "Installation cancelled. Your local changes are preserved."
      /\ ~ In (EPrint "  [OK] Updated successfully to clean state") done).
Proof.
  intros Hpull Hfetch Hstatus Hin Hc d r asked done.
  pose proof (run_asked E w _ _ _ _ Hpull Hfetch Hstatus Hin Hc) as Hrun.
  fold r in Hrun. fold d in Hrun.
  split; [|split].
  - rewrite Hrun. subst asked.
    destruct (negb (Py.lower (reply E) =? "y")); cbn [snd trace];
      eexists; rewrite <- !app_assoc; reflexivity.
  - reflexivity.
  - intros Hreply.
    split.
    { rewrite Hrun. destruct (Py.lower (reply E) =? "y") eqn:Hy.
      - apply String.eqb_eq in Hy. contradiction.
      - reflexivity. }
    subst done d. unfold declined_run, probe, ask, cancelled, enquiries.
    cbn [app In forallb filter map destructive is_git negb andb last
           working_copy fold_left].
    split; [reflexivity|]. split; [reflexivity|]. split; [reflexivity|].
    split.
    { intros Hq. unfold enquiries in Hq.
      rewrite !Hq; [reflexivity | | | |]; cbn [In]; tauto. }
    split; [reflexivity|].
    intros H.
    destruct H as [H|H]; [discriminate H|].
    destruct H as [H|H]; [discriminate H|].
    destruct H as [H|H].
    { unfold branch_line in H.
      destruct (run_git E (INSTALL_DIR E) ["rev-parse"; "--abbrev-ref"; "HEAD"]);
        [destruct (negb (Py.strip stdout =? "main"))|]; discriminate H. }
    repeat (destruct H as [H|H]; [discriminate H|]). exact H.
Qed.

Lemma safe_git_update_declined_witness :
  safe_git_update env_declining world0 =
    (false, {| cwd := INSTALL_DIR env_declining; settings_file := Json.Missing;
               trace := declined_run (INSTALL_DIR env_declining)
                                     (branch_line env_declining) |})
  /\ working_copy untouched ["docs/hooks.md"]
       (declined_run (INSTALL_DIR env_declining) (branch_line env_declining))
     = ["docs/hooks.md"].
Proof.
  destruct (safe_git_update_declined env_declining world0
              "error: unmerged files" "main" " M docs/hooks.md" "M docs/hooks.md"
              (list string) untouched ["docs/hooks.md"]) as (_ & _ & H).
  - reflexivity.
  - reflexivity.
  - reflexivity.
  - vm_compute. left. reflexivity.
  - reflexivity.
  - destruct H as (Hrun & _ & _ & _ & Hsame & _).
    + vm_compute. discriminate.
    + split; [exact Hrun|]. apply Hsame. intros args t _. reflexivity.
Defined.

(** C1 as stated fails in three ways. The reply "Y" is not 'y', yet it
    confirms: the run goes on to reset --hard and returns True. A status
    line about another file whose name holds the manifest's
    ([notes/docs_manifest.json.bak]) does not refer to the manifest, yet
    nobody is asked and the run resets. And a pull that fails on a conflict
    has changed the working copy before the operator is asked, so that
    declining does not leave it as it was. *)
Lemma safe_git_update_declined_fails :
  (let E := env_capital_Y in
   let r := safe_git_update E world0 in
   run_git E (INSTALL_DIR E) pull_args = CalledProcessError "error: unmerged files"
   /\ run_git E (INSTALL_DIR E) fetch_args = Completed "main"
   /\ run_git E (INSTALL_DIR E) status_args = Completed " M docs/hooks.md"
   /\ Py.splitlines (Py.strip " M docs/hooks.md") = ["M docs/hooks.md"]
   /\ about_manifest "M docs/hooks.md" = false
   /\ reply E <> "y"
   /\ fst r = true
   /\ In (EGit (INSTALL_DIR E) ["reset"; "--hard"; "origin/main"]) (trace (snd r))
   /\ In (EGit (INSTALL_DIR E) ["clean"; "-fd"]) (trace (snd r)))
  /\
  (let E := env_lookalike in
   let r := safe_git_update E world0 in
   run_git E (INSTALL_DIR E) pull_args = CalledProcessError "error: unmerged files"
   /\ run_git E (INSTALL_DIR E) fetch_args = Completed "main"
   /\ run_git E (INSTALL_DIR E) status_args = Completed " M notes/docs_manifest.json.bak"
   /\ Py.splitlines (Py.strip " M notes/docs_manifest.json.bak")
      = ["M notes/docs_manifest.json.bak"]
   /\ about_manifest "M notes/docs_manifest.json.bak" = false
   /\ about_manifest "M docs/docs_manifest.json" = true
   /\ ~ In (EInput prompt) (trace (snd r))
   /\ fst r = true
   /\ In (EGit (INSTALL_DIR E) ["reset"; "--hard"; "origin/main"]) (trace (snd r)))
  /\
  (let E := env_declining in
   let r := safe_git_update E world0 in
   run_git E (INSTALL_DIR E) pull_args = CalledProcessError "error: unmerged files"
   /\ run_git E (INSTALL_DIR E) fetch_args = Completed "main"
   /\ run_git E (INSTALL_DIR E) status_args = Completed " M docs/hooks.md"
   /\ reply E = "n"
   /\ fst r = false
   /\ In (EInput prompt) (trace (snd r))
   /\ working_copy conflicting_pull [] (trace (snd r)) = ["docs/hooks.md"]
   /\ working_copy conflicting_pull [] (trace (snd r)) <> []).
Proof.
  split; [|split]; cbv zeta.
  - split; [reflexivity|]. split; [reflexivity|]. split; [reflexivity|].
    split; [vm_compute; reflexivity|]. split; [vm_compute; reflexivity|].
    split; [discriminate|].
    split; [vm_compute; reflexivity|].
    split.
    + vm_compute. repeat (first [left; reflexivity | right]).
    + vm_compute. repeat (first [left; reflexivity | right]).
  - split; [reflexivity|]. split; [reflexivity|]. split; [reflexivity|].
    split; [vm_compute; reflexivity|]. split; [vm_compute; reflexivity|].
    split; [vm_compute; reflexivity|].
    split.
    { vm_compute. intros H.
      repeat (destruct H as [H|H]; [discriminate H|]). exact H. }
    split; [vm_compute; reflexivity|].
    vm_compute. repeat (first [left; reflexivity | right]).
  - split; [reflexivity|]. split; [reflexivity|]. split; [reflexivity|].
    split; [reflexivity|]. split; [vm_compute; reflexivity|].
    split; [vm_compute; repeat (first [left; reflexivity | right])|].
    split; [vm_compute; reflexivity|]. vm_compute. discriminate.
Qed.

(** C2: when the pull fails, the fetch succeeds and every line of the
    porcelain status mentions docs_manifest.json, the run asks nothing and
    goes on to merge --abort, rebase --abort, reset --hard origin/main and
    clean -fd, in that order, and returns True. *)
Theorem safe_git_update_manifest_only (E : env) (w : world) perr fout sout :
  run_git E (INSTALL_DIR E) pull_args = CalledProcessError perr ->
  run_git E (INSTALL_DIR E) fetch_args = Completed fout ->
  run_git E (INSTALL_DIR E) status_args = Completed sout ->
  Forall (fun line => Py.contains "docs_manifest.json" line = true)
         (Py.splitlines (Py.strip sout)) ->
  let d := INSTALL_DIR E in
  let done := unprompted_reset_run d (branch_line E) in
  safe_git_update E w =
    (true, {| cwd := d; settings_file := settings_file w; trace := (trace w ++ done)%list |})
  /\ forallb (fun e => negb (is_input e)) done = true
  /\ filter is_git (skipn 8 done) =
       [ EGit d ["merge"; "--abort"];
         EGit d ["rebase"; "--abort"];
         EGit d ["reset"; "--hard"; "origin/main"];
         EGit d ["clean"; "-fd"] ].
Proof.
  intros Hpull Hfetch Hstatus Hall d done.
  split; [|split].
  - apply (run_manifest_only E w _ _ _ Hpull Hfetch Hstatus Hall).
  - reflexivity.
  - reflexivity.
Qed.

Lemma safe_git_update_manifest_only_witness :
  safe_git_update env_manifest_only world0 =
    (true, {| cwd := INSTALL_DIR env_manifest_only; settings_file := Json.Missing;
              trace := unprompted_reset_run (INSTALL_DIR env_manifest_only)
                                            (branch_line env_manifest_only) |}).
Proof.
  refine (proj1 (safe_git_update_manifest_only env_manifest_only world0
                   "error: unmerged files" "main" " M docs/docs_manifest.json"
                   _ _ _ _)).
  - reflexivity.
  - reflexivity.
  - reflexivity.
  - vm_compute. constructor; [reflexivity | constructor].
Defined.

End InstallFacts.

(** ** claude-docs-helper.py: document lookup *)

Module HelperFacts.
Import Helper HelperSpec.

(** *** Names that end in [.md] *)

Lemma ends_with_split (suf s : string) :
  ends_with suf s = true -> exists p, s = p ++ suf.
Proof.
  induction s as [|c s IH]; cbn [ends_with]; intros H.
  - rewrite orb_false_r in H. apply String.eqb_eq in H. exists "". exact H.
  - apply orb_true_iff in H as [H|H].
    + apply String.eqb_eq in H. exists "". exact H.
    + destruct (IH H) as [p ->]. exists (String c p). reflexivity.
Qed.

Lemma ends_with_app (p suf : string) : ends_with suf (p ++ suf) = true.
Proof.
  induction p as [|c p IH]; cbn [String.append].
  - destruct suf; cbn [ends_with]; rewrite String.eqb_refl; reflexivity.
  - cbn [ends_with]. rewrite IH. apply orb_true_r.
Qed.

Lemma rfind_dot_md (p : string) :
  rfind "." (p ++ ".md") = Some (String.length p).
Proof.
  induction p as [|c p IH]; [reflexivity|].
  cbn [String.append rfind String.length]. rewrite IH. reflexivity.
Qed.

Lemma substring_full (s : string) : String.substring 0 (String.length s) s = s.
Proof.
  induction s as [|c s IH]; [reflexivity|].
  cbn [String.length String.substring]. rewrite IH. reflexivity.
Qed.

Lemma substring_prefix (p q : string) :
  String.substring 0 (String.length p) (p ++ q) = p.
Proof.
  induction p as [|c p IH]; cbn [String.append String.length String.substring].
  - destruct q; reflexivity.
  - rewrite IH. reflexivity.
Qed.

Lemma substring_suffix (p q : string) :
  String.substring (String.length p) (String.length q) (p ++ q) = q.
Proof.
  induction p as [|c p IH]; cbn [String.append String.length String.substring].
  - apply substring_full.
  - exact IH.
Qed.

Lemma substring_split (k : nat) (s : string) :
  (k <= String.length s)%nat ->
  s = String.substring 0 k s ++ String.substring k (String.length s - k) s.
Proof.
  revert s. induction k as [|k IH]; intros s Hk.
  - rewrite Nat.sub_0_r, substring_full. destruct s; reflexivity.
  - destruct s as [|c s]; cbn [String.length] in Hk; [lia|].
    cbn [String.length String.substring String.append Nat.sub].
    rewrite <- (IH s) by lia. reflexivity.
Qed.

Lemma length_app (p q : string) :
  String.length (p ++ q) = (String.length p + String.length q)%nat.
Proof. induction p as [|c p IH]; cbn; [reflexivity | rewrite IH; reflexivity]. Qed.

Lemma is_md_app (p : string) : is_md (p ++ ".md") = true.
Proof.
  unfold is_md. rewrite length_app. cbn [String.length].
  replace (String.length p + 3 - 3)%nat with (String.length p) by lia.
  pose proof (substring_suffix p ".md") as Hs. cbn [String.length] in Hs.
  rewrite Hs.
  apply andb_true_intro. split; [apply Nat.leb_le; lia | reflexivity].
Qed.

Lemma is_md_split (n : string) : is_md n = true -> exists p, n = p ++ ".md".
Proof.
  unfold is_md. intros H. apply andb_prop in H as [Hlen Hsuf].
  apply Nat.leb_le in Hlen. apply String.eqb_eq in Hsuf.
  exists (String.substring 0 (String.length n - 3) n).
  pose proof (substring_split (String.length n - 3) n ltac:(lia)) as Hsp.
  replace (String.length n - (String.length n - 3))%nat with 3%nat in Hsp by lia.
  rewrite Hsuf in Hsp. exact Hsp.
Qed.

(** [glob("*.md")] matches the names that end in [.md]. *)
Lemma ends_with_is_md (n : string) : ends_with ".md" n = is_md n.
Proof.
  destruct (is_md n) eqn:Hm.
  - destruct (is_md_split n Hm) as [p ->]. apply ends_with_app.
  - destruct (ends_with ".md" n) eqn:He; [|reflexivity].
    destruct (ends_with_split _ _ He) as [p ->].
    rewrite is_md_app in Hm. discriminate Hm.
Qed.

Lemma stem_app_md (p : string) : p <> "" -> stem (p ++ ".md") = p.
Proof.
  intros Hp. unfold stem. rewrite rfind_dot_md, length_app.
  destruct p as [|c p]; [contradiction Hp; reflexivity|].
  replace ((0 <? String.length (String c p))%nat) with true by reflexivity.
  replace ((String.length (String c p) <? String.length (String c p) + String.length ".md" - 1)%nat)
    with true.
  - cbn [andb]. apply substring_prefix.
  - symmetry. apply Nat.ltb_lt. cbn. lia.
Qed.

Lemma md_stem_app_md (p : string) : p <> "" -> md_stem (p ++ ".md") = p.
Proof.
  intros Hp. unfold md_stem.
  destruct (p ++ ".md" =? ".md") eqn:He.
  - apply String.eqb_eq in He. apply (f_equal String.length) in He.
    rewrite length_app in He. cbn [String.length] in He.
    destruct p; [contradiction Hp; reflexivity | cbn in He; lia].
  - rewrite length_app. cbn [String.length].
    replace (String.length p + 3 - 3)%nat with (String.length p) by lia.
    apply substring_prefix.
Qed.

(** [Path.stem] of a name that ends in [.md] is the name without [.md],
    and [.md] itself for the name [.md]. *)
Lemma stem_md_stem (n : string) : is_md n = true -> stem n = md_stem n.
Proof.
  intros Hm. destruct (is_md_split n Hm) as [p ->].
  destruct p as [|c p]; [reflexivity|].
  rewrite stem_app_md, md_stem_app_md by discriminate. reflexivity.
Qed.

(** An entry matched by [*.md] is named [<stem>.md], unless it is named
    [.md] (whose stem is [.md] itself). *)
Lemma md_name_stem (n : string) :
  is_md n = true -> n <> ".md" -> n = md_stem n ++ ".md".
Proof.
  intros Hm Hne. destruct (is_md_split n Hm) as [p ->].
  destruct p as [|c p]; [contradiction Hne; reflexivity|].
  rewrite md_stem_app_md by discriminate. reflexivity.
Qed.

Lemma glob_md_md_files (r : fs) : glob_md r = md_files r.
Proof.
  unfold glob_md, md_files. apply filter_ext. intros f. apply ends_with_is_md.
Qed.

Lemma find_filter_ext {A} (keep p q : A -> bool) (l : list A) :
  (forall x, keep x = true -> p x = q x) ->
  find p (filter keep l) = find q (filter keep l).
Proof.
  intros H. induction l as [|x l IH]; cbn [filter]; [reflexivity|].
  destruct (keep x) eqn:Hk; [|exact IH].
  cbn [find]. rewrite (H x Hk), IH. reflexivity.
Qed.

Lemma find_by_stem (r : fs) (topic : string) :
  find (fun file => Py.lower (stem (name file)) =? Py.lower topic) (glob_md r)
  = find (stem_equals topic) (md_files r).
Proof.
  rewrite glob_md_md_files. apply find_filter_ext.
  intros f Hf. unfold stem_equals. rewrite (stem_md_stem _ Hf). reflexivity.
Qed.

Lemma find_by_substring (r : fs) (topic : string) :
  find (fun file => Py.contains (Py.lower topic) (Py.lower (stem (name file))))
       (glob_md r)
  = find (stem_contains topic) (md_files r).
Proof.
  rewrite glob_md_md_files. apply find_filter_ext.
  intros f Hf. unfold stem_contains. rewrite (stem_md_stem _ Hf). reflexivity.
Qed.

(** *** Resolution *)

Lemma exists_exact (r : fs) (topic : string) :
  exists_ r (Joined (topic ++ ".md")) =
    match rule_exact r topic with
    | Raised e => Raised e
    | Returned (Some _) => Returned true
    | Returned None => Returned false
    end.
Proof.
  unfold exists_, rule_exact.
  destruct (lookup r (Joined (topic ++ ".md"))); [reflexivity|].
  destruct (plain_name (topic ++ ".md")); [reflexivity|].
  destruct (stat_error r (topic ++ ".md")); reflexivity.
Qed.

Lemma exists_listed (r : fs) (f : file) : exists_ r (Listed f) = Returned true.
Proof. reflexivity. Qed.

Lemma rule_exact_some (r : fs) (topic : string) (p : doc_path) :
  rule_exact r topic = Returned (Some p) ->
  p = Joined (topic ++ ".md") /\ exists f, lookup r p = Some f.
Proof.
  unfold rule_exact.
  destruct (lookup r (Joined (topic ++ ".md"))) as [f|] eqn:Hl.
  - intros H. injection H as <-. split; [reflexivity|]. exists f. exact Hl.
  - destruct (plain_name (topic ++ ".md")); [discriminate|].
    destruct (stat_error r (topic ++ ".md")); discriminate.
Qed.

(** [read_doc] reads the file that the three rules choose. *)
Lemma read_doc_resolve (r : fs) (topic : string) :
  read_doc r topic =
    match resolve r topic with
    | Raised e => Raised e
    | Returned (Some p) => Returned (option_map outcome (lookup r p))
    | Returned None => Returned None
    end.
Proof.
  unfold read_doc, locate, resolve, rule_stem, rule_substring, first_match.
  rewrite find_by_stem, find_by_substring.
  pose proof (exists_exact r topic) as Hex.
  destruct (rule_exact r topic) as [[p|]|e] eqn:Hrule.
  - destruct (rule_exact_some r topic p Hrule) as (-> & f & Hl).
    rewrite Hex. cbn [rbind negb]. rewrite Hex. cbn [rbind negb]. rewrite Hex.
    cbn [rbind]. rewrite Hl. reflexivity.
  - rewrite Hex. cbn [rbind negb].
    destruct (find (stem_equals topic) (md_files r)) as [f|]; cbn [option_map].
    + rewrite exists_listed. cbn [rbind negb lookup]. reflexivity.
    + rewrite Hex. cbn [rbind negb].
      destruct (find (stem_contains topic) (md_files r)) as [g|]; cbn [option_map].
      * rewrite exists_listed. cbn [rbind lookup]. reflexivity.
      * rewrite Hex. reflexivity.
  - rewrite Hex. reflexivity.
Qed.

Lemma find_by_name (l : list file) (f : file) :
  NoDup (map name l) -> In f l ->
  find (fun g => name g =? name f) l = Some f.
Proof.
  induction l as [|g l IH]; intros Hnd Hin; [contradiction|].
  cbn [find]. inversion Hnd as [|? ? Hnotin Hnd']; subst.
  destruct Hin as [->|Hin].
  - rewrite String.eqb_refl. reflexivity.
  - destruct (name g =? name f) eqn:Heq.
    + apply String.eqb_eq in Heq. exfalso. apply Hnotin.
      rewrite Heq. apply in_map. exact Hin.
    + apply IH; assumption.
Qed.

Lemma read_doc_named (r : fs) (f : file) (topic : string) :
  wf_fs r -> In f (docs r) -> name f = topic ++ ".md" ->
  read_doc r topic = Returned (Some (outcome f)).
Proof.
  intros [Hnd _] Hin Hname.
  assert (Hl : lookup r (Joined (topic ++ ".md")) = Some f).
  { cbn [lookup]. rewrite <- Hname. rewrite (find_by_name _ _ Hnd Hin). reflexivity. }
  rewrite read_doc_resolve. unfold resolve, rule_exact.
  rewrite Hl. cbn [option_map]. rewrite Hl. reflexivity.
Qed.




(** *** What a document request prints *)

Lemma print_out (s : string) (w : world) : print s w = (tt, out w [EPrint s]).
Proof. reflexivity. Qed.

Lemma out_out (w : world) (a b : list event) : out (out w a) b = out w (a ++ b)%list.
Proof. unfold out. cbn. rewrite app_assoc. reflexivity. Qed.

Lemma out_nil (w : world) : out w [] = w.
Proof. destruct w. unfold out. cbn. rewrite app_nil_r. reflexivity. Qed.

Lemma for_each_print (g : string -> string) (xs : list string) (w : world) :
  for_each xs (fun t => print (g t)) w = (tt, out w (map (fun t => EPrint (g t)) xs)).
Proof.
  revert w; induction xs as [|x xs IH]; intros w; cbn [for_each map].
  - unfold ret. rewrite out_nil. reflexivity.
  - rewrite bind_run, print_out. cbn [fst snd]. rewrite IH, out_out. reflexivity.
Qed.

Lemma first_arg_is_head (x a : string) (rest : list string) :
  first_arg_is x (a :: rest) = (a =? x).
Proof. reflexivity. Qed.

(** A document request prints the banner, then either the document and its
    official link or the not-found report, then the footer; if [read_doc]
    raises, the banner is all that is printed and the error leaves
    [main]. *)
Lemma main_request (E : env) (w : world) check_fresh topic rest :
  is_request check_fresh topic rest ->
  let w1 := looked_up_in E check_fresh w in
  main E (invocation check_fresh topic rest) w =
    match read_doc (root w1) topic with
    | Raised e => (Raised e, out w1 banner)
    | Returned content =>
        (Returned tt,
         out w1 (banner ++
                 (if has_content content
                  then document_lines topic (shown content)
                  else not_found_lines topic
                       ++ topic_lines topic (list_topics (root w1))) ++
                 footer check_fresh)%list)
    end.
Proof.
  intros [Hcmd Hnew] w1.
  assert (Hdispatch :
    main E (invocation check_fresh topic rest) w =
    ((if check_fresh then check_freshness E else ret tt) ;;
     print ("[INFO] COMMUNITY MIRROR: " ++ GITHUB_REPO) ;;
     print ("[INFO] OFFICIAL DOCS: " ++ OFFICIAL_DOCS) ;;
     print "" ;;
     (fun w =>
        match read_doc (root w) topic with
        | Raised e => (Raised e, w)
        | Returned content =>
            ((if has_content content then
                print (shown content) ;;
                print "" ;;
                print ("[INFO] Official page: " ++ OFFICIAL_DOCS ++ "/" ++ topic)
              else
                print ("[ERROR] Documentation for '" ++ topic ++ "' not found") ;;
                print "" ;;
                print "Available topics:" ;;
                (fun w =>
                   let topics := list_topics (root w) in
                   match topics with
                   | _ :: _ =>
                       let similar :=
                         filter (fun t => Py.contains (Py.lower topic) (Py.lower t)
                                          || Py.contains (Py.lower t) (Py.lower topic))
                                topics in
                       match similar with
                       | _ :: _ =>
                           (print "  Similar topics:" ;;
                            for_each (firstn 5 similar)
                                     (fun t => print ("    - " ++ t))) w
                       | [] =>
                           (for_each (firstn 10 topics) (fun t => print ("  - " ++ t)) ;;
                            if (10 <? List.length topics)%nat then
                              print ("  ... and "
                                       ++ Py.str_of_N (N.of_nat (List.length topics - 10))
                                       ++ " more")
                            else ret tt) w
                       end
                   | [] => (tt, w)
                   end)) ;;
             (if negb check_fresh then reading_local else ret tt) ;;
             ret (Returned tt)) w
        end))%io w).
  { unfold main, invocation. destruct check_fresh.
    - cbn [first_arg_is String.eqb Ascii.eqb Bool.eqb tl].
      change ("-t" =? "hook-check") with false.
      change ("-t" =? "uninstall") with false.
      change ("-t" =? "-t") with true. cbn [tl].
      rewrite Hnew. reflexivity.
    - destruct (Hcmd eq_refl) as (H1 & H2 & H3).
      rewrite !first_arg_is_head.
      apply String.eqb_neq in H1, H2, H3. rewrite H1, H2, H3.
      rewrite Hnew. reflexivity. }
  rewrite Hdispatch. clear Hdispatch.
  rewrite bind_run.
  replace (snd ((if check_fresh then check_freshness E else ret tt) w)) with w1
    by (subst w1; unfold looked_up_in; destruct check_fresh; reflexivity).
  rewrite bind_run, print_out. cbn [fst snd].
  rewrite bind_run, print_out. cbn [fst snd].
  rewrite bind_run, print_out. cbn [fst snd].
  rewrite !out_out.
  change (root (out w1 _)) with (root w1).
  destruct (read_doc (root w1) topic) as [content|e]; [|reflexivity].
  assert (Hfoot : forall w',
    ((if negb check_fresh then reading_local else ret tt) ;; ret (Returned tt))%io w' =
    (Returned tt, out w' (footer check_fresh))).
  { intros w'. unfold footer, reading_local. destruct check_fresh; cbn [negb].
    - rewrite bind_run. unfold ret. cbn [fst snd]. rewrite out_nil. reflexivity.
    - rewrite !bind_run, !print_out. unfold ret. cbn [fst snd].
      rewrite out_out. reflexivity. }
  rewrite bind_run, Hfoot.
  destruct (has_content content).
  - rewrite bind_run, print_out. cbn [fst snd].
    rewrite bind_run, print_out. cbn [fst snd].
    rewrite print_out. cbn [fst snd].
    rewrite !out_out. unfold banner, document_lines.
    rewrite <- !app_assoc. reflexivity.
  - rewrite bind_run, print_out. cbn [fst snd].
    rewrite bind_run, print_out. cbn [fst snd].
    rewrite bind_run, print_out. cbn [fst snd].
    cbv zeta. change (root (out _ _)) with (root w1).
    fold (overlaps topic).
    unfold topic_lines.
    destruct (list_topics (root w1)) as [|t0 ts] eqn:Ht.
    + cbn [fst snd]. rewrite !out_out.
      unfold banner, not_found_lines. rewrite <- !app_assoc. reflexivity.
    + destruct (filter (overlaps topic) (t0 :: ts)) as [|s0 ss] eqn:Hs.
      * rewrite bind_run, for_each_print. cbn [fst snd].
        unfold plain_topic_lines.
        destruct (10 <? List.length (t0 :: ts))%nat.
        -- rewrite print_out. cbn [fst snd]. rewrite !out_out.
           unfold banner, not_found_lines. rewrite <- !app_assoc. reflexivity.
        -- unfold ret. cbn [fst snd]. rewrite !out_out.
           unfold banner, not_found_lines. rewrite <- !app_assoc.
           cbn [app]. rewrite ?app_nil_r. reflexivity.
      * rewrite bind_run, print_out. cbn [fst snd].
        rewrite for_each_print. cbn [fst snd]. rewrite !out_out.
        unfold banner, not_found_lines, suggestion_lines.
        rewrite <- !app_assoc. reflexivity.
Qed.

Lemma wf_mirror_locked : wf_fs mirror_locked.
Proof.
  split.
  - cbn. constructor; [intros []| constructor].
  - cbn. constructor; [reflexivity | constructor].
Qed.

Lemma wf_mirror_crlf : wf_fs mirror_crlf.
Proof.
  split.
  - cbn. constructor; [intros []| constructor].
  - cbn. constructor; [reflexivity | constructor].
Qed.

Lemma wf_mirror_dot_md : wf_fs mirror_dot_md.
Proof.
  split.
  - cbn. constructor; [intros [H|[]]; discriminate H|].
    constructor; [intros []| constructor].
  - cbn. constructor; [reflexivity|]. constructor; [reflexivity | constructor].
Qed.

Lemma wf_mirror_two : wf_fs mirror_two.
Proof.
  split.
  - cbn. constructor; [intros [H|[]]; discriminate H|].
    constructor; [intros []| constructor].
  - cbn. constructor; [reflexivity|]. constructor; [reflexivity | constructor].
Qed.

Lemma request_plain (topic : string) :
  topic <> "hook-check" -> topic <> "uninstall" -> topic <> "-t" ->
  Py.mem (Py.lower topic) ["what's new"; "whats new"; "what is new"; "changelog"] = false ->
  is_request false topic [].
Proof. intros H1 H2 H3 H4. split; [intros _; auto | exact H4]. Qed.

Lemma universal_newlines_no_cr (s : string) :
  no_cr s = true -> Py.universal_newlines s = s.
Proof.
  unfold no_cr. induction s as [|c s IH];
    cbn [list_ascii_of_string forallb Py.universal_newlines]; [reflexivity|].
  intros H. apply andb_prop in H as [Hc Hs].
  apply negb_true_iff in Hc. rewrite Hc, (IH Hs). reflexivity.
Qed.

(** C8 (as amended): for every entry of the docs directory whose name ends
    in [.md] and whose text can be read, [read_doc] applied to its stem
    returns the stored text as text mode reads it, CR LF and CR as LF, and
    so exactly the stored text when that holds no carriage return. For the
    entry named [.md], whose stem is [.md] itself, this needs that no
    [.md.md] is there and that no earlier [*.md] entry has a stem equal to
    [.md] ignoring case. *)
Theorem read_doc_round_trip (r : fs) (f : file) :
  wf_fs r ->
  In f (docs r) ->
  is_md (name f) = true ->
  unreadable f = None ->
  (name f = ".md" ->
   lookup r (Joined ".md.md") = None
   /\ find (fun g => Py.lower (md_stem (name g)) =? ".md")
           (filter (fun g => is_md (name g)) (docs r)) = Some f) ->
  read_doc r (md_stem (name f)) = Returned (Some (Py.universal_newlines (text f)))
  /\ (no_cr (text f) = true ->
      read_doc r (md_stem (name f)) = Returned (Some (text f))).
Proof.
  intros Hwf Hin Hmd Hread Hdot.
  assert (Hdoc : read_doc r (md_stem (name f))
                 = Returned (Some (Py.universal_newlines (text f)))).
  { destruct (String.string_dec (name f) ".md") as [Heq|Hne].
    - destruct (Hdot Heq) as [Hl Hfind]. rewrite Heq.
      change (md_stem ".md") with ".md".
      rewrite read_doc_resolve. unfold resolve, rule_exact, rule_stem.
      change (".md" ++ ".md") with ".md.md". rewrite Hl.
      change (plain_name ".md.md") with true. cbv iota.
      unfold stem_equals, md_files. change (Py.lower ".md") with ".md".
      rewrite Hfind. cbn [option_map lookup].
      unfold outcome. rewrite Hread. reflexivity.
    - rewrite (read_doc_named r f (md_stem (name f)) Hwf Hin (md_name_stem _ Hmd Hne)).
      unfold outcome. rewrite Hread. reflexivity. }
  split; [exact Hdoc|].
  intros Hcr. rewrite Hdoc, (universal_newlines_no_cr _ Hcr). reflexivity.
Qed.

Lemma read_doc_round_trip_witness :
  read_doc mirror_two (md_stem "mcp.md") = Returned (Some (Py.universal_newlines "# MCP"))
  /\ (no_cr "# MCP" = true ->
      read_doc mirror_two (md_stem "mcp.md") = Returned (Some "# MCP")).
Proof.
  refine (read_doc_round_trip mirror_two (plain "mcp.md" "# MCP") wf_mirror_two _ _ _ _).
  - cbn. right. left. reflexivity.
  - reflexivity.
  - reflexivity.
  - cbn. discriminate.
Defined.

(** C8 as stated fails three times over. A document that cannot be read
    comes back as an error message, not as its stored text. A document
    stored with CR LF line endings comes back with LF. And with both [.md]
    and [.md.md] in the directory, the stem of the first ([.md]) yields the
    text of the second. *)
Lemma read_doc_round_trip_fails :
  (let f := locked "hooks.md" "# Hooks" "[Errno 13] Permission denied" in
   wf_fs mirror_locked
   /\ In f (docs mirror_locked) /\ is_md (name f) = true
   /\ md_stem (name f) = "hooks"
   /\ read_doc mirror_locked "hooks"
        = Returned (Some "Error reading file: [Errno 13] Permission denied")
   /\ read_doc mirror_locked (md_stem (name f)) <> Returned (Some (text f)))
  /\
  (let f := plain "hooks.md" ("# Hooks" ++ CR ++ LF ++ "text" ++ CR) in
   wf_fs mirror_crlf
   /\ In f (docs mirror_crlf) /\ is_md (name f) = true
   /\ md_stem (name f) = "hooks"
   /\ unreadable f = None
   /\ read_doc mirror_crlf "hooks" = Returned (Some ("# Hooks" ++ LF ++ "text" ++ LF))
   /\ read_doc mirror_crlf (md_stem (name f)) <> Returned (Some (text f)))
  /\
  (let f := plain ".md" "A" in
   wf_fs mirror_dot_md
   /\ In f (docs mirror_dot_md) /\ is_md (name f) = true
   /\ md_stem (name f) = ".md"
   /\ unreadable f = None
   /\ read_doc mirror_dot_md ".md" = Returned (Some "B")
   /\ read_doc mirror_dot_md (md_stem (name f)) <> Returned (Some (text f))).
Proof.
  split; [|split]; cbv zeta.
  - split; [exact wf_mirror_locked|].
    split; [cbn; left; reflexivity|]. split; [reflexivity|].
    split; [reflexivity|]. split; [reflexivity|]. vm_compute. discriminate.
  - split; [exact wf_mirror_crlf|].
    split; [cbn; left; reflexivity|]. split; [reflexivity|].
    split; [reflexivity|]. split; [reflexivity|]. split; [reflexivity|].
    vm_compute. discriminate.
  - split; [exact wf_mirror_dot_md|].
    split; [cbn; left; reflexivity|]. split; [reflexivity|].
    split; [reflexivity|]. split; [reflexivity|]. split; [reflexivity|].
    vm_compute. discriminate.
Qed.




(** C10: when the file that resolution selects exists and reading it
    raises, [read_doc] returns "Error reading file: <message>", and the
    helper prints that string where the document would be, then the
    official-page link; the not-found line is not printed. *)
Theorem unreadable_document_printed (E : env) (w : world) check_fresh topic rest
        (p : doc_path) (f : file) (msg : string) :
  is_request check_fresh topic rest ->
  let w1 := looked_up_in E check_fresh w in
  let printed :=
    (banner ++ document_lines topic ("Error reading file: " ++ msg)
            ++ footer check_fresh)%list in
  resolve (root w1) topic = Returned (Some p) ->
  lookup (root w1) p = Some f ->
  unreadable f = Some msg ->
  read_doc (root w1) topic = Returned (Some ("Error reading file: " ++ msg))
  /\ main E (invocation check_fresh topic rest) w = (Returned tt, out w1 printed)
  /\ ~ In (EPrint ("[ERROR] Documentation for '" ++ topic ++ "' not found")) printed
  /\ ~ In (EPrint "Available topics:") printed.
Proof.
  intros Hreq w1 printed Hres Hlook Hun.
  assert (Hread : read_doc (root w1) topic
                  = Returned (Some ("Error reading file: " ++ msg))).
  { rewrite read_doc_resolve, Hres, Hlook. cbn [option_map].
    unfold outcome. rewrite Hun. reflexivity. }
  split; [exact Hread|]. split.
  - rewrite (main_request E w check_fresh topic rest Hreq).
    fold w1. rewrite Hread. reflexivity.
  - subst printed. unfold banner, document_lines, footer.
    split; intros H; destruct check_fresh; cbn [app In String.append] in H;
      repeat (destruct H as [H|H]; [discriminate H|]); exact H.
Qed.

Lemma unreadable_document_printed_witness :
  main env_quiet ["hooks"] (world_of mirror_locked Absent 0) =
    (Returned tt,
     out (world_of mirror_locked Absent 0)
         (banner ++ document_lines "hooks"
                      "Error reading file: [Errno 13] Permission denied"
                 ++ footer false)%list).
Proof.
  refine (proj1 (proj2 (unreadable_document_printed env_quiet
                          (world_of mirror_locked Absent 0) false "hooks" []
                          (Joined "hooks.md")
                          (locked "hooks.md" "# Hooks" "[Errno 13] Permission denied")
                          "[Errno 13] Permission denied" _ _ _ _))).
  - apply request_plain; try discriminate. reflexivity.
  - reflexivity.
  - reflexivity.
  - reflexivity.
Defined.

(** *** The passive hook *)

Lemma hook_check_throttled (E : env) (w : world) :
  throttled w = true -> hook_check E w = (tt, w).
Proof.
  unfold throttled, hook_check. intros H.
  destruct (marker w) as [|[t|]]; try discriminate H.
  rewrite H. reflexivity.
Qed.

Lemma hook_check_runs (E : env) (w : world) :
  throttled w = false ->
  let w' := snd (hook_check E w) in
  trace w' = (trace w ++ ETouch (LAST_CHECK_FILE E) :: remote_check_events E)%list
  /\ marker w' = Present (Some (clock w))
  /\ clock w' = clock w.
Proof.
  unfold throttled. intros H.
  assert (Hrun : hook_check E w =
    (touch_marker E ;;
     '(has_updates, _) <- check_for_updates E ;;
     if has_updates then pull_updates E ;; ret tt else ret tt)%io w).
  { unfold hook_check. destruct (marker w) as [|[t|]]; try reflexivity.
    rewrite H. reflexivity. }
  rewrite Hrun. clear Hrun H.
  unfold remote_check_events, pull_events, behind_count,
    hook_fetch, hook_rev_list, hook_pull.
  unfold touch_marker, check_for_updates, pull_updates, git_operation,
    print, emit, bind, ret.
  cbn [root marker clock trace].
  destruct (git_installed E); cbn [fst snd root marker clock trace negb].
  2: { rewrite <- ?app_assoc. repeat split. }
  destruct (run_git E ["fetch"; "--quiet"]);
    cbn [fst snd root marker clock trace negb].
  2: { rewrite <- ?app_assoc. repeat split. }
  destruct (run_git E ["rev-list"; "--count"; "HEAD..origin/main"]) as [out|err];
    cbn [fst snd root marker clock trace negb].
  2: { rewrite <- ?app_assoc. repeat split. }
  destruct (Py.isdigit (Py.strip out)).
  - destruct (0 <? Py.int (Py.strip out))%N;
      cbn [fst snd root marker clock trace negb].
    + destruct (run_git E ["pull"; "--quiet"]);
        cbn [fst snd root marker clock trace negb];
        rewrite <- ?app_assoc; repeat split.
    + rewrite <- ?app_assoc. repeat split.
  - cbn [N.ltb N.compare fst snd root marker clock trace negb].
    rewrite <- ?app_assoc. repeat split.
Qed.

Lemma remote_check_no_touch (E : env) :
  forallb (fun e => negb (is_touch e)) (remote_check_events E) = true.
Proof.
  unfold remote_check_events, pull_events.
  destruct (git_installed E); [|reflexivity].
  destruct (run_git E hook_fetch); [|reflexivity].
  destruct (run_git E hook_rev_list); [|reflexivity].
  destruct (0 <? behind_count E)%N; reflexivity.
Qed.

Lemma remote_check_starts_with_fetch (E : env) :
  git_installed E = true ->
  exists rest, remote_check_events E = EGit (INSTALL_DIR E) hook_fetch :: rest.
Proof. unfold remote_check_events. intros ->. eauto. Qed.

(** C3: a [hook_check] that finds the marker present with a modification
    time less than three hours old does nothing at all: no fetch, no
    behind-count query, no pull, no touch, the world is as it was. Any
    other [hook_check] touches the marker first (its time becomes now) and
    only then runs the remote check, which starts with the fetch and never
    touches the marker again. *)
Theorem hook_check_throttle (E : env) (w : world) :
  (forall t : Z,
     marker w = Present (Some t) ->
     (clock w - t < CHECK_INTERVAL)%Z ->
     hook_check E w = (tt, w))
  /\
  (throttled w = false ->
   let w' := snd (hook_check E w) in
   trace w' = (trace w ++ ETouch (LAST_CHECK_FILE E) :: remote_check_events E)%list
   /\ marker w' = Present (Some (clock w))
   /\ forallb (fun e => negb (is_touch e)) (remote_check_events E) = true
   /\ forallb (fun e => negb (is_git e)) (trace w' ) =
        forallb (fun e => negb (is_git e)) (trace w) && negb (git_installed E)
   /\ (git_installed E = true ->
       exists rest,
         remote_check_events E = EGit (INSTALL_DIR E) hook_fetch :: rest)).
Proof.
  split.
  - intros t Hm Hlt. apply hook_check_throttled.
    unfold throttled. rewrite Hm. apply Z.ltb_lt. exact Hlt.
  - intros Hth w'.
    destruct (hook_check_runs E w Hth) as (Htr & Hm & _).
    fold w' in Htr, Hm.
    split; [exact Htr|]. split; [exact Hm|].
    split; [apply remote_check_no_touch|].
    split; [|apply remote_check_starts_with_fetch].
    rewrite Htr, forallb_app. cbn [forallb is_git negb andb].
    unfold remote_check_events.
    destruct (git_installed E); cbn [forallb is_git negb andb];
      rewrite ?andb_false_r, ?andb_true_r; reflexivity.
Qed.

(** Two calls in a row: whatever the first did, if it ran the check, a
    second one less than three hours later does nothing. *)
Lemma hook_check_twice (E : env) (w : world) (later : Z) :
  throttled w = false ->
  (later - clock w < CHECK_INTERVAL)%Z ->
  let w1 := snd (hook_check E w) in
  let w2 := {| root := root w1; marker := marker w1; clock := later;
               trace := trace w1 |} in
  hook_check E w2 = (tt, w2).
Proof.
  intros Hth Hlater w1 w2.
  destruct (hook_check_runs E w Hth) as (_ & Hm & _). fold w1 in Hm.
  apply hook_check_throttled. unfold throttled, w2. cbn [marker clock].
  rewrite Hm. apply Z.ltb_lt. exact Hlater.
Qed.

Lemma hook_check_throttle_witness :
  hook_check env_behind (world_of mirror_two (Present (Some 0%Z)) 1000000) =
    (tt, world_of mirror_two (Present (Some 0%Z)) 1000000)
  /\ trace (snd (hook_check env_behind (world_of mirror_two Absent 1000000))) =
       ETouch (LAST_CHECK_FILE env_behind) :: remote_check_events env_behind.
Proof.
  split.
  - refine (proj1 (hook_check_throttle env_behind
                     (world_of mirror_two (Present (Some 0%Z)) 1000000)) 0%Z _ _).
    + reflexivity.
    + reflexivity.
  - refine (proj1 (proj2 (hook_check_throttle env_behind
                            (world_of mirror_two Absent 1000000)) _)).
    reflexivity.
Defined.

(** C4 fails on the code: when the throttle admits the check and the
    remote is ahead, [hook-check] prints the two lines of [pull_updates]. *)
Theorem hook_check_prints_when_updating :
  snd (main env_behind ["hook-check"] (world_of mirror_two Absent 0)) =
    out (world_of mirror_two (Present (Some 0%Z)) 0)
      [ ETouch "/home/u/.claude-code-docs/.last_check";
        EGit "/home/u/.claude-code-docs" ["fetch"; "--quiet"];
        EGit "/home/u/.claude-code-docs" ["rev-list"; "--count"; "HEAD..origin/main"];
        EPrint "[UPDATE] Updating documentation...";
        EGit "/home/u/.claude-code-docs" ["pull"; "--quiet"];
        EPrint "[OK] Documentation updated successfully" ].
Proof. reflexivity. Qed.

(** In general: [hook-check] prints exactly when it is admitted, git
    answers both queries, and the behind count is positive. *)
Lemma hook_check_output (E : env) (w : world) (rest : list string) :
  let w' := snd (main E ("hook-check" :: rest) w) in
  filter is_print (trace w') =
    (filter is_print (trace w) ++
     if negb (throttled w) && git_installed E
        && match run_git E hook_fetch with Completed _ => true | _ => false end
        && match run_git E hook_rev_list with Completed _ => true | _ => false end
        && (0 <? behind_count E)%N
     then filter is_print (pull_events E) else [])%list.
Proof.
  cbv zeta.
  change (main E ("hook-check" :: rest) w)
    with ((hook_check E ;; ret (Returned tt))%io w).
  rewrite bind_run. unfold ret. cbn [snd].
  destruct (throttled w) eqn:Hth.
  - rewrite (hook_check_throttled E w Hth). cbn [snd negb andb].
    rewrite app_nil_r. reflexivity.
  - destruct (hook_check_runs E w Hth) as (Htr & _). rewrite Htr.
    rewrite filter_app. f_equal. cbn [filter is_print negb andb].
    unfold remote_check_events.
    destruct (git_installed E); [|reflexivity].
    cbn [filter is_print andb].
    destruct (run_git E hook_fetch); [|reflexivity].
    cbn [filter is_print andb].
    destruct (run_git E hook_rev_list) eqn:Hr; [|reflexivity].
    cbn [andb]. destruct (0 <? behind_count E)%N; reflexivity.
Qed.

End HelperFacts.

(** ** The settings file: what the two rewrites leave alone *)

Module SettingsFacts.
Import Json SettingsSpec.

Lemma dict_get_set_eq (k : string) (v : json) (m : list (string * json)) :
  dict_get k (dict_set k v m) = Some v.
Proof.
  induction m as [|[k' v'] m IH]; cbn [dict_set dict_get].
  - rewrite String.eqb_refl. reflexivity.
  - destruct (k' =? k) eqn:Hk; cbn [dict_get].
    + rewrite String.eqb_refl. reflexivity.
    + rewrite Hk. exact IH.
Qed.

Lemma dict_get_set_ne (k k' : string) (v : json) (m : list (string * json)) :
  k <> k' -> dict_get k (dict_set k' v m) = dict_get k m.
Proof.
  intros Hne. induction m as [|[k0 v0] m IH]; cbn [dict_set dict_get].
  - destruct (k' =? k) eqn:Hk; [|reflexivity].
    apply String.eqb_eq in Hk. congruence.
  - destruct (k0 =? k') eqn:Hk0; cbn [dict_get].
    + apply String.eqb_eq in Hk0. subst k0.
      destruct (k' =? k) eqn:Hk; [|reflexivity].
      apply String.eqb_eq in Hk. congruence.
    + destruct (k0 =? k); [reflexivity | exact IH].
Qed.

Lemma dict_get_del_ne (k k' : string) (m : list (string * json)) :
  k <> k' -> dict_get k (dict_del k' m) = dict_get k m.
Proof.
  intros Hne. induction m as [|[k0 v0] m IH]; cbn [dict_del dict_get]; [reflexivity|].
  destruct (k0 =? k') eqn:Hk0; cbn [dict_get].
  - apply String.eqb_eq in Hk0. subst k0.
    destruct (k' =? k) eqn:Hk; [|exact IH].
    apply String.eqb_eq in Hk. congruence.
  - destruct (k0 =? k); [reflexivity | exact IH].
Qed.

Lemma obind_some {A B} (m : option A) (k : A -> option B) (b : B) :
  obind m k = Some b -> exists a, m = Some a /\ k a = Some b.
Proof. destruct m as [a|]; cbn; [eauto | discriminate]. Qed.


Lemma setitem_some_obj (v : json) (k : string) (x v' : json) :
  py_setitem v k x = Some v' -> exists m, v = JObj m /\ v' = JObj (dict_set k x m).
Proof. destruct v; cbn; try discriminate. intros [= <-]. eauto. Qed.

Lemma hooks_of_set (m : list (string * json)) (h : json) :
  hooks_of (JObj (dict_set "hooks" h m)) = h.
Proof. unfold hooks_of. cbn [py_getitem]. rewrite dict_get_set_eq. reflexivity. Qed.

(** Replacing [hooks] by an object that differs from the old one at
    [PreToolUse] only. *)
Lemma same_outside_set (m hm hm' : list (string * json)) :
  hooks_of (JObj m) = JObj hm ->
  (forall k, k <> "PreToolUse" -> dict_get k hm' = dict_get k hm) ->
  same_outside_pre_tool_use (JObj m) (JObj (dict_set "hooks" (JObj hm') m)).
Proof.
  intros Hh Hsame. split.
  - intros k Hk. cbn [py_getitem]. apply dict_get_set_ne. exact Hk.
  - intros k Hk. rewrite hooks_of_set, Hh. cbn [py_getitem]. apply Hsame, Hk.
Qed.

Lemma dict_get_del_eq (k : string) (m : list (string * json)) :
  dict_get k (dict_del k m) = None.
Proof.
  induction m as [|[k0 v0] m IH]; cbn [dict_del dict_get]; [reflexivity|].
  destruct (k0 =? k) eqn:Hk0; cbn [dict_get]; [exact IH|].
  rewrite Hk0. exact IH.
Qed.

Ltac inv_bind H :=
  let a := fresh "a" in
  let Ha := fresh "Ha" in
  apply obind_some in H as (a & Ha & H).

Ltac frame_keys :=
  split; intros k Hk; unfold hooks_of; cbn [py_getitem];
  repeat (first [ rewrite dict_get_set_eq
                | rewrite dict_get_del_eq
                | rewrite dict_get_set_ne by exact Hk
                | rewrite dict_get_del_ne by exact Hk
                | match goal with H : dict_get _ _ = _ |- _ => rewrite H end
                | progress cbn [py_getitem dict_get] ]);
  try reflexivity.

(** The installer's rewrite leaves alone everything outside
    [hooks.PreToolUse]. *)
Lemma upsert_hook_frame (cmd : string) (s s' : json) :
  Install.upsert_hook cmd s = Some s' -> same_outside_pre_tool_use s s'.
Proof.
  unfold Install.upsert_hook. intros H.
  inv_bind H. destruct s as [| | | |str|items|m]; cbn [py_in] in Ha; try discriminate Ha.
  - injection Ha as <-. destruct (Py.contains "hooks" str); cbn in H; discriminate H.
  - injection Ha as <-. destruct (existsb (is_str "hooks") items); cbn in H; discriminate H.
  - injection Ha as <-.
    destruct (dict_get "hooks" m) as [h|] eqn:Hh; cbn [negb obind py_setitem] in H.
    + cbn [py_getitem] in H. rewrite Hh in H. cbn [obind] in H.
      inv_bind H.
      destruct h as [| | | |str|items|hm]; cbn [py_in] in Ha; try discriminate Ha.
      * injection Ha as <-. destruct (Py.contains "PreToolUse" str); cbn in H; discriminate H.
      * injection Ha as <-.
        destruct (existsb (is_str "PreToolUse") items); cbn in H; discriminate H.
      * injection Ha as <-.
        destruct (dict_get "PreToolUse" hm) as [p|] eqn:Hp;
          cbn [negb obind py_setitem py_getitem] in H.
        -- rewrite Hp in H. cbn [obind] in H.
           inv_bind H. inv_bind H.
           destruct p; try discriminate H.
           cbn [obind py_setitem] in H. injection H as <-.
           frame_keys.
        -- rewrite dict_get_set_eq in H. cbn [obind py_iter without_docs_hooks] in H.
           cbn [py_setitem obind] in H. injection H as <-.
           frame_keys.
    + cbn [py_getitem] in H. rewrite dict_get_set_eq in H.
      cbn [obind py_in dict_get negb py_setitem dict_set py_getitem String.eqb
             Ascii.eqb Bool.eqb py_iter without_docs_hooks] in H.
      change ("PreToolUse" =? "PreToolUse") with true in H.
      cbn [obind py_in dict_get negb py_setitem dict_set py_getitem
             py_iter without_docs_hooks] in H.
      change ("PreToolUse" =? "PreToolUse") with true in H.
      cbn [obind py_setitem] in H. injection H as <-.
      frame_keys.
      destruct ("PreToolUse" =? k) eqn:Hpk; [|reflexivity].
      apply String.eqb_eq in Hpk. congruence.
Qed.

(** What [strip_hooks] returns when it rewrites: the old [hooks] object
    [hm] with [PreToolUse] replaced by the entries kept (or dropped when
    none is kept), put back under [hooks] (or [hooks] dropped when it has
    become empty). *)
Lemma strip_hooks_shape (s s' : json) (n : Z) :
  Uninstall.strip_hooks s = Some (Some (s', n)) ->
  exists m hm p entries kept,
    s = JObj m /\ dict_get "hooks" m = Some (JObj hm)
    /\ dict_get "PreToolUse" hm = Some p
    /\ py_iter p = Some entries
    /\ without_docs_hooks entries = Some kept
    /\ let hm' := match kept with
                  | [] => dict_del "PreToolUse" (dict_set "PreToolUse" (JArr kept) hm)
                  | _ :: _ => dict_set "PreToolUse" (JArr kept) hm
                  end in
       s' = match hm' with
            | [] => JObj (dict_del "hooks" (dict_set "hooks" (JObj hm') m))
            | _ :: _ => JObj (dict_set "hooks" (JObj hm') m)
            end.
Proof.
  unfold Uninstall.strip_hooks. intros H.
  inv_bind H. destruct s as [| | | |str|items|m]; cbn [py_in] in Ha; try discriminate Ha.
  - injection Ha as <-. destruct (Py.contains "hooks" str); cbn in H; discriminate H.
  - injection Ha as <-. destruct (existsb (is_str "hooks") items); cbn in H; discriminate H.
  - injection Ha as <-.
    destruct (dict_get "hooks" m) as [h|] eqn:Hh; cbn [negb] in H; [|discriminate H].
    cbn [py_getitem] in H. rewrite Hh in H. cbn [obind] in H.
    inv_bind H.
    destruct h as [| | | |str|items|hm]; cbn [py_in] in Ha; try discriminate Ha.
    + injection Ha as <-. destruct (Py.contains "PreToolUse" str); cbn in H; discriminate H.
    + injection Ha as <-.
      destruct (existsb (is_str "PreToolUse") items); cbn in H; discriminate H.
    + injection Ha as <-.
      destruct (dict_get "PreToolUse" hm) as [p|] eqn:Hp; cbn [negb] in H;
        [|discriminate H].
      cbn [py_getitem] in H. rewrite Hp in H. cbn [obind] in H.
      inv_bind H. inv_bind H. inv_bind H.
      cbn [py_setitem obind] in H.
      exists m, hm, p, a0, a1.
      repeat (split; [assumption || reflexivity|]).
      cbv zeta.
      destruct a1 as [|e kept].
      * cbn [py_setitem obind] in H.
        destruct (dict_del "PreToolUse" (dict_set "PreToolUse" (JArr []) hm));
          injection H as <- _; reflexivity.
      * cbn [py_setitem obind] in H.
        destruct (dict_set "PreToolUse" (JArr (e :: kept)) hm);
          injection H as <- _; reflexivity.
Qed.

(** The uninstaller's rewrite leaves alone everything outside
    [hooks.PreToolUse]. *)
Lemma strip_hooks_frame (s s' : json) (n : Z) :
  Uninstall.strip_hooks s = Some (Some (s', n)) -> same_outside_pre_tool_use s s'.
Proof.
  intros H.
  destruct (strip_hooks_shape s s' n H)
    as (m & hm & p & entries & kept & -> & Hh & Hp & _ & _ & Hs').
  cbv zeta in Hs'.
  set (hm' := match kept with
              | [] => dict_del "PreToolUse" (dict_set "PreToolUse" (JArr kept) hm)
              | _ :: _ => dict_set "PreToolUse" (JArr kept) hm
              end) in *.
  assert (Hsame : forall k, k <> "PreToolUse" -> dict_get k hm' = dict_get k hm).
  { intros k Hk. subst hm'. destruct kept.
    - rewrite dict_get_del_ne, dict_get_set_ne by exact Hk. reflexivity.
    - rewrite dict_get_set_ne by exact Hk. reflexivity. }
  clearbody hm'. subst s'. destruct hm' as [|kv hm'].
  - split; intros k Hk; unfold hooks_of; cbn [py_getitem].
    + rewrite dict_get_del_ne, dict_get_set_ne by exact Hk. reflexivity.
    + rewrite dict_get_del_eq, Hh. cbn [py_getitem].
      rewrite <- (Hsame k Hk). reflexivity.
  - split; intros k Hk; unfold hooks_of; cbn [py_getitem].
    + rewrite dict_get_set_ne by exact Hk. reflexivity.
    + rewrite dict_get_set_eq, Hh. cbn [py_getitem]. apply Hsame, Hk.
Qed.

(** *** On settings that follow the schema, neither rewrite raises *)

Lemma any_docs_command_total (hs : list json) :
  forallb hook_ok hs = true -> exists b, any_docs_command hs = Some b.
Proof.
  induction hs as [|h hs IH]; cbn [forallb any_docs_command]; intros H; [eauto|].
  apply andb_true_iff in H as [Hh Hhs].
  destruct h; try discriminate Hh. cbn [hook_ok] in Hh. cbn [py_get].
  destruct (dict_get "command" members) as [c|].
  - destruct c; try discriminate Hh. cbn [py_in].
    destruct (Py.contains MARKER s); [eauto | exact (IH Hhs)].
  - cbn [py_in]. destruct (Py.contains MARKER ""); [eauto | exact (IH Hhs)].
Qed.

Lemma is_docs_entry_total (e : json) :
  entry_ok e = true -> exists b, is_docs_entry e = Some b.
Proof.
  destruct e; try discriminate. cbn [entry_ok]. unfold is_docs_entry. cbn [py_get].
  destruct (dict_get "hooks" members) as [h|].
  - destruct h; try discriminate. cbn [py_iter]. apply any_docs_command_total.
  - intros _. cbn [py_iter any_docs_command]. eauto.
Qed.

Lemma without_docs_hooks_total (es : list json) :
  forallb entry_ok es = true -> exists kept, without_docs_hooks es = Some kept.
Proof.
  induction es as [|e es IH]; cbn [forallb without_docs_hooks]; intros H; [eauto|].
  apply andb_true_iff in H as [He Hes].
  destruct (is_docs_entry_total e He) as [b ->].
  destruct (IH Hes) as [kept ->]. eauto.
Qed.

(** The entries kept are the entries without a docs command, in order. *)
Lemma without_docs_hooks_kept (es kept : list json) :
  without_docs_hooks es = Some kept ->
  Forall (fun e => is_docs_entry e = Some false) kept
  /\ (forall e, In e kept -> In e es)
  /\ (forall e, In e es -> is_docs_entry e = Some false -> In e kept).
Proof.
  revert kept; induction es as [|e es IH]; cbn [without_docs_hooks]; intros kept H.
  - injection H as <-. repeat split; [constructor | auto | auto].
  - destruct (is_docs_entry e) as [b|] eqn:He; [|discriminate H].
    destruct (without_docs_hooks es) as [kept'|]; [|discriminate H].
    injection H as <-. destruct (IH kept' eq_refl) as (Hall & Hsub & Hsup).
    destruct b.
    + repeat split; [exact Hall | intros x Hx; right; apply Hsub, Hx |].
      intros x [<-|Hx] Hd; [congruence | apply Hsup; assumption].
    + repeat split.
      * constructor; assumption.
      * intros x [<-|Hx]; [left; reflexivity | right; apply Hsub, Hx].
      * intros x [<-|Hx] Hd; [left; reflexivity | right; apply Hsup; assumption].
Qed.

Lemma upsert_hook_total (cmd : string) (s : json) :
  settings_ok s = true -> exists s', Install.upsert_hook cmd s = Some s'.
Proof.
  destruct s as [| | | | | |m]; try discriminate. cbn [settings_ok].
  unfold Install.upsert_hook. cbn [py_in obind].
  destruct (dict_get "hooks" m) as [h|] eqn:Hh; cbn [negb py_setitem obind py_getitem].
  - rewrite Hh. cbn [obind].
    destruct h as [| | | | | |hm]; try discriminate. cbn [py_in obind].
    destruct (dict_get "PreToolUse" hm) as [p|] eqn:Hp;
      cbn [negb py_setitem obind py_getitem].
    + rewrite Hp. cbn [obind]. destruct p as [| | | | |es|]; try discriminate.
      intros Hes. cbn [py_iter obind].
      destruct (without_docs_hooks_total es Hes) as [kept ->]. cbn [obind]. eauto.
    + intros _. rewrite dict_get_set_eq. cbn. eauto.
  - intros _. rewrite dict_get_set_eq. cbn. eauto.
Qed.


(** *** The two rewrites, as runs *)

Lemma setup_hooks_run (E : Install.env) (w : Install.world) (s : json) :
  Install.settings_file w = Parsed s ->
  Install.setup_hooks E w =
    match Install.upsert_hook (Install.get_hook_command E) s with
    | Some s' =>
        (Some tt,
         {| Install.cwd := Install.cwd w;
            Install.settings_file := Parsed s';
            Install.trace :=
              (Install.trace w ++
               [ EPrint "Setting up automatic updates...";
                 EPrint "  Updating Claude settings...";
                 EWrite (Install.SETTINGS_FILE E);
                 EPrint "[OK] Updated Claude settings" ])%list |})
    | None =>
        (None,
         {| Install.cwd := Install.cwd w;
            Install.settings_file := Parsed s;
            Install.trace :=
              (Install.trace w ++
               [ EPrint "Setting up automatic updates...";
                 EPrint "  Updating Claude settings..." ])%list |})
    end.
Proof.
  destruct w as [c sf tr]. cbn [Install.settings_file]. intros ->.
  unfold Install.setup_hooks, bind, ret, Install.print, Install.emit,
    Install.write_settings.
  cbn [Install.cwd Install.settings_file Install.trace obind].
  destruct (Install.upsert_hook (Install.get_hook_command E) s) as [s'|];
    cbn [Install.cwd Install.settings_file Install.trace];
    rewrite <- !app_assoc; reflexivity.
Qed.

Lemma remove_hooks_settings (E : Uninstall.env) (w : Uninstall.world) (s : json) :
  Uninstall.settings_file w = Parsed s ->
  let r := Uninstall.remove_hooks E w in
  Uninstall.command_file (snd r) = Uninstall.command_file w
  /\ Uninstall.dirs (snd r) = Uninstall.dirs w
  /\ (exists evs, Uninstall.trace (snd r) = (Uninstall.trace w ++ evs)%list
                  /\ forall p, ~ In (ERmtree p) evs)
  /\ match Uninstall.copy_error E, Uninstall.strip_hooks s, Uninstall.write_error E with
     | None, Some (Some (s', _)), None =>
         Uninstall.settings_file (snd r) = Parsed s' /\ fst r = Some true
         /\ Uninstall.backup_file (snd r) = Some (Parsed s)
     | None, Some None, _ =>
         Uninstall.settings_file (snd r) = Parsed s /\ fst r = None
     | _, _, _ =>
         Uninstall.settings_file (snd r) = Parsed s /\ fst r = Some false
     end.
Proof.
  destruct w as [cf sf bf ds tr]. cbn [Uninstall.settings_file]. intros ->.
  cbv zeta. unfold Uninstall.remove_hooks, Uninstall.could_not_remove_hooks,
    bind, ret, Uninstall.print, Uninstall.emit.
  cbn [Uninstall.command_file Uninstall.settings_file Uninstall.backup_file
         Uninstall.dirs Uninstall.trace].
  destruct (Uninstall.copy_error E) as [ce|].
  { cbn. repeat split; try reflexivity.
    eexists. split; [rewrite <- app_assoc; reflexivity|].
    intros p [H|[H|[]]]; discriminate H. }
  destruct (Uninstall.strip_hooks s) as [[[s' n]|]|].
  - destruct (Uninstall.write_error E) as [we|].
    + cbn. repeat split; try reflexivity.
      eexists. split; [rewrite <- !app_assoc; reflexivity|].
      intros p [H|[H|[H|[]]]]; discriminate H.
    + destruct (0 <? n)%Z; cbn; repeat split; try reflexivity;
        (eexists; split; [rewrite <- !app_assoc; reflexivity|];
         intros p [H|[H|[H|[]]]]; discriminate H).
  - cbn. repeat split; try reflexivity.
    eexists. split; [reflexivity|]. intros p [H|[]]; discriminate H.
  - cbn. repeat split; try reflexivity.
    eexists. split; [rewrite <- !app_assoc; reflexivity|].
    intros p [H|[H|[]]]; discriminate H.
Qed.

Lemma same_outside_refl (s : json) : same_outside_pre_tool_use s s.
Proof. split; reflexivity. Qed.

(** C6: both rewrites of the settings file keep everything outside
    [hooks.PreToolUse]. Whatever [setup_hooks] (installer) and
    [remove_hooks] (uninstaller) do to a settings file holding the object
    [s], the file afterwards holds an object that agrees with [s] on every
    top-level key other than [hooks] and on every key of [hooks] other than
    [PreToolUse]; and on settings that follow the schema the installer does
    write its entry. *)
Theorem settings_rewrites_keep_the_rest :
  (forall (E : Install.env) (w : Install.world) (s : json),
     Install.settings_file w = Parsed s ->
     let r := Install.setup_hooks E w in
     (exists s', Install.settings_file (snd r) = Parsed s'
                 /\ same_outside_pre_tool_use s s')
     /\ (settings_ok s = true ->
         fst r = Some tt
         /\ exists s', Install.upsert_hook (Install.get_hook_command E) s = Some s'
                       /\ Install.settings_file (snd r) = Parsed s'))
  /\
  (forall (E : Uninstall.env) (w : Uninstall.world) (s : json),
     Uninstall.settings_file w = Parsed s ->
     let r := Uninstall.remove_hooks E w in
     exists s', Uninstall.settings_file (snd r) = Parsed s'
                /\ same_outside_pre_tool_use s s').
Proof.
  split.
  - intros E w s Hs r. subst r. rewrite (setup_hooks_run E w s Hs).
    destruct (Install.upsert_hook (Install.get_hook_command E) s) as [s'|] eqn:Hu.
    + cbn [fst snd Install.settings_file]. split.
      * exists s'. split; [reflexivity|]. apply (upsert_hook_frame _ _ _ Hu).
      * intros _. split; [reflexivity|]. exists s'. split; reflexivity.
    + cbn [fst snd Install.settings_file]. split.
      * exists s. split; [reflexivity | apply same_outside_refl].
      * intros Hok. destruct (upsert_hook_total (Install.get_hook_command E) s Hok)
          as [s' Hs']. congruence.
  - intros E w s Hs r. subst r.
    destruct (remove_hooks_settings E w s Hs) as (_ & _ & _ & H).
    destruct (Uninstall.copy_error E).
    { exists s. split; [apply H | apply same_outside_refl]. }
    destruct (Uninstall.strip_hooks s) as [[[s' n]|]|] eqn:Hstrip.
    + destruct (Uninstall.write_error E).
      * exists s. split; [apply H | apply same_outside_refl].
      * exists s'. split; [apply H | apply (strip_hooks_frame _ _ _ Hstrip)].
    + exists s. split; [apply H | apply same_outside_refl].
    + exists s. split; [apply H | apply same_outside_refl].
Qed.

Lemma settings_rewrites_keep_the_rest_witness :
  (exists s', Install.settings_file
                (snd (Install.setup_hooks install_env_sample install_world_sample))
              = Parsed s'
              /\ same_outside_pre_tool_use settings_sample s')
  /\
  (exists s', Uninstall.settings_file
                (snd (Uninstall.remove_hooks uninstall_env_sample uninstall_world_sample))
              = Parsed s'
              /\ same_outside_pre_tool_use settings_sample s').
Proof.
  split.
  - refine (proj1 (proj1 settings_rewrites_keep_the_rest
                     install_env_sample install_world_sample settings_sample _)).
    reflexivity.
  - refine (proj2 settings_rewrites_keep_the_rest
              uninstall_env_sample uninstall_world_sample settings_sample _).
    reflexivity.
Defined.

End SettingsFacts.

(** ** uninstall.py: what is removed and what is kept *)

Module UninstallFacts.
Import Json Uninstall SettingsSpec SettingsFacts UninstallSpec.

Lemma remove_directory_step (E : env) (path : string) (w : world) :
  remove_directory E path w = (tt, step E path w).
Proof.
  destruct w as [cf sf bf ds tr].
  unfold remove_directory, step, dirty, probe_events, out, without_dir.
  destruct (negb (dir_exists _ path)); [reflexivity|].
  unfold git_operation, rmtree, bind, ret, print, emit, preserved_line,
    removed_line, not_removed_line, status_args.
  cbn [command_file settings_file backup_file dirs trace].
  destruct (has_dot_git E path); cbn [andb].
  - destruct (git_installed E); cbn [andb].
    + destruct (run_git E path ["status"; "--porcelain"]) as [o|e];
        cbn [command_file settings_file backup_file dirs trace].
      * destruct (Py.truthy (Py.strip o));
          cbn [command_file settings_file backup_file dirs trace];
          [rewrite <- !app_assoc; reflexivity|].
        destruct (rmtree_error E path);
          cbn [command_file settings_file backup_file dirs trace];
          rewrite <- !app_assoc; reflexivity.
      * change (Py.truthy "") with false.
        cbn [command_file settings_file backup_file dirs trace].
        destruct (rmtree_error E path);
          cbn [command_file settings_file backup_file dirs trace];
          rewrite <- !app_assoc; reflexivity.
    + change (Py.truthy "") with false.
      cbn [command_file settings_file backup_file dirs trace].
      destruct (rmtree_error E path);
        cbn [command_file settings_file backup_file dirs trace];
        rewrite <- ?app_assoc; reflexivity.
  - destruct (rmtree_error E path);
      cbn [command_file settings_file backup_file dirs trace];
      rewrite <- ?app_assoc; reflexivity.
Qed.

Lemma for_each_sweep (E : env) (paths : list string) (w : world) :
  for_each paths (remove_directory E) w = (tt, sweep E paths w).
Proof.
  revert w; induction paths as [|p paths IH]; intros w; cbn [for_each sweep fold_left].
  - reflexivity.
  - rewrite bind_run, remove_directory_step. cbn [fst snd]. apply IH.
Qed.

Lemma dir_exists_In (w : world) (path : string) :
  dir_exists w path = true <-> In path (dirs w).
Proof.
  unfold dir_exists, Py.mem. rewrite existsb_exists. split.
  - intros (d & Hin & Heq). apply String.eqb_eq in Heq. subst. exact Hin.
  - intros Hin. exists path. split; [exact Hin | apply String.eqb_refl].
Qed.

Lemma step_trace (E : env) (path : string) (w : world) :
  trace (step E path w) = (trace w ++ step_events E path w)%list.
Proof.
  unfold step, step_events.
  destruct (negb (dir_exists w path)); [rewrite app_nil_r; reflexivity|].
  destruct (dirty E path); [reflexivity|].
  destruct (rmtree_error E path); reflexivity.
Qed.

Lemma step_dirs (E : env) (path : string) (w : world) :
  dirs (step E path w) =
    if removes E path w then filter (fun d => negb (d =? path)) (dirs w) else dirs w.
Proof.
  unfold step, removes.
  destruct (dir_exists w path); cbn [negb andb]; [|reflexivity].
  destruct (dirty E path); cbn [negb andb]; [reflexivity|].
  destruct (rmtree_error E path); reflexivity.
Qed.

Lemma step_files (E : env) (path : string) (w : world) :
  command_file (step E path w) = command_file w
  /\ settings_file (step E path w) = settings_file w
  /\ backup_file (step E path w) = backup_file w.
Proof.
  unfold step.
  destruct (negb (dir_exists w path)); [auto|].
  destruct (dirty E path); [auto|].
  destruct (rmtree_error E path); auto.
Qed.

Lemma step_dirs_subset (E : env) (path q : string) (w : world) :
  In q (dirs (step E path w)) -> In q (dirs w).
Proof.
  rewrite step_dirs. destruct (removes E path w); [|auto].
  intros H. apply filter_In in H. apply H.
Qed.

Lemma step_dirs_other (E : env) (path q : string) (w : world) :
  In q (dirs w) -> q <> path -> In q (dirs (step E path w)).
Proof.
  intros Hin Hne. rewrite step_dirs. destruct (removes E path w); [|exact Hin].
  apply filter_In. split; [exact Hin|].
  apply negb_true_iff, String.eqb_neq. exact Hne.
Qed.



Lemma sweep_files (E : env) (paths : list string) (w : world) :
  command_file (sweep E paths w) = command_file w
  /\ settings_file (sweep E paths w) = settings_file w
  /\ backup_file (sweep E paths w) = backup_file w.
Proof.
  revert w; induction paths as [|a paths IH]; intros w; cbn [sweep fold_left]; [auto|].
  destruct (IH (step E a w)) as (H1 & H2 & H3).
  destruct (step_files E a w) as (G1 & G2 & G3).
  unfold sweep in *. rewrite H1, H2, H3. auto.
Qed.




Lemma in_probe_events (E : env) (path : string) (e : event) :
  In e (probe_events E path) -> e = EGit path status_args.
Proof.
  unfold probe_events. destruct (has_dot_git E path && git_installed E).
  - intros [<-|[]]. reflexivity.
  - intros [].
Qed.

Lemma step_events_rmtree (E : env) (path q : string) (w : world) :
  In (ERmtree q) (step_events E path w) ->
  q = path /\ In path (dirs w) /\ dirty E path = false.
Proof.
  unfold step_events. destruct (dir_exists w path) eqn:He; cbn [negb]; [|intros []].
  apply dir_exists_In in He.
  destruct (dirty E path).
  - intros H. apply in_app_or in H as [H|[H|[]]].
    + apply in_probe_events in H. discriminate H.
    + discriminate H.
  - destruct (rmtree_error E path); intros H;
      apply in_app_or in H as [H|[H|[H|[]]]];
      try (apply in_probe_events in H; discriminate H);
      try discriminate H; injection H as <-; auto.
Qed.

(** What the loop adds to the trace. *)
Lemma sweep_events (E : env) (paths : list string) (w : world) :
  exists evs,
    trace (sweep E paths w) = (trace w ++ evs)%list
    /\ (forall q, In (ERmtree q) evs ->
          In q paths /\ In q (dirs w) /\ dirty E q = false)
    /\ (forall p, In p paths -> In p (dirs w) -> dirty E p = true ->
          In (preserved_line p) evs)
    /\ (forall p, In p paths -> In p (dirs w) -> dirty E p = false ->
          In (ERmtree p) evs
          /\ match rmtree_error E p with
             | None => In (removed_line p) evs
             | Some e => In (not_removed_line p e) evs
             end).
Proof.
  revert w; induction paths as [|a paths IH]; intros w; cbn [sweep fold_left].
  - exists []. rewrite app_nil_r. repeat split; intros; contradiction.
  - destruct (IH (step E a w)) as (evs & Htr & Hrm & Hpres & Hdel).
    exists (step_events E a w ++ evs)%list.
    split; [|split; [|split]].
    + unfold sweep in Htr. rewrite Htr, step_trace, app_assoc. reflexivity.
    + intros q Hq. apply in_app_or in Hq as [Hq|Hq].
      * apply step_events_rmtree in Hq as (-> & Hin & Hd).
        split; [left; reflexivity | auto].
      * destruct (Hrm q Hq) as (H1 & H2 & H3).
        split; [right; exact H1|]. split; [|exact H3].
        apply (step_dirs_subset E a). exact H2.
    + intros p Hp Hin Hd. apply in_or_app.
      destruct (string_dec p a) as [->|Hne].
      * left. unfold step_events.
        apply dir_exists_In in Hin. rewrite Hin, Hd. cbn [negb].
        apply in_or_app. right. left. reflexivity.
      * right. destruct Hp as [->|Hp]; [contradiction Hne; reflexivity|].
        apply Hpres; [exact Hp | apply step_dirs_other; assumption | exact Hd].
    + intros p Hp Hin Hd.
      destruct (string_dec p a) as [->|Hne].
      * assert (Hev : step_events E a w =
                  match rmtree_error E a with
                  | None => (probe_events E a ++ [ERmtree a; removed_line a])%list
                  | Some e => (probe_events E a ++ [ERmtree a; not_removed_line a e])%list
                  end).
        { unfold step_events. apply dir_exists_In in Hin. rewrite Hin, Hd. reflexivity. }
        rewrite Hev. destruct (rmtree_error E a); split; apply in_or_app; left;
          apply in_or_app; right; cbn; auto.
      * destruct Hp as [->|Hp]; [contradiction Hne; reflexivity|].
        destruct (Hdel p Hp (step_dirs_other E a p w Hin Hne) Hd) as [H1 H2].
        split; [apply in_or_app; right; exact H1|].
        destruct (rmtree_error E p); apply in_or_app; right; exact H2.
Qed.

(** *** The whole run, once the operator has confirmed *)

Lemma un_print_out (s : string) (w : world) : print s w = (tt, out w [EPrint s]).
Proof. reflexivity. Qed.

Lemma un_out_out (w : world) (a b : list event) :
  out (out w a) b = out w (a ++ b)%list.
Proof. unfold out. cbn. rewrite app_assoc. reflexivity. Qed.

Lemma un_out_nil (w : world) : out w [] = w.
Proof. destruct w. unfold out. cbn. rewrite app_nil_r. reflexivity. Qed.

Lemma un_for_each_print (g : string -> string) (xs : list string) (w : world) :
  for_each xs (fun t => print (g t)) w = (tt, out w (map (fun t => EPrint (g t)) xs)).
Proof.
  revert w; induction xs as [|x xs IH]; intros w; cbn [for_each map].
  - unfold ret. rewrite un_out_nil. reflexivity.
  - rewrite bind_run, un_print_out. cbn [fst snd]. rewrite IH, un_out_out. reflexivity.
Qed.

Lemma un_emit_out (e : event) (w : world) : emit e w = (tt, out w [e]).
Proof. reflexivity. Qed.

Lemma un_ret {A} (a : A) (w : world) : ret a w = (a, w).
Proof. reflexivity. Qed.

Ltac un_run :=
  repeat first [ rewrite un_print_out
               | rewrite un_emit_out
               | rewrite un_for_each_print
               | rewrite un_ret
               | rewrite bind_run
               | progress cbn [fst snd]
               | rewrite un_out_out ].

Lemma remove_directories_run (E : env) (w : world) :
  remove_directories E (installations E) w = (tt, after_directories E w).
Proof.
  unfold remove_directories, after_directories.
  destruct (installations E) as [|a l]; [reflexivity|].
  rewrite bind_run, un_print_out. cbn [fst snd]. apply for_each_sweep.
Qed.

Lemma reinstall_hint_run (E : env) (w : world) (success : bool) :
  (print "" ;;
   (if success then print "[SUCCESS] Uninstall complete!"
    else print "[WARNING] Uninstall completed with warnings") ;;
   reinstall_hint E)%io w = (tt, out w (closing_events E success)).
Proof.
  unfold reinstall_hint, closing_events.
  rewrite bind_run, un_print_out. cbn [fst snd].
  rewrite bind_run.
  replace ((if success then print "[SUCCESS] Uninstall complete!"
            else print "[WARNING] Uninstall completed with warnings") (out w [EPrint ""]))
    with (tt, out (out w [EPrint ""])
                  [EPrint (if success then "[SUCCESS] Uninstall complete!"
                           else "[WARNING] Uninstall completed with warnings")])
    by (destruct success; reflexivity).
  cbn [fst snd].
  rewrite bind_run, un_print_out. cbn [fst snd].
  rewrite bind_run, un_print_out. cbn [fst snd].
  destruct (platform_windows E).
  - rewrite un_print_out, !un_out_out. reflexivity.
  - rewrite bind_run, un_print_out. cbn [fst snd].
    rewrite bind_run, un_print_out. cbn [fst snd].
    rewrite un_print_out. cbn [fst snd]. rewrite !un_out_out.
    rewrite <- ?app_assoc. reflexivity.
Qed.

Lemma intro_run (E : env) (w : world) (k : string -> M world unit) :
  (print_header ;;
   (match installations E with
    | _ :: _ =>
        print "Found installations at:" ;;
        for_each (installations E) (fun path => print ("  [DIR] " ++ path)) ;;
        print ""
    | [] => ret tt
    end) ;;
   print "This will remove:" ;;
   print "  * The /docs command from ~/.claude/commands/docs.md" ;;
   print "  * All claude-code-docs hooks from ~/.claude/settings.json" ;;
   (match installations E with
    | _ :: _ => print ("  " ++ BULLET ++ " Installation directories (if safe to remove)")
    | [] => ret tt
    end) ;;
   print "" ;;
   response <- input E "Continue? (y/N): " ;;
   k response)%io w = k (reply E) (out w (intro_events E)).
Proof.
  unfold print_header, intro_events, input.
  destruct (installations E) as [|a l]; un_run; rewrite ?app_nil_r;
    cbn [app map]; rewrite <- ?app_assoc; reflexivity.
Qed.

Lemma main_confirmed (E : env) (w : world) :
  Py.lower (reply E) = "y" ->
  let wa := out w (intro_events E ++ [EPrint ""]) in
  let ra := remove_command_file E wa in
  let rb := remove_hooks E (snd ra) in
  main E w =
    (tt, out (after_directories E (snd rb))
             (closing_events E (fst ra && truth (fst rb)))).
Proof.
  intros Hy wa ra rb. unfold main. rewrite intro_run. rewrite Hy.
  change (negb ("y" =? "y")) with false. cbv iota.
  rewrite bind_run, un_print_out. cbn [fst snd]. rewrite un_out_out. fold wa.
  rewrite bind_run. fold ra. rewrite bind_run. fold rb.
  rewrite bind_run, remove_directories_run. cbn [fst snd].
  apply reinstall_hint_run.
Qed.

(** *** The settings after [remove_hooks] *)

















Lemma remove_command_file_facts (E : env) (w : world) :
  let r := remove_command_file E w in
  dirs (snd r) = dirs w
  /\ settings_file (snd r) = settings_file w
  /\ command_file (snd r) = command_file w && unlink_raises E
  /\ exists evs, trace (snd r) = (trace w ++ evs)%list
                 /\ forall p, ~ In (ERmtree p) evs.
Proof.
  destruct w as [cf sf bf ds tr]. cbv zeta.
  unfold remove_command_file, unlink_raises, bind, ret, print, emit.
  cbn [command_file settings_file backup_file dirs trace].
  destruct cf; cbn [andb].
  - destruct (unlink_error E); cbn; repeat split;
      (eexists; split; [rewrite <- app_assoc; reflexivity|];
       intros p [H|[H|[]]]; discriminate H).
  - cbn. repeat split. exists []. split; [rewrite app_nil_r; reflexivity|].
    intros p [].
Qed.

Lemma remove_hooks_frame (E : env) (w : world) :
  let r := remove_hooks E w in
  dirs (snd r) = dirs w
  /\ command_file (snd r) = command_file w
  /\ exists evs, trace (snd r) = (trace w ++ evs)%list
                 /\ forall p, ~ In (ERmtree p) evs.
Proof.
  destruct (settings_file w) as [|msg|msg|s] eqn:Hs.
  - cbv zeta. unfold remove_hooks. rewrite Hs. cbn [snd]. repeat split.
    exists []. split; [rewrite app_nil_r; reflexivity | intros p []].
  - destruct w as [cf sf bf ds tr]. cbn [settings_file] in Hs. subst sf.
    cbv zeta. unfold remove_hooks, could_not_remove_hooks, bind, ret, print, emit.
    cbn [command_file settings_file backup_file dirs trace].
    destruct (copy_error E); cbn; repeat split;
      (eexists; split; [rewrite <- app_assoc; reflexivity|];
       intros p [H|[H|[]]]; discriminate H).
  - destruct w as [cf sf bf ds tr]. cbn [settings_file] in Hs. subst sf.
    cbv zeta. unfold remove_hooks, could_not_remove_hooks, bind, ret, print, emit.
    cbn [command_file settings_file backup_file dirs trace].
    destruct (copy_error E); cbn; repeat split;
      (eexists; split; [rewrite <- app_assoc; reflexivity|];
       intros p [H|[H|[]]]; discriminate H).
  - destruct (remove_hooks_settings E w s Hs) as (H1 & H2 & H3 & _). auto.
Qed.

Lemma no_rmtree_in_intro (E : env) (p : string) :
  ~ In (ERmtree p) (intro_events E ++ [EPrint ""])%list.
Proof.
  unfold intro_events. intros H.
  repeat (apply in_app_or in H as [H|H]);
    try (repeat (destruct H as [H|H]; [discriminate H|]); exact H).
  - destruct (installations E); [exact H|].
    destruct H as [H|H]; [discriminate H|].
    apply in_app_or in H as [H|[H|[]]]; [|discriminate H].
    apply in_map_iff in H as (x & Hx & _). discriminate Hx.
  - destruct (installations E); [exact H|].
    destruct H as [H|[]]. discriminate H.
Qed.

Lemma no_rmtree_in_closing (E : env) (success : bool) (p : string) :
  ~ In (ERmtree p) (closing_events E success).
Proof.
  unfold closing_events. intros H.
  apply in_app_or in H as [H|H].
  - repeat (destruct H as [H|H]; [discriminate H|]). exact H.
  - destruct (platform_windows E);
      repeat (destruct H as [H|H]; [discriminate H|]); exact H.
Qed.

Lemma after_directories_sweep (E : env) (w : world) :
  after_directories E w = sweep E (installations E) (out w (separator E)).
Proof.
  unfold after_directories, separator.
  destruct (installations E); [rewrite un_out_nil|]; reflexivity.
Qed.




End UninstallFacts.

(** ** install.py: every path through the update reconciler *)

Module UpdateFacts.
Import Install InstallSpec UpdateSpec InstallFacts.

(** A run of [safe_git_update], whatever the answers. *)
Lemma safe_git_update_run (E : env) (w : world) :
  safe_git_update E w =
    (update_result E,
     {| cwd := INSTALL_DIR E; settings_file := settings_file w;
        trace := (trace w ++ update_events E)%list |}).
Proof.
  unfold update_result, update_events, pull_ok, fetch_ok, asks, declines,
    first_try, second_try, offline_warning, rev_parse_args,
    pull_args, fetch_args, status_args.
  unfold safe_git_update, INSTALL_BRANCH, chdir, print, input, emit, ret.
  unfold branch_line.
  rewrite bind_run. cbn [fst snd cwd settings_file trace].
  rewrite bind_run, git_value, git_world. cbn [fst snd cwd settings_file trace].
  destruct (run_git E (INSTALL_DIR E) ["rev-parse"; "--abbrev-ref"; "HEAD"]) as [out|err];
    [ cbn iota; destruct (negb (Py.strip out =? "main"))
    | change (negb ("unknown" =? "main")) with true ];
    run_io;
    (destruct (run_git E (INSTALL_DIR E) ["pull"; "--quiet"; "origin"; "main"]);
     [ run_io; cbn [orb]; rewrite <- ?app_assoc; reflexivity |]);
    run_io;
    (destruct (run_git E (INSTALL_DIR E) ["fetch"; "origin"; "main"]);
     cbn [negb orb andb];
     [| run_io; rewrite <- ?app_assoc; reflexivity ]);
    run_io;
    (destruct (run_git E (INSTALL_DIR E) ["status"; "--porcelain"]) as [sout|serr];
     cbn iota;
     [ destruct (Py.truthy (Py.strip sout)); cbn [andb];
       [ destruct (filter is_non_manifest (Py.splitlines (Py.strip sout)));
         [| run_io; destruct (negb (Py.lower (reply E) =? "y")) ]
       | ]
     | ]);
    run_io; cbn [negb andb orb];
    unfold ask, cancelled, reset_to_remote, prompt;
    rewrite <- ?app_assoc; reflexivity.
Qed.

Lemma new_events_app (w : world) (c : string) (sf : Json.file_state) (evs : list event) :
  new_events w {| cwd := c; settings_file := sf; trace := (trace w ++ evs)%list |} = evs.
Proof.
  unfold new_events. cbn [trace].
  rewrite skipn_app, skipn_all, Nat.sub_diag. reflexivity.
Qed.

(** X1: when the pull succeeds the update is over: [safe_git_update]
    returns True having run only rev-parse and pull; it fetches nothing,
    asks nothing and resets nothing. *)
Theorem pull_success_ends_update (E : env) (w : world) (out : string) :
  run_git E (INSTALL_DIR E) pull_args = Completed out ->
  safe_git_update E w =
    (true, {| cwd := INSTALL_DIR E; settings_file := settings_file w;
              trace := (trace w ++ first_try (INSTALL_DIR E) (branch_line E))%list |})
  /\ filter is_git (first_try (INSTALL_DIR E) (branch_line E)) =
       [ EGit (INSTALL_DIR E) rev_parse_args; EGit (INSTALL_DIR E) pull_args ].
Proof.
  intros Hpull. split; [|reflexivity].
  rewrite safe_git_update_run. unfold update_result, update_events, pull_ok.
  rewrite Hpull. cbn [orb]. rewrite app_nil_r. reflexivity.
Qed.

Lemma pull_success_ends_update_witness :
  safe_git_update env_pull_ok world0 =
    (true, {| cwd := INSTALL_DIR env_pull_ok; settings_file := Json.Missing;
              trace := first_try (INSTALL_DIR env_pull_ok) (branch_line env_pull_ok) |}).
Proof.
  refine (proj1 (pull_success_ends_update env_pull_ok world0 "main" _)).
  reflexivity.
Defined.

(** X2: when the pull fails and the fetch fails too (offline),
    [safe_git_update] prints the offline warning and returns False; it
    does not query the status, does not ask, and issues none of merge
    --abort, rebase --abort, reset --hard, clean -fd. *)
Theorem offline_update_fails_softly (E : env) (w : world) (perr ferr : string) :
  run_git E (INSTALL_DIR E) pull_args = CalledProcessError perr ->
  run_git E (INSTALL_DIR E) fetch_args = CalledProcessError ferr ->
  let d := INSTALL_DIR E in
  let done := (first_try d (branch_line E) ++ second_try d ++ offline_warning)%list in
  safe_git_update E w =
    (false, {| cwd := d; settings_file := settings_file w;
               trace := (trace w ++ done)%list |})
  /\ filter is_git done =
       [ EGit d rev_parse_args; EGit d pull_args; EGit d fetch_args ]
  /\ forallb (fun e => negb (is_input e)) done = true.
Proof.
  intros Hpull Hfetch d done. split; [|split; reflexivity].
  rewrite safe_git_update_run. unfold update_result, update_events, pull_ok, fetch_ok.
  rewrite Hpull, Hfetch. reflexivity.
Qed.

Lemma offline_update_fails_softly_witness :
  fst (safe_git_update env_offline world0) = false.
Proof.
  refine (f_equal fst
            (proj1 (offline_update_fails_softly env_offline world0
                      "fatal: unable to access remote"
                      "fatal: unable to access remote" _ _))).
  - reflexivity.
  - reflexivity.
Defined.

(** X3: when the pull fails, the fetch succeeds, the status has a line
    that does not contain the text docs_manifest.json and the operator's
    reply lowercases to "y", the run asks first and then aborts merge and
    rebase, resets hard to origin/main and cleans, returning True. *)
Theorem consent_leads_to_reset (E : env) (w : world) (perr fout sout line : string) :
  run_git E (INSTALL_DIR E) pull_args = CalledProcessError perr ->
  run_git E (INSTALL_DIR E) fetch_args = Completed fout ->
  run_git E (INSTALL_DIR E) status_args = Completed sout ->
  In line (Py.splitlines (Py.strip sout)) ->
  Py.contains "docs_manifest.json" line = false ->
  Py.lower (reply E) = "y" ->
  let d := INSTALL_DIR E in
  safe_git_update E w =
    (true, {| cwd := d; settings_file := settings_file w;
              trace := (trace w ++ probe d (branch_line E) ++ ask
                          ++ reset_to_remote d)%list |}).
Proof.
  intros Hpull Hfetch Hstatus Hin Hc Hy d.
  rewrite (run_asked E w _ _ _ _ Hpull Hfetch Hstatus Hin Hc), Hy. reflexivity.
Qed.

Lemma consent_leads_to_reset_witness :
  fst (safe_git_update env_capital_Y world0) = true.
Proof.
  refine (f_equal fst
            (consent_leads_to_reset env_capital_Y world0
               "error: unmerged files" "main" " M docs/hooks.md" "M docs/hooks.md"
               _ _ _ _ _ _)).
  - reflexivity.
  - reflexivity.
  - reflexivity.
  - vm_compute. left. reflexivity.
  - reflexivity.
  - reflexivity.
Defined.

(** X4: when the pull fails, the fetch succeeds and the status query
    itself fails, the code takes it that nothing changed locally: it asks
    nothing and goes straight to the reset, returning True. *)
Theorem failed_status_resets_unasked (E : env) (w : world) (perr fout serr : string) :
  run_git E (INSTALL_DIR E) pull_args = CalledProcessError perr ->
  run_git E (INSTALL_DIR E) fetch_args = Completed fout ->
  run_git E (INSTALL_DIR E) status_args = CalledProcessError serr ->
  let d := INSTALL_DIR E in
  let done := (probe d (branch_line E) ++ reset_to_remote d)%list in
  safe_git_update E w =
    (true, {| cwd := d; settings_file := settings_file w;
              trace := (trace w ++ done)%list |})
  /\ forallb (fun e => negb (is_input e)) done = true.
Proof.
  intros Hpull Hfetch Hstatus d done. split; [|reflexivity].
  rewrite safe_git_update_run.
  unfold update_result, update_events, pull_ok, fetch_ok, asks.
  rewrite Hpull, Hfetch, Hstatus. reflexivity.
Qed.

Lemma failed_status_resets_unasked_witness :
  fst (safe_git_update env_status_fails world0) = true.
Proof.
  refine (f_equal fst
            (proj1 (failed_status_resets_unasked env_status_fails world0
                      "error: unmerged files" "main" "fatal: index file corrupt"
                      _ _ _))).
  - reflexivity.
  - reflexivity.
  - reflexivity.
Defined.

Lemma asks_of_line (E : env) (sout line : string) :
  run_git E (INSTALL_DIR E) status_args = Completed sout ->
  In line (Py.splitlines (Py.strip sout)) ->
  Py.contains "docs_manifest.json" line = false ->
  asks E = true.
Proof.
  intros Hstatus Hin Hc. unfold asks. rewrite Hstatus.
  rewrite (splitlines_nonempty _ _ Hin).
  destruct (non_manifest_filter_nonempty _ _ Hin Hc) as (l & ls & ->).
  reflexivity.
Qed.

(** X5: [safe_git_update] issues a destructive command (merge --abort,
    rebase --abort, reset --hard, clean -fd) only after the pull has failed
    and the fetch has succeeded; and, when the status has a line that does
    not contain the text docs_manifest.json, only if the reply is "y" or
    "Y" and only after the prompt: every destructive command comes later
    in the run than the question. It returns True only when the pull
    succeeded or that reset was carried out. *)
Theorem reset_only_with_consent (E : env) (w : world) :
  let r := safe_git_update E w in
  let evs := new_events w (snd r) in
  (existsb destructive evs = true ->
     pull_ok E = false /\ fetch_ok E = true /\ fst r = true
     /\ (forall sout line,
           run_git E (INSTALL_DIR E) status_args = Completed sout ->
           In line (Py.splitlines (Py.strip sout)) ->
           Py.contains "docs_manifest.json" line = false ->
           Py.lower (reply E) = "y"
           /\ exists before after,
                evs = (before ++ EInput prompt :: after)%list
                /\ forallb (fun e => negb (destructive e)) before = true))
  /\ (fst r = true -> pull_ok E = true \/ existsb destructive evs = true).
Proof.
  cbv zeta. rewrite safe_git_update_run. cbn [fst snd]. rewrite new_events_app.
  unfold update_result, update_events, declines.
  destruct (pull_ok E); cbn [orb].
  { split; [|auto]. rewrite app_nil_r. cbn. discriminate. }
  destruct (fetch_ok E); cbn [andb].
  2: { split; cbn; discriminate. }
  destruct (asks E) eqn:Hasks; cbn [andb negb].
  - destruct (Py.lower (reply E) =? "y") eqn:Hy; cbn [negb].
    + apply String.eqb_eq in Hy. split.
      * intros _. repeat split; [exact Hy|].
        exists (probe (INSTALL_DIR E) (branch_line E) ++ removelast ask)%list,
               (reset_to_remote (INSTALL_DIR E)).
        split; reflexivity.
      * intros _. right. cbn. repeat rewrite orb_true_r. reflexivity.
    + split; [|discriminate]. cbn. discriminate.
  - split.
    + intros _. split; [reflexivity|]. split; [reflexivity|]. split; [reflexivity|].
      intros sout line Hs Hin Hc.
      rewrite (asks_of_line E sout line Hs Hin Hc) in Hasks. discriminate Hasks.
    + intros _. right. cbn. repeat rewrite orb_true_r. reflexivity.
Qed.

Lemma reset_only_with_consent_witness :
  let evs := new_events world0 (snd (safe_git_update env_capital_Y world0)) in
  reply env_capital_Y = "Y"
  /\ Py.lower (reply env_capital_Y) = "y"
  /\ exists before after,
       evs = (before ++ EInput prompt :: after)%list
       /\ forallb (fun e => negb (destructive e)) before = true.
Proof.
  cbv zeta. split; [reflexivity|].
  pose proof (reset_only_with_consent env_capital_Y world0) as H.
  cbv zeta in H. destruct H as [H _].
  destruct H as (_ & _ & _ & H); [vm_compute; reflexivity|].
  apply (H " M docs/hooks.md" "M docs/hooks.md");
    [reflexivity | vm_compute; left; reflexivity | reflexivity].
Defined.


End UpdateFacts.

(** ** The settings file: installing twice, installing then uninstalling *)

Module SettingsMore.
Import Json SettingsSpec SettingsMoreSpec SettingsFacts.

Lemma dict_set_set (k : string) (v v' : json) (m : list (string * json)) :
  dict_set k v (dict_set k v' m) = dict_set k v m.
Proof.
  induction m as [|[k0 v0] m IH]; cbn [dict_set].
  - rewrite String.eqb_refl. reflexivity.
  - destruct (k0 =? k) eqn:Hk; cbn [dict_set].
    + rewrite String.eqb_refl. reflexivity.
    + rewrite Hk, IH. reflexivity.
Qed.

Lemma dict_del_set (k : string) (v : json) (m : list (string * json)) :
  dict_del k (dict_set k v m) = dict_del k m.
Proof.
  induction m as [|[k0 v0] m IH]; cbn [dict_set dict_del].
  - rewrite String.eqb_refl. reflexivity.
  - destruct (k0 =? k) eqn:Hk; cbn [dict_del].
    + rewrite String.eqb_refl. reflexivity.
    + rewrite Hk, IH. reflexivity.
Qed.

Lemma dict_del_absent (k : string) (m : list (string * json)) :
  dict_get k m = None -> dict_del k m = m.
Proof.
  induction m as [|[k0 v0] m IH]; cbn [dict_get dict_del]; [reflexivity|].
  destruct (k0 =? k); [discriminate|]. intros H. rewrite (IH H). reflexivity.
Qed.

Lemma without_docs_hooks_filter (es kept : list json) :
  without_docs_hooks es = Some kept ->
  kept = filter (fun e => negb (is_docs e)) es.
Proof.
  revert kept; induction es as [|e es IH]; cbn [without_docs_hooks filter]; intros kept H.
  - injection H as <-. reflexivity.
  - unfold is_docs at 1.
    destruct (is_docs_entry e) as [b|]; [|discriminate H].
    destruct (without_docs_hooks es) as [kept'|]; [|discriminate H].
    injection H as <-. rewrite (IH kept' eq_refl).
    destruct b; reflexivity.
Qed.

Lemma without_docs_hooks_fixed (kept : list json) :
  Forall (fun e => is_docs_entry e = Some false) kept ->
  without_docs_hooks kept = Some kept.
Proof.
  induction 1 as [|e kept He _ IH]; cbn [without_docs_hooks]; [reflexivity|].
  rewrite He, IH. reflexivity.
Qed.

Lemma without_docs_hooks_app (a b ka kb : list json) :
  without_docs_hooks a = Some ka -> without_docs_hooks b = Some kb ->
  without_docs_hooks (a ++ b) = Some (ka ++ kb)%list.
Proof.
  revert ka; induction a as [|e a IH]; cbn [without_docs_hooks app]; intros ka Ha Hb.
  - injection Ha as <-. exact Hb.
  - destruct (is_docs_entry e) as [x|]; [|discriminate Ha].
    destruct (without_docs_hooks a) as [ka'|]; [|discriminate Ha].
    injection Ha as <-. rewrite (IH ka' eq_refl Hb).
    destruct x; reflexivity.
Qed.

Lemma new_hook_entry_is_docs (cmd : string) :
  is_docs_entry (Install.new_hook_entry cmd) = Some (Py.contains MARKER cmd).
Proof.
  unfold is_docs_entry, Install.new_hook_entry.
  cbn [py_get dict_get String.eqb Ascii.eqb Bool.eqb py_iter any_docs_command py_in].
  change ("matcher" =? "hooks") with false. change ("hooks" =? "hooks") with true.
  cbn [py_iter any_docs_command py_get dict_get].
  change ("type" =? "command") with false. change ("command" =? "command") with true.
  cbn [py_in]. destruct (Py.contains MARKER cmd); reflexivity.
Qed.

(** What [upsert_hook] returns: the old [hooks] object [hm] (empty if
    there was none) with [PreToolUse] set to the entries kept followed by
    the new entry, put back under [hooks]. *)
Lemma upsert_hook_shape (cmd : string) (s s' : json) :
  Install.upsert_hook cmd s = Some s' ->
  exists m hm kept,
    s = JObj m
    /\ hooks_of s = JObj hm
    /\ without_docs_hooks (pre_tool_use_of s) = Some kept
    /\ s' = JObj (dict_set "hooks"
                    (JObj (dict_set "PreToolUse"
                             (JArr (kept ++ [Install.new_hook_entry cmd])%list) hm)) m).
Proof.
  unfold Install.upsert_hook. intros H.
  inv_bind H. destruct s as [| | | |str|items|m]; cbn [py_in] in Ha; try discriminate Ha.
  - injection Ha as <-. destruct (Py.contains "hooks" str); cbn in H; discriminate H.
  - injection Ha as <-. destruct (existsb (is_str "hooks") items); cbn in H; discriminate H.
  - injection Ha as <-. unfold pre_tool_use_of, hooks_of. cbn [py_getitem].
    destruct (dict_get "hooks" m) as [h|] eqn:Hh; cbn [negb obind py_setitem] in H.
    + cbn [py_getitem] in H. rewrite Hh in H. cbn [obind] in H.
      inv_bind H.
      destruct h as [| | | |str|items|hm]; cbn [py_in] in Ha; try discriminate Ha.
      * injection Ha as <-. destruct (Py.contains "PreToolUse" str); cbn in H; discriminate H.
      * injection Ha as <-.
        destruct (existsb (is_str "PreToolUse") items); cbn in H; discriminate H.
      * injection Ha as <-. cbn [py_getitem].
        destruct (dict_get "PreToolUse" hm) as [p|] eqn:Hp;
          cbn [negb obind py_setitem py_getitem] in H.
        -- rewrite Hp in H. cbn [obind] in H.
           inv_bind H. inv_bind H.
           destruct p; try discriminate H.
           cbn [obind py_setitem] in H. injection H as <-.
           cbn [py_iter] in Ha. injection Ha as <-.
           exists m, hm, a0. repeat split. exact Ha0.
        -- rewrite dict_get_set_eq in H. cbn [obind py_iter without_docs_hooks] in H.
           cbn [py_setitem obind] in H. injection H as <-.
           exists m, hm, []. repeat split.
           rewrite dict_set_set. reflexivity.
    + cbn [py_getitem] in H. rewrite dict_get_set_eq in H.
      cbn [obind py_in dict_get negb py_setitem dict_set py_getitem
             py_iter without_docs_hooks] in H.
      change ("PreToolUse" =? "PreToolUse") with true in H.
      cbn [obind py_in dict_get negb py_setitem dict_set py_getitem
             py_iter without_docs_hooks] in H.
      change ("PreToolUse" =? "PreToolUse") with true in H.
      cbn [obind py_setitem app] in H. injection H as <-.
      exists m, [], []. repeat split.
      rewrite dict_set_set. reflexivity.
Qed.

Lemma string_app_assoc (a b c : string) : ((a ++ b) ++ c = a ++ (b ++ c))%string.
Proof. induction a as [|x a IH]; cbn; [reflexivity | rewrite IH; reflexivity]. Qed.

Lemma prefix_app_self (x b : string) : String.prefix x (x ++ b) = true.
Proof.
  induction x as [|c x IH]; cbn [String.append String.prefix].
  - destruct b; reflexivity.
  - destruct (Ascii.ascii_dec c c); [exact IH | congruence].
Qed.

Lemma contains_after (x a s : string) :
  Py.contains x s = true -> Py.contains x (a ++ s) = true.
Proof.
  intros H. induction a as [|c a IH]; [exact H|].
  cbn [String.append]. apply contains_tail. exact IH.
Qed.

Lemma contains_marker_path (home rest : string) :
  Py.contains MARKER ((home ++ "/.claude-code-docs") ++ rest) = true.
Proof.
  rewrite string_app_assoc. apply contains_after.
  cbn [String.append]. apply contains_tail, contains_tail.
  apply contains_prefix. apply (prefix_app_self MARKER rest).
Qed.

(** The command the installer registers names the mirror directory, so it
    holds the marker by which installer and uninstaller recognise it. *)
Lemma hook_command_has_marker (E : Install.env) :
  Py.contains MARKER (Install.get_hook_command E) = true.
Proof.
  unfold Install.get_hook_command, Install.INSTALL_DIR.
  destruct (Install.platform_windows E); [|destruct (Install.shell_script_exists E)].
  - apply (contains_after MARKER "python "), (contains_after MARKER Py.dq).
    apply contains_marker_path.
  - apply contains_marker_path.
  - apply (contains_after MARKER "python "), (contains_after MARKER Py.dq).
    apply contains_marker_path.
Qed.

(** [upsert_hook] on settings of the expected shape. *)
Lemma upsert_hook_compute (cmd : string) (m hm : list (string * json))
      (es kept : list json) :
  dict_get "hooks" m = Some (JObj hm) ->
  dict_get "PreToolUse" hm = Some (JArr es) ->
  without_docs_hooks es = Some kept ->
  Install.upsert_hook cmd (JObj m) =
    Some (JObj (dict_set "hooks"
                  (JObj (dict_set "PreToolUse"
                           (JArr (kept ++ [Install.new_hook_entry cmd])%list) hm)) m)).
Proof.
  intros Hh Hp Hk. unfold Install.upsert_hook.
  cbn [py_in obind]. rewrite Hh. cbn [negb obind py_getitem]. rewrite Hh.
  cbn [obind py_in]. rewrite Hp. cbn [negb obind py_getitem]. rewrite Hp.
  cbn [obind py_iter]. rewrite Hk. cbn [obind py_setitem]. reflexivity.
Qed.

(** [strip_hooks] on settings of the expected shape. *)
Lemma strip_hooks_compute (m hm : list (string * json)) (es kept : list json) :
  dict_get "hooks" m = Some (JObj hm) ->
  dict_get "PreToolUse" hm = Some (JArr es) ->
  without_docs_hooks es = Some kept ->
  Uninstall.strip_hooks (JObj m) =
    Some (Some
      (let hm' := match kept with
                  | [] => dict_del "PreToolUse" (dict_set "PreToolUse" (JArr kept) hm)
                  | _ :: _ => dict_set "PreToolUse" (JArr kept) hm
                  end in
       match hm' with
       | [] => JObj (dict_del "hooks" (dict_set "hooks" (JObj hm') m))
       | _ :: _ => JObj (dict_set "hooks" (JObj hm') m)
       end,
       (Z.of_nat (List.length es) - Z.of_nat (List.length kept))%Z)).
Proof.
  intros Hh Hp Hk. unfold Uninstall.strip_hooks.
  cbn [py_in obind]. rewrite Hh. cbn [negb obind py_getitem]. rewrite Hh.
  cbn [obind py_in]. rewrite Hp. cbn [negb obind py_getitem]. rewrite Hp.
  cbn [obind py_len py_iter]. rewrite Hk. cbn [obind py_setitem]. cbv zeta.
  destruct kept as [|e kept]; cbn [obind py_setitem].
  - destruct (dict_del "PreToolUse" (dict_set "PreToolUse" (JArr []) hm)); reflexivity.
  - destruct (dict_set "PreToolUse" (JArr (e :: kept)) hm); reflexivity.
Qed.

Lemma pre_tool_use_of_set (m hm : list (string * json)) (es : list json) :
  pre_tool_use_of
    (JObj (dict_set "hooks" (JObj (dict_set "PreToolUse" (JArr es) hm)) m)) = es.
Proof.
  unfold pre_tool_use_of. rewrite hooks_of_set. cbn [py_getitem].
  rewrite dict_get_set_eq. reflexivity.
Qed.

(** X6: after the installer's rewrite, [hooks.PreToolUse] holds the
    entries it held before that have no docs command, in their order,
    followed by the one new entry. *)
Theorem upsert_hook_entries (cmd : string) (s s' : json) :
  Install.upsert_hook cmd s = Some s' ->
  pre_tool_use_of s' =
    (filter (fun e => negb (is_docs e)) (pre_tool_use_of s)
       ++ [Install.new_hook_entry cmd])%list.
Proof.
  intros H.
  destruct (upsert_hook_shape cmd s s' H) as (m & hm & kept & -> & _ & Hk & ->).
  rewrite pre_tool_use_of_set, (without_docs_hooks_filter _ _ Hk). reflexivity.
Qed.

Lemma upsert_hook_entries_witness :
  pre_tool_use_of
    (JObj [ ("model", JStr "opus");
            ("hooks",
             JObj [ ("PreToolUse",
                     JArr [ JObj [ ("matcher", JStr "Bash");
                                   ("hooks", JArr [ JObj [ ("type", JStr "command");
                                                           ("command", JStr "echo hi") ] ]) ];
                            Install.new_hook_entry "CMD" ]);
                    ("PostToolUse", JArr []) ]);
            ("theme", JStr "dark") ]) =
    (filter (fun e => negb (is_docs e)) (pre_tool_use_of settings_sample)
       ++ [Install.new_hook_entry "CMD"])%list.
Proof.
  refine (upsert_hook_entries "CMD" settings_sample _ _).
  reflexivity.
Defined.

(** X7: installing again changes nothing: the settings that [setup_hooks]
    has written are a fixed point of its rewrite, so the hook entry is
    never duplicated. *)
Theorem reinstall_is_fixed_point (E : Install.env) (s s' : json) :
  Install.upsert_hook (Install.get_hook_command E) s = Some s' ->
  Install.upsert_hook (Install.get_hook_command E) s' = Some s'.
Proof.
  intros H. set (cmd := Install.get_hook_command E) in *.
  destruct (upsert_hook_shape cmd s s' H) as (m & hm & kept & -> & _ & Hk & ->).
  assert (Hkept : without_docs_hooks (kept ++ [Install.new_hook_entry cmd]) = Some kept).
  { rewrite <- (app_nil_r kept) at 2.
    apply without_docs_hooks_app.
    - apply without_docs_hooks_fixed. apply (without_docs_hooks_kept _ _ Hk).
    - cbn [without_docs_hooks]. rewrite new_hook_entry_is_docs.
      subst cmd. rewrite hook_command_has_marker. reflexivity. }
  rewrite (upsert_hook_compute cmd _ _ _ kept
             (dict_get_set_eq _ _ _) (dict_get_set_eq _ _ _) Hkept).
  rewrite !dict_set_set. reflexivity.
Qed.

Lemma reinstall_is_fixed_point_witness :
  exists s',
    Install.upsert_hook (Install.get_hook_command install_env_sample) settings_sample
      = Some s'
    /\ Install.upsert_hook (Install.get_hook_command install_env_sample) s' = Some s'.
Proof.
  destruct (upsert_hook_total (Install.get_hook_command install_env_sample)
              settings_sample eq_refl) as [s' Hs'].
  exists s'. split; [exact Hs'|].
  exact (reinstall_is_fixed_point install_env_sample settings_sample s' Hs').
Defined.

Lemma pre_tool_use_of_stripped (m hm : list (string * json)) (kept : list json) :
  pre_tool_use_of (stripped m hm kept) = kept.
Proof.
  unfold stripped, pre_tool_use_of, hooks_of.
  destruct kept as [|e kept].
  - destruct (dict_del "PreToolUse" (dict_set "PreToolUse" (JArr []) hm))
      as [|kv hm'] eqn:Hd; cbn [py_getitem].
    + rewrite dict_get_del_eq. reflexivity.
    + rewrite dict_get_set_eq. cbn [py_getitem]. rewrite <- Hd, dict_get_del_eq.
      reflexivity.
  - destruct (dict_set "PreToolUse" (JArr (e :: kept)) hm) as [|kv hm'] eqn:Hd;
      cbn [py_getitem].
    + destruct hm as [|[k0 v0] hm]; cbn [dict_set] in Hd;
        [|destruct (k0 =? "PreToolUse")]; discriminate Hd.
    + rewrite dict_get_set_eq. cbn [py_getitem]. rewrite <- Hd, dict_get_set_eq.
      reflexivity.
Qed.

Lemma filter_partition_length {A} (f : A -> bool) (l : list A) :
  (List.length (filter f l) + List.length (filter (fun x => negb (f x)) l)
   = List.length l)%nat.
Proof.
  induction l as [|x l IH]; cbn [filter]; [reflexivity|].
  destruct (f x); cbn [negb List.length]; lia.
Qed.

(** X8: when the uninstaller rewrites settings whose [hooks.PreToolUse]
    is a list, the list afterwards holds exactly the entries without a docs
    command, in their order, and [removed_count] is the number of entries
    with one. *)
Theorem strip_hooks_entries (s s' : json) (n : Z) (es : list json) :
  Uninstall.strip_hooks s = Some (Some (s', n)) ->
  py_getitem (hooks_of s) "PreToolUse" = Some (JArr es) ->
  pre_tool_use_of s' = filter (fun e => negb (is_docs e)) es
  /\ n = Z.of_nat (List.length (filter is_docs es)).
Proof.
  intros H Hes.
  destruct (strip_hooks_shape s s' n H)
    as (m & hm & p & entries & kept & -> & Hh & Hp & Hit & Hk & _).
  unfold hooks_of in Hes. cbn [py_getitem] in Hes. rewrite Hh in Hes.
  cbn [py_getitem] in Hes. rewrite Hp in Hes. injection Hes as ->.
  cbn [py_iter] in Hit. injection Hit as <-.
  rewrite (strip_hooks_compute m hm es kept Hh Hp Hk) in H.
  injection H as <- <-. fold (stripped m hm kept).
  rewrite pre_tool_use_of_stripped.
  pose proof (without_docs_hooks_filter _ _ Hk) as Hf. split; [exact Hf|].
  rewrite Hf. pose proof (filter_partition_length is_docs es). lia.
Qed.

Lemma strip_hooks_entries_witness :
  pre_tool_use_of
    (JObj [ ("model", JStr "opus");
            ("hooks",
             JObj [ ("PreToolUse",
                     JArr [ JObj [ ("matcher", JStr "Bash");
                                   ("hooks", JArr [ JObj [ ("type", JStr "command");
                                                           ("command", JStr "echo hi") ] ]) ] ]);
                    ("PostToolUse", JArr []) ]);
            ("theme", JStr "dark") ]) =
    filter (fun e => negb (is_docs e)) (pre_tool_use_of settings_sample)
  /\ 1%Z = Z.of_nat (List.length (filter is_docs (pre_tool_use_of settings_sample))).
Proof.
  refine (strip_hooks_entries settings_sample _ 1%Z (pre_tool_use_of settings_sample) _ _).
  - reflexivity.
  - reflexivity.
Defined.

(** X9: uninstalling after installing takes out exactly the one entry the
    installer put in: [removed_count] is 1 and [hooks.PreToolUse] is left
    with the entries of the original settings that have no docs command;
    and settings that had no [hooks] key at all come back exactly as they
    were. *)
Theorem install_then_uninstall (E : Install.env) (s s' : json) :
  Install.upsert_hook (Install.get_hook_command E) s = Some s' ->
  exists s'',
    Uninstall.strip_hooks s' = Some (Some (s'', 1%Z))
    /\ pre_tool_use_of s'' = filter (fun e => negb (is_docs e)) (pre_tool_use_of s)
    /\ (py_getitem s "hooks" = None -> s'' = s).
Proof.
  intros H. set (cmd := Install.get_hook_command E) in *.
  destruct (upsert_hook_shape cmd s s' H) as (m & hm & kept & -> & Hhm & Hk & ->).
  assert (Hkept : without_docs_hooks (kept ++ [Install.new_hook_entry cmd]) = Some kept).
  { rewrite <- (app_nil_r kept) at 2.
    apply without_docs_hooks_app.
    - apply without_docs_hooks_fixed. apply (without_docs_hooks_kept _ _ Hk).
    - cbn [without_docs_hooks]. rewrite new_hook_entry_is_docs.
      subst cmd. rewrite hook_command_has_marker. reflexivity. }
  set (hm1 := dict_set "PreToolUse" (JArr (kept ++ [Install.new_hook_entry cmd])) hm).
  exists (stripped (dict_set "hooks" (JObj hm1) m) hm1 kept).
  split; [|split].
  - rewrite (strip_hooks_compute _ hm1 _ kept
               (dict_get_set_eq _ _ _) (dict_get_set_eq _ _ _) Hkept).
    unfold stripped. do 3 f_equal. rewrite length_app. cbn [List.length]. lia.
  - rewrite pre_tool_use_of_stripped. apply (without_docs_hooks_filter _ _ Hk).
  - cbn [py_getitem]. intros Hnone.
    unfold hooks_of in Hhm. cbn [py_getitem] in Hhm. rewrite Hnone in Hhm.
    injection Hhm as <-.
    unfold pre_tool_use_of, hooks_of in Hk. cbn [py_getitem] in Hk.
    rewrite Hnone in Hk. cbn in Hk. injection Hk as <-.
    subst hm1. unfold stripped. cbn [app dict_set dict_del].
    change ("PreToolUse" =? "PreToolUse") with true. cbn [dict_del].
    rewrite !dict_del_set, (dict_del_absent _ _ Hnone). reflexivity.
Qed.

Lemma install_then_uninstall_witness :
  exists s',
    Install.upsert_hook (Install.get_hook_command install_env_sample) settings_plain
      = Some s'
    /\ Uninstall.strip_hooks s' = Some (Some (settings_plain, 1%Z)).
Proof.
  destruct (upsert_hook_total (Install.get_hook_command install_env_sample)
              settings_plain eq_refl) as [s' Hs'].
  exists s'. split; [exact Hs'|].
  destruct (install_then_uninstall install_env_sample settings_plain s' Hs')
    as (s'' & Hstrip & _ & Hback).
  rewrite Hstrip, (Hback eq_refl). reflexivity.
Defined.

Lemma strip_hooks_absent_hooks (m : list (string * json)) :
  dict_get "hooks" m = None -> Uninstall.strip_hooks (JObj m) = Some None.
Proof.
  intros H. unfold Uninstall.strip_hooks. cbn [py_in]. rewrite H. reflexivity.
Qed.

Lemma strip_hooks_absent_pre (m hm : list (string * json)) :
  dict_get "hooks" m = Some (JObj hm) -> dict_get "PreToolUse" hm = None ->
  Uninstall.strip_hooks (JObj m) = Some None.
Proof.
  intros Hh Hp. unfold Uninstall.strip_hooks. cbn [py_in obind]. rewrite Hh.
  cbn [negb py_getitem]. rewrite Hh. cbn [obind py_in]. rewrite Hp. reflexivity.
Qed.

(** X10: what the uninstaller writes is stable: run on its own output it
    either finds no [hooks.PreToolUse] any more or rewrites the same
    settings with [removed_count] 0. *)
Theorem strip_hooks_twice (s s' : json) (n : Z) :
  Uninstall.strip_hooks s = Some (Some (s', n)) ->
  Uninstall.strip_hooks s' = Some None
  \/ Uninstall.strip_hooks s' = Some (Some (s', 0%Z)).
Proof.
  intros H.
  destruct (strip_hooks_shape s s' n H)
    as (m & hm & p & entries & kept & -> & Hh & Hp & Hit & Hk & Hs').
  cbv zeta in Hs'. destruct kept as [|e kept].
  - left. subst s'.
    destruct (dict_del "PreToolUse" (dict_set "PreToolUse" (JArr []) hm))
      as [|kv hm'] eqn:Hd.
    + apply strip_hooks_absent_hooks, dict_get_del_eq.
    + apply (strip_hooks_absent_pre _ (kv :: hm')); [apply dict_get_set_eq|].
      rewrite <- Hd. apply dict_get_del_eq.
  - right. subst s'.
    set (k := e :: kept) in *.
    assert (Hfix : without_docs_hooks k = Some k).
    { apply without_docs_hooks_fixed. apply (without_docs_hooks_kept _ _ Hk). }
    destruct (dict_set "PreToolUse" (JArr k) hm) as [|kv hm'] eqn:Hd.
    { destruct hm as [|[k0 v0] hm]; cbn [dict_set] in Hd;
        [|destruct (k0 =? "PreToolUse")]; discriminate Hd. }
    rewrite <- Hd.
    rewrite (strip_hooks_compute _ (dict_set "PreToolUse" (JArr k) hm) k k
               (dict_get_set_eq _ _ _) (dict_get_set_eq _ _ _) Hfix).
    subst k. cbv zeta. rewrite !dict_set_set, Hd, Z.sub_diag. reflexivity.
Qed.

Lemma strip_hooks_twice_witness :
  exists s',
    Uninstall.strip_hooks settings_sample = Some (Some (s', 1%Z))
    /\ (Uninstall.strip_hooks s' = Some None
        \/ Uninstall.strip_hooks s' = Some (Some (s', 0%Z))).
Proof.
  eexists. split; [reflexivity|].
  apply (strip_hooks_twice settings_sample _ 1%Z). reflexivity.
Defined.

Lemma upsert_hook_shape_ok (cmd : string) (s s' : json) :
  Install.upsert_hook cmd s = Some s' -> shape_ok s = true.
Proof.
  unfold Install.upsert_hook. intros H.
  inv_bind H. destruct s as [| | | |str|items|m]; cbn [py_in] in Ha; try discriminate Ha.
  - injection Ha as <-. destruct (Py.contains "hooks" str); cbn in H; discriminate H.
  - injection Ha as <-. destruct (existsb (is_str "hooks") items); cbn in H; discriminate H.
  - injection Ha as <-. cbn [shape_ok].
    destruct (dict_get "hooks" m) as [h|] eqn:Hh; [|reflexivity].
    cbn [negb obind py_setitem py_getitem] in H. rewrite Hh in H. cbn [obind] in H.
    inv_bind H.
    destruct h as [| | | |str|items|hm]; cbn [py_in] in Ha; try discriminate Ha.
    + injection Ha as <-. destruct (Py.contains "PreToolUse" str); cbn in H; discriminate H.
    + injection Ha as <-.
      destruct (existsb (is_str "PreToolUse") items); cbn in H; discriminate H.
    + injection Ha as <-.
      destruct (dict_get "PreToolUse" hm) as [p|] eqn:Hp; [|reflexivity].
      cbn [negb obind py_setitem py_getitem] in H. rewrite Hp in H. cbn [obind] in H.
      inv_bind H. inv_bind H.
      destruct p; try discriminate H. reflexivity.
Qed.

(** X11: settings that are valid JSON but not of the expected shape (the
    top level or [hooks] not an object, or [hooks.PreToolUse] not a list)
    make [setup_hooks] raise before it opens the file for writing: the file
    keeps its content and nothing after the two progress lines is
    printed. *)
Theorem setup_hooks_ill_shaped (E : Install.env) (w : Install.world) (s : json) :
  Install.settings_file w = Parsed s ->
  shape_ok s = false ->
  Install.setup_hooks E w =
    (None,
     {| Install.cwd := Install.cwd w;
        Install.settings_file := Parsed s;
        Install.trace :=
          (Install.trace w ++
           [ EPrint "Setting up automatic updates...";
             EPrint "  Updating Claude settings..." ])%list |}).
Proof.
  intros Hs Hshape. rewrite (setup_hooks_run E w s Hs).
  destruct (Install.upsert_hook (Install.get_hook_command E) s) as [s'|] eqn:Hu;
    [|reflexivity].
  rewrite (upsert_hook_shape_ok _ _ _ Hu) in Hshape. discriminate Hshape.
Qed.

Lemma setup_hooks_ill_shaped_witness :
  Install.setup_hooks install_env_sample
    {| Install.cwd := "/tmp"; Install.settings_file := Parsed settings_null_hooks;
       Install.trace := [] |} =
    (None,
     {| Install.cwd := "/tmp";
        Install.settings_file := Parsed settings_null_hooks;
        Install.trace :=
          [ EPrint "Setting up automatic updates...";
            EPrint "  Updating Claude settings..." ] |}).
Proof.
  apply (setup_hooks_ill_shaped install_env_sample
           {| Install.cwd := "/tmp"; Install.settings_file := Parsed settings_null_hooks;
              Install.trace := [] |} settings_null_hooks); reflexivity.
Defined.

(** X12: when [settings.json] is missing, or can be opened and decoded but
    holds text that is not valid JSON ([json.load] raises
    [json.JSONDecodeError]), [setup_hooks] writes a file that holds the docs
    hook and nothing else: whatever the invalid file held is replaced. *)
Theorem setup_hooks_starts_afresh (E : Install.env) (w : Install.world) :
  (Install.settings_file w = Missing
   \/ exists msg, Install.settings_file w = Malformed msg) ->
  fst (Install.setup_hooks E w) = Some tt
  /\ Install.settings_file (snd (Install.setup_hooks E w))
     = Parsed (fresh_settings (Install.get_hook_command E))
  /\ In (EWrite (Install.SETTINGS_FILE E))
        (Install.trace (snd (Install.setup_hooks E w))).
Proof.
  destruct w as [c sf tr]. cbn [Install.settings_file].
  intros [-> | [msg ->]];
    unfold Install.setup_hooks, bind, ret, Install.print, Install.emit,
      Install.write_settings;
    cbn [Install.cwd Install.settings_file Install.trace];
    (split; [reflexivity|]); (split; [reflexivity|]);
    cbn; rewrite ?in_app_iff; cbn [In]; tauto.
Qed.

Lemma setup_hooks_starts_afresh_witness :
  fst (Install.setup_hooks install_env_sample
         {| Install.cwd := "/tmp"; Install.settings_file := Malformed "Expecting value";
            Install.trace := [] |}) = Some tt
  /\ Install.settings_file
       (snd (Install.setup_hooks install_env_sample
               {| Install.cwd := "/tmp";
                  Install.settings_file := Malformed "Expecting value";
                  Install.trace := [] |}))
     = Parsed (fresh_settings (Install.get_hook_command install_env_sample))
  /\ In (EWrite (Install.SETTINGS_FILE install_env_sample))
        (Install.trace
           (snd (Install.setup_hooks install_env_sample
                   {| Install.cwd := "/tmp";
                      Install.settings_file := Malformed "Expecting value";
                      Install.trace := [] |}))).
Proof.
  apply (setup_hooks_starts_afresh install_env_sample
           {| Install.cwd := "/tmp"; Install.settings_file := Malformed "Expecting value";
              Install.trace := [] |}).
  right. exists "Expecting value". reflexivity.
Defined.

(** X30: when [settings.json] is there but opening or decoding it raises
    something other than [json.JSONDecodeError] (an [OSError], a
    [UnicodeDecodeError]), [setup_hooks] does not catch it: it ends with
    that exception after its first two lines of output, and the file is
    neither opened for writing nor changed. *)
Theorem setup_hooks_unreadable_raises (E : Install.env) (w : Install.world)
    (msg : string) :
  Install.settings_file w = Unreadable msg ->
  Install.setup_hooks E w =
    (None, {| Install.cwd := Install.cwd w;
              Install.settings_file := Unreadable msg;
              Install.trace :=
                (Install.trace w ++
                 [ EPrint "Setting up automatic updates...";
                   EPrint "  Updating Claude settings..." ])%list |}).
Proof.
  destruct w as [c sf tr]. cbn [Install.settings_file Install.cwd Install.trace].
  intros ->.
  unfold Install.setup_hooks, bind, ret, Install.print, Install.emit.
  cbn [Install.cwd Install.settings_file Install.trace obind].
  rewrite <- app_assoc. reflexivity.
Qed.

Lemma setup_hooks_unreadable_raises_witness :
  Install.setup_hooks install_env_sample
    {| Install.cwd := "/tmp";
       Install.settings_file := Unreadable "[Errno 13] Permission denied";
       Install.trace := [] |} =
  (None, {| Install.cwd := "/tmp";
            Install.settings_file := Unreadable "[Errno 13] Permission denied";
            Install.trace := [ EPrint "Setting up automatic updates...";
                               EPrint "  Updating Claude settings..." ] |}).
Proof.
  apply (setup_hooks_unreadable_raises install_env_sample
           {| Install.cwd := "/tmp";
              Install.settings_file := Unreadable "[Errno 13] Permission denied";
              Install.trace := [] |}
           "[Errno 13] Permission denied").
  reflexivity.
Defined.

End SettingsMore.

(** ** The uninstaller: declining, the verdict, the backup, the removals *)

Module UninstallMore.
Import Json Uninstall SettingsSpec SettingsFacts UninstallSpec UninstallFacts
  UninstallMoreSpec.

Lemma main_declined_run (E : env) (w : world) :
  (Py.lower (reply E) =? "y") = false ->
  main E w = (tt, out w (intro_events E ++ [EPrint "Cancelled."])).
Proof.
  intros Hn. unfold main. rewrite intro_run, Hn. cbn [negb].
  rewrite un_print_out, un_out_out. reflexivity.
Qed.

Lemma intro_events_kinds (E : env) (e : event) :
  In e (intro_events E) -> is_print e || is_input e = true.
Proof.
  unfold intro_events. intros H.
  repeat (apply in_app_or in H as [H|H]);
    try (destruct (installations E) as [|a l]; cbn [In] in H; [contradiction|]);
    try (cbn [In] in H;
         repeat (destruct H as [<-|H]; [reflexivity|]); try contradiction).
  apply in_app_or in H as [H|H].
  - apply in_map_iff in H as (x & <- & _). reflexivity.
  - destruct H as [<-|[]]. reflexivity.
Qed.

(** X13: any reply other than [y] or [Y] cancels the uninstaller: it
    prints the announcement, asks, prints [Cancelled.] and returns; the
    command file, the settings, the backup and the directories are as they
    were, and nothing but printing and the one prompt has happened. *)
Theorem uninstall_declined (E : env) (w : world) :
  (Py.lower (reply E) =? "y") = false ->
  let w' := snd (main E w) in
  command_file w' = command_file w
  /\ settings_file w' = settings_file w
  /\ backup_file w' = backup_file w
  /\ dirs w' = dirs w
  /\ exists evs,
       trace w' = (trace w ++ evs ++ [EPrint "Cancelled."])%list
       /\ forall e, In e evs -> is_print e || is_input e = true.
Proof.
  intros Hn w'. subst w'. rewrite (main_declined_run E w Hn). cbn [snd out].
  repeat (split; [reflexivity|]).
  exists (intro_events E). split; [reflexivity|]. apply intro_events_kinds.
Qed.

Lemma uninstall_declined_witness :
  let w' := snd (main env_declines uninstall_world_sample) in
  command_file w' = true
  /\ settings_file w' = Parsed settings_sample
  /\ backup_file w' = None
  /\ dirs w' = ["/home/u/.claude-code-docs"; "/home/u/old-docs"]
  /\ exists evs,
       trace w' = ([] ++ evs ++ [EPrint "Cancelled."])%list
       /\ forall e, In e evs -> is_print e || is_input e = true.
Proof.
  apply (uninstall_declined env_declines uninstall_world_sample). reflexivity.
Defined.

Lemma lacks_pre_tool_use_strip (s : json) :
  lacks_pre_tool_use s = true -> strip_hooks s = Some None.
Proof.
  destruct s as [| | | | | |m]; try discriminate. cbn [lacks_pre_tool_use].
  destruct (dict_get "hooks" m) as [h|] eqn:Hh.
  - destruct h as [| | | | | |hm]; try discriminate.
    destruct (dict_get "PreToolUse" hm) as [p|] eqn:Hp; [discriminate|]. intros _.
    unfold strip_hooks. cbn [py_in obind]. rewrite Hh.
    cbn [negb py_getitem]. rewrite Hh. cbn [obind py_in]. rewrite Hp. reflexivity.
  - intros _. unfold strip_hooks. cbn [py_in]. rewrite Hh. reflexivity.
Qed.

(** X14: with a settings file that holds no [hooks.PreToolUse], a
    confirmed uninstall ends with the line
    [[WARNING] Uninstall completed with warnings] although nothing failed:
    [remove_hooks] falls off its end and returns [None]. The settings are
    copied to the backup and left as they were. *)
Theorem uninstall_warns_without_hooks (E : env) (w : world) (s : json) :
  Py.lower (reply E) = "y" ->
  settings_file w = Parsed s ->
  lacks_pre_tool_use s = true ->
  copy_error E = None ->
  let w' := snd (main E w) in
  settings_file w' = Parsed s
  /\ backup_file w' = Some (Parsed s)
  /\ exists evs, trace w' = (trace w ++ evs)%list /\ In warnings_line evs.
Proof.
  intros Hy Hs Hl Hc w'. subst w'. rewrite (main_confirmed E w Hy). cbv zeta. cbn [snd].
  set (wa := out w (intro_events E ++ [EPrint ""])).
  set (ra := remove_command_file E wa).
  destruct (remove_command_file_facts E wa) as (_ & As & _ & ea & Ta & _).
  fold ra in As, Ta. subst wa. cbn [out settings_file trace] in As, Ta.
  rewrite Hs in As.
  assert (Hrb : remove_hooks E (snd ra) =
                (None, {| command_file := command_file (snd ra);
                          settings_file := Parsed s;
                          backup_file := Some (Parsed s);
                          dirs := dirs (snd ra);
                          trace := (trace (snd ra)
                                    ++ [ECopy (SETTINGS_FILE E) (BACKUP_FILE E)])%list |})).
  { destruct (snd ra) as [cf sf bf ds tr]. cbn [settings_file] in As. subst sf.
    unfold remove_hooks, bind, emit.
    cbn [command_file settings_file backup_file dirs trace fst snd].
    rewrite Hc, (lacks_pre_tool_use_strip s Hl). reflexivity. }
  rewrite Hrb. cbn [fst snd truth]. rewrite andb_false_r.
  rewrite after_directories_sweep.
  match goal with |- context [sweep E ?ps ?w0] => set (wb := w0) end.
  destruct (sweep_events E (installations E) wb) as (es & Ts & _).
  destruct (sweep_files E (installations E) wb) as (_ & Fs & Fb).
  cbn [out settings_file backup_file trace]. rewrite Fs, Fb, Ts.
  subst wb. cbn [out settings_file backup_file trace].
  split; [reflexivity|]. split; [reflexivity|].
  rewrite Ta, <- !app_assoc. eexists. split; [reflexivity|].
  rewrite !in_app_iff. do 6 right. unfold closing_events.
  apply in_or_app. left. right. left. reflexivity.
Qed.

Lemma uninstall_warns_without_hooks_witness :
  let w' := snd (main uninstall_env_sample world_no_hooks) in
  settings_file w' = Parsed (JObj [ ("model", JStr "opus") ])
  /\ backup_file w' = Some (Parsed (JObj [ ("model", JStr "opus") ]))
  /\ exists evs, trace w' = ([] ++ evs)%list /\ In warnings_line evs.
Proof.
  apply (uninstall_warns_without_hooks uninstall_env_sample world_no_hooks
           (JObj [ ("model", JStr "opus") ])); reflexivity.
Defined.

(** X15: [remove_hooks] opens the settings for writing only after it has
    copied them: if its events hold the write, they begin with the copy to
    [settings.json.backup], the copy did not fail, and the backup holds
    what the settings file held before. *)
Theorem remove_hooks_backs_up_first (E : env) (w : world) (evs : list event) :
  trace (snd (remove_hooks E w)) = (trace w ++ evs)%list ->
  In (EWrite (SETTINGS_FILE E)) evs ->
  copy_error E = None
  /\ backup_file (snd (remove_hooks E w)) = Some (settings_file w)
  /\ exists rest, evs = ECopy (SETTINGS_FILE E) (BACKUP_FILE E) :: rest.
Proof.
  destruct w as [cf sf bf ds tr].
  unfold remove_hooks, could_not_remove_hooks, bind, ret, print, emit.
  cbn [command_file settings_file backup_file dirs trace fst snd].
  assert (Hnil : forall l, (tr = tr ++ l)%list -> l = []).
  { intros l H. rewrite <- (app_nil_r tr) in H at 1.
    symmetry. exact (app_inv_head _ _ _ H). }
  destruct sf as [|msg|msg|s].
  - cbn [snd trace]. intros H Hin. rewrite (Hnil _ H) in Hin. destruct Hin.
  - destruct (copy_error E) as [ce|]; cbn [snd trace fst];
      rewrite <- ?app_assoc; intros H Hin; apply app_inv_head in H; subst evs.
    + destruct Hin as [Hin|[Hin|[]]]; discriminate Hin.
    + cbn [backup_file]. split; [reflexivity|]. split; [reflexivity|].
      eexists. reflexivity.
  - destruct (copy_error E) as [ce|]; cbn [snd trace fst];
      rewrite <- ?app_assoc; intros H Hin; apply app_inv_head in H; subst evs.
    + destruct Hin as [Hin|[Hin|[]]]; discriminate Hin.
    + cbn [backup_file]. split; [reflexivity|]. split; [reflexivity|].
      eexists. reflexivity.
  - destruct (copy_error E) as [ce|].
    { cbn [snd trace fst]. rewrite <- ?app_assoc. intros H Hin.
      apply app_inv_head in H. subst evs.
      destruct Hin as [Hin|[Hin|[]]]; discriminate Hin. }
    destruct (strip_hooks s) as [[[s' n]|]|];
      [destruct (write_error E) as [we|]; [|destruct (0 <? n)%Z]| |];
      cbn [snd trace fst backup_file]; rewrite <- ?app_assoc; intros H Hin;
      apply app_inv_head in H; subst evs;
      (split; [reflexivity|]); (split; [reflexivity|]); eexists; reflexivity.
Qed.

Lemma remove_hooks_backs_up_first_witness :
  copy_error uninstall_env_sample = None
  /\ backup_file (snd (remove_hooks uninstall_env_sample uninstall_world_sample))
     = Some (Parsed settings_sample)
  /\ exists rest,
       [ ECopy (SETTINGS_FILE uninstall_env_sample) (BACKUP_FILE uninstall_env_sample);
         EWrite (SETTINGS_FILE uninstall_env_sample);
         EPrint "[OK] Removed 1 hook(s) (backup: /home/u/.claude/settings.json.backup)" ]
       = ECopy (SETTINGS_FILE uninstall_env_sample) (BACKUP_FILE uninstall_env_sample)
           :: rest.
Proof.
  apply (remove_hooks_backs_up_first uninstall_env_sample uninstall_world_sample).
  - reflexivity.
  - right. left. reflexivity.
Defined.

(** X16: the uninstaller calls [shutil.rmtree] only on a directory that
    [find_all_installations] listed, that exists, and that is not a working
    copy with uncommitted changes; and only after the user confirmed. *)
Theorem rmtree_only_listed_clean (E : env) (w : world) (evs : list event) (p : string) :
  trace (snd (main E w)) = (trace w ++ evs)%list ->
  In (ERmtree p) evs ->
  Py.lower (reply E) = "y"
  /\ In p (installations E) /\ In p (dirs w) /\ dirty E p = false.
Proof.
  intros Ht Hin.
  destruct (Py.lower (reply E) =? "y") eqn:Hy.
  - apply String.eqb_eq in Hy. split; [exact Hy|].
    rewrite (main_confirmed E w Hy) in Ht. cbv zeta in Ht. cbn [snd] in Ht.
    set (wa := out w (intro_events E ++ [EPrint ""])) in Ht.
    set (ra := remove_command_file E wa) in Ht.
    set (rb := remove_hooks E (snd ra)) in Ht.
    destruct (remove_command_file_facts E wa) as (Ad & _ & _ & ea & Ta & Na).
    fold ra in Ad, Ta.
    destruct (remove_hooks_frame E (snd ra)) as (Bd & _ & eb & Tb & Nb).
    fold rb in Bd, Tb.
    rewrite after_directories_sweep in Ht.
    set (wb := out (snd rb) (separator E)) in Ht.
    assert (Hdirs : dirs wb = dirs w)
      by (subst wb; cbn [out dirs]; rewrite Bd, Ad; reflexivity).
    destruct (sweep_events E (installations E) wb) as (es & Ts & R1 & _).
    cbn [out trace] in Ht. rewrite Ts in Ht. subst wb. cbn [out trace] in Ht.
    rewrite Tb, Ta in Ht. subst wa. cbn [out trace] in Ht.
    rewrite <- !app_assoc in Ht. apply app_inv_head in Ht. subst evs.
    rewrite (app_assoc (intro_events E)) in Hin.
    apply in_app_or in Hin as [H|H]; [destruct (no_rmtree_in_intro E p H)|].
    apply in_app_or in H as [H|H]; [destruct (Na p H)|].
    apply in_app_or in H as [H|H]; [destruct (Nb p H)|].
    apply in_app_or in H as [H|H].
    { unfold separator in H. destruct (installations E); [destruct H|].
      destruct H as [H|[]]. discriminate H. }
    apply in_app_or in H as [H|H].
    + destruct (R1 p H) as (H1 & H2 & H3). rewrite Hdirs in H2. auto.
    + destruct (no_rmtree_in_closing E _ p H).
  - exfalso. rewrite (main_declined_run E w Hy) in Ht. cbn [snd out trace] in Ht.
    apply app_inv_head in Ht. subst evs.
    apply in_app_or in Hin as [H|H].
    + apply intro_events_kinds in H. discriminate H.
    + destruct H as [H|[]]. discriminate H.
Qed.

Lemma rmtree_only_listed_clean_witness :
  Py.lower (reply uninstall_env_sample) = "y"
  /\ In "/home/u/.claude-code-docs" (installations uninstall_env_sample)
  /\ In "/home/u/.claude-code-docs" (dirs uninstall_world_sample)
  /\ dirty uninstall_env_sample "/home/u/.claude-code-docs" = false.
Proof.
  apply (rmtree_only_listed_clean uninstall_env_sample uninstall_world_sample
           (trace (snd (main uninstall_env_sample uninstall_world_sample)))).
  - reflexivity.
  - vm_compute. repeat (first [left; reflexivity | right]).
Defined.

End UninstallMore.

(** ** The helper: topics, special words, the remote check *)

Module HelperMore.
Import Helper HelperSpec HelperFacts HelperMoreSpec.

Lemma in_insert_sorted (f g : file) (l : list file) :
  In g (insert_sorted f l) <-> g = f \/ In g l.
Proof.
  induction l as [|h l IH]; cbn [insert_sorted In].
  - intuition.
  - destruct (String.ltb (name f) (name h)); cbn [In]; [intuition|].
    rewrite IH. intuition.
Qed.

Lemma in_sorted (g : file) (l : list file) : In g (sorted l) <-> In g l.
Proof.
  induction l as [|f l IH]; cbn [sorted fold_right In]; [tauto|].
  fold (sorted l). rewrite in_insert_sorted, IH. intuition.
Qed.



Lemma in_list_topics (r : fs) (t : string) :
  In t (list_topics r) <->
  exists f, In f (docs r) /\ ends_with ".md" (name f) = true /\ stem (name f) = t.
Proof.
  unfold list_topics, glob_md. rewrite in_map_iff. split.
  - intros (f & Hst & Hin). apply in_sorted, filter_In in Hin. exists f. tauto.
  - intros (f & Hin & Hmd & Hst). exists f. split; [exact Hst|].
    apply in_sorted, filter_In. tauto.
Qed.


(** X18: every topic that [list_topics] lists can be read: [read_doc]
    applied to it finds a file. *)
Theorem listed_topics_can_be_read (r : fs) (t : string) :
  In t (list_topics r) -> exists c, read_doc r t = Returned (Some c).
Proof.
  intros Hin. apply in_list_topics in Hin as (f & Hf & Hmd & Hst).
  rewrite ends_with_is_md in Hmd. rewrite (stem_md_stem _ Hmd) in Hst.
  assert (Hg : In f (md_files r)) by (apply filter_In; tauto).
  assert (Hrule : exists g, find (stem_equals t) (md_files r) = Some g).
  { destruct (find (stem_equals t) (md_files r)) as [g|] eqn:Hfind; [eauto|].
    pose proof (find_none _ _ Hfind f Hg) as Hno.
    unfold stem_equals in Hno. rewrite Hst, String.eqb_refl in Hno.
    discriminate Hno. }
  destruct Hrule as [g Hfind].
  rewrite read_doc_resolve. unfold resolve, rule_exact, rule_stem.
  destruct (lookup r (Joined (t ++ ".md"))) as [h|] eqn:Hl.
  { cbn [option_map]. rewrite Hl. eexists. reflexivity. }
  assert (Hshort : plain_name (t ++ ".md") = true).
  { destruct (String.string_dec (name f) ".md") as [Heq|Hne].
    - rewrite Heq in Hst. subst t. reflexivity.
    - exfalso. rewrite <- Hst, <- (md_name_stem _ Hmd Hne) in Hl.
      cbn [lookup] in Hl.
      destruct (find (fun g0 => name g0 =? name f) (docs r)) as [h|] eqn:Hfn;
        [discriminate Hl|].
      pose proof (find_none _ _ Hfn f Hf) as Hno. cbv beta in Hno.
      rewrite String.eqb_refl in Hno. discriminate Hno. }
  rewrite Hshort, Hfind. cbn [option_map lookup]. eexists. reflexivity.
Qed.

Lemma listed_topics_can_be_read_witness :
  exists c, read_doc mirror_two "mcp" = Returned (Some c).
Proof.
  apply (listed_topics_can_be_read mirror_two "mcp").
  right. left. reflexivity.
Defined.

Lemma freshness_none (E : env) (w : world) :
  ((if false then check_freshness E else ret tt) ;; show_whats_new E)%io w
  = show_whats_new E w.
Proof. rewrite bind_run. reflexivity. Qed.

(** X19: when the words of the invocation, joined by spaces and in lower
    case, are one of [what's new], [whats new], [what is new] and
    [changelog], the helper shows the changelog and looks up no document,
    whatever the docs directory holds; with [-t] the freshness check comes
    first. *)
Theorem whats_new_shadows_documents (E : env) (w : world)
        (topic : string) (rest : list string) :
  Py.mem (Py.lower (Py.join " " (topic :: rest))) WHATS_NEW = true ->
  main E (topic :: rest) w = show_whats_new E w
  /\ main E ("-t" :: topic :: rest) w
     = (check_freshness E ;; show_whats_new E)%io w.
Proof.
  unfold WHATS_NEW. intros H.
  assert (Hcmd : forall x,
            x = "hook-check" \/ x = "uninstall" \/ x = "-t" -> (topic =? x) = false).
  { intros x Hx. destruct (topic =? x) eqn:He; [|reflexivity].
    apply String.eqb_eq in He. subst topic. exfalso.
    destruct Hx as [-> | [-> | ->]]; destruct rest as [|r0 rest];
      cbn in H; discriminate H. }
  split.
  - unfold main. rewrite !first_arg_is_head.
    rewrite (Hcmd "hook-check"), (Hcmd "uninstall"), (Hcmd "-t") by tauto.
    cbv iota. rewrite H. apply freshness_none.
  - unfold main.
    cbn [first_arg_is]. change ("-t" =? "hook-check") with false.
    change ("-t" =? "uninstall") with false.
    change ("-t" =? "-t") with true. cbn [tl]. rewrite H. reflexivity.
Qed.

Lemma whats_new_shadows_documents_witness :
  main env_quiet ["Changelog"] (world_of mirror_changelog Absent 0)
    = show_whats_new env_quiet (world_of mirror_changelog Absent 0)
  /\ main env_quiet ["-t"; "Changelog"] (world_of mirror_changelog Absent 0)
     = (check_freshness env_quiet ;; show_whats_new env_quiet)%io
         (world_of mirror_changelog Absent 0).
Proof.
  apply (whats_new_shadows_documents env_quiet (world_of mirror_changelog Absent 0)
           "Changelog" []).
  reflexivity.
Defined.

(** X20: a document that exists and can be read but is empty is reported
    as not found: the helper prints the error line and the topic list
    instead of the (empty) text. *)
Theorem empty_document_reported_missing (E : env) (w : world) check_fresh topic rest
        (p : doc_path) (f : file) :
  is_request check_fresh topic rest ->
  let w1 := looked_up_in E check_fresh w in
  resolve (root w1) topic = Returned (Some p) ->
  lookup (root w1) p = Some f ->
  unreadable f = None ->
  text f = "" ->
  read_doc (root w1) topic = Returned (Some "")
  /\ main E (invocation check_fresh topic rest) w =
       (Returned tt,
        out w1 (banner ++
                (not_found_lines topic ++ topic_lines topic (list_topics (root w1)))
                ++ footer check_fresh)%list).
Proof.
  intros Hreq w1 Hres Hlook Hread Htext.
  assert (Hdoc : read_doc (root w1) topic = Returned (Some "")).
  { rewrite read_doc_resolve, Hres, Hlook. cbn [option_map]. unfold outcome.
    rewrite Hread, Htext. reflexivity. }
  split; [exact Hdoc|].
  rewrite (main_request E w check_fresh topic rest Hreq). cbv zeta. fold w1.
  rewrite Hdoc. reflexivity.
Qed.

Lemma empty_document_reported_missing_witness :
  read_doc mirror_empty_doc "hooks" = Returned (Some "")
  /\ main env_quiet ["hooks"] (world_of mirror_empty_doc Absent 0) =
       (Returned tt,
        out (world_of mirror_empty_doc Absent 0)
            (banner ++
             (not_found_lines "hooks"
              ++ topic_lines "hooks" (list_topics mirror_empty_doc))
             ++ footer false)%list).
Proof.
  refine (empty_document_reported_missing env_quiet
            (world_of mirror_empty_doc Absent 0) false "hooks" []
            (Joined "hooks.md") (plain "hooks.md" "") _ _ _ _ _).
  - apply request_plain; try discriminate. reflexivity.
  - reflexivity.
  - reflexivity.
  - reflexivity.
  - reflexivity.
Defined.

Lemma check_for_updates_run (E : env) (w : world) :
  exists msg w1 evs,
    check_for_updates E w = ((updates_found E, msg), w1)
    /\ marker w1 = marker w /\ clock w1 = clock w
    /\ trace w1 = (trace w ++ evs)%list
    /\ (forall e, In e evs ->
          e = EGit (INSTALL_DIR E) hook_fetch \/ e = EGit (INSTALL_DIR E) hook_rev_list)
    /\ (updates_found E = true ->
        msg = Py.str_of_N (behind_count E) ++ " update(s) available").
Proof.
  unfold updates_found, behind_count, hook_fetch, hook_rev_list.
  unfold check_for_updates, git_operation, bind, ret.
  cbn [root marker clock trace].
  destruct (git_installed E); cbn [fst snd root marker clock trace negb andb].
  2: { do 2 eexists. exists []. split; [reflexivity|].
       cbn [marker clock trace]. rewrite app_nil_r.
       repeat (split; [reflexivity|]). split; [intros e []|discriminate]. }
  destruct (run_git E ["fetch"; "--quiet"]);
    cbn [fst snd root marker clock trace negb andb].
  2: { do 3 eexists. split; [reflexivity|]. cbn [marker clock trace].
       repeat (split; [reflexivity|]). split; [|discriminate].
       intros e [<-|[]]. left. reflexivity. }
  destruct (run_git E ["rev-list"; "--count"; "HEAD..origin/main"]) as [out|err];
    cbn [fst snd root marker clock trace negb andb].
  2: { do 3 eexists. split; [reflexivity|]. cbn [marker clock trace].
       rewrite <- app_assoc. repeat (split; [reflexivity|]). split; [|discriminate].
       intros e [<-|[<-|[]]]; [left|right]; reflexivity. }
  destruct (Py.isdigit (Py.strip out)).
  - destruct (0 <? Py.int (Py.strip out))%N;
      cbn [fst snd root marker clock trace negb andb];
      (do 3 eexists; split; [reflexivity|]); cbn [marker clock trace];
      rewrite <- app_assoc; repeat (split; [reflexivity|]);
      (split; [|reflexivity || discriminate]);
      intros e [<-|[<-|[]]]; [left|right|left|right]; reflexivity.
  - cbn [N.ltb N.compare fst snd root marker clock trace negb andb].
    do 3 eexists. split; [reflexivity|]. cbn [marker clock trace].
    rewrite <- app_assoc. repeat (split; [reflexivity|]). split; [|discriminate].
    intros e [<-|[<-|[]]]; [left|right]; reflexivity.
Qed.

(** X21: [check_for_updates] only looks: it runs [git fetch --quiet] and,
    if that succeeds, [git rev-list --count HEAD..origin/main], prints
    nothing and leaves the marker alone. It answers [True] exactly when git
    is there, the fetch succeeds and the count is a positive number; output
    of [rev-list] that is not all digits counts as zero. *)
Theorem check_for_updates_only_looks (E : env) (w : world) :
  let r := check_for_updates E w in
  fst (fst r) = updates_found E
  /\ (fst (fst r) = true ->
      snd (fst r) = Py.str_of_N (behind_count E) ++ " update(s) available")
  /\ marker (snd r) = marker w
  /\ clock (snd r) = clock w
  /\ exists evs,
       trace (snd r) = (trace w ++ evs)%list
       /\ forall e, In e evs ->
            e = EGit (INSTALL_DIR E) hook_fetch
            \/ e = EGit (INSTALL_DIR E) hook_rev_list.
Proof.
  cbv zeta.
  destruct (check_for_updates_run E w) as (msg & w1 & evs & -> & Hm & Hc & Ht & He & Hmsg).
  cbn [fst snd]. repeat (split; [assumption || reflexivity|]).
  exists evs. split; assumption.
Qed.

Lemma pull_updates_run (E : env) (w : world) :
  git_installed E = true ->
  exists r w1,
    pull_updates E w = (r, w1)
    /\ marker w1 = marker w
    /\ trace w1 = (trace w ++ pull_events E)%list.
Proof.
  intros Hgit. unfold pull_events, hook_pull.
  unfold pull_updates, git_operation, print, emit, bind, ret.
  cbn [root marker clock trace]. rewrite Hgit.
  destruct (run_git E ["pull"; "--quiet"]);
    cbn [fst snd root marker clock trace];
    (do 2 eexists; split; [reflexivity|]); cbn [marker trace];
    rewrite <- !app_assoc; split; reflexivity.
Qed.

Lemma get_last_update_time_run (E : env) (w : world) :
  exists r w1 evs,
    get_last_update_time E w = (r, w1)
    /\ marker w1 = marker w
    /\ trace w1 = (trace w ++ evs)%list
    /\ forall e, In e evs ->
         e = EGit (INSTALL_DIR E) ["log"; "-1"; "--format=%ct"; "docs/"].
Proof.
  unfold get_last_update_time, git_operation, bind, ret.
  cbn [root marker clock trace].
  destruct (git_installed E); cbn [fst snd root marker clock trace].
  2: { do 2 eexists. exists []. split; [reflexivity|]. cbn [marker trace].
       rewrite app_nil_r. repeat (split; [reflexivity|]). intros e []. }
  destruct (run_git E ["log"; "-1"; "--format=%ct"; "docs/"]) as [out|err];
    cbn [fst snd andb];
    [destruct (Py.isdigit (Py.strip out))|];
    (do 3 eexists; split; [reflexivity|]); cbn [marker trace];
    repeat (split; [reflexivity|]); intros e [<-|[]]; reflexivity.
Qed.

Ltac no_such_event H :=
  repeat (destruct H as [H|H]; [discriminate H|]); destruct H.

Lemma freshness_tail (E : env) (w0 : world) :
  let w' :=
    snd (('(has_updates, message) <- check_for_updates E ;;
          (if has_updates then
             print ("[UPDATE] " ++ message) ;;
             pull_updates E ;;
             ret tt
           else print ("[OK] " ++ message)) ;;
          print "")%io w0) in
  marker w' = marker w0
  /\ exists evs,
       trace w' = (trace w0 ++ evs)%list
       /\ (In (EGit (INSTALL_DIR E) hook_pull) evs <-> updates_found E = true)
       /\ (updates_found E = true ->
           exists before after,
             evs = (before ++ updates_line E :: pull_events E ++ after)%list).
Proof.
  cbv zeta. rewrite bind_run.
  destruct (check_for_updates_run E w0) as (msg & w1 & e1 & -> & M1 & _ & T1 & K1 & Hmsg).
  cbn [fst snd].
  assert (Hnot : ~ In (EGit (INSTALL_DIR E) hook_pull) e1).
  { intros H. destruct (K1 _ H) as [H'|H']; discriminate H'. }
  destruct (updates_found E) eqn:Hup.
  - assert (Hgit : git_installed E = true).
    { unfold updates_found in Hup. destruct (git_installed E); [reflexivity|].
      discriminate Hup. }
    rewrite !bind_run, !print_out. cbn [fst snd].
    destruct (pull_updates_run E (out w1 [EPrint ("[UPDATE] " ++ msg)]) Hgit)
      as (r2 & w2 & -> & M2 & T2).
    cbn [fst snd out marker trace] in *. unfold ret. cbn [fst snd].
    split; [congruence|].
    rewrite T2, T1, (Hmsg eq_refl). fold (updates_line E).
    rewrite <- !app_assoc. eexists. split; [reflexivity|]. split.
    + split; [reflexivity|]. intros _.
      rewrite !in_app_iff. right. right. left. right. left. reflexivity.
    + intros _. exists e1, [EPrint ""]. reflexivity.
  - rewrite !bind_run, !print_out. cbn [fst snd out marker trace].
    split; [congruence|].
    rewrite T1. rewrite <- !app_assoc. eexists. split; [reflexivity|].
    split; [|discriminate]. split; [|discriminate].
    intros H. exfalso. apply in_app_or in H as [H|H]; [exact (Hnot H)|].
    no_such_event H.
Qed.

(** X22: [check_freshness] (the [-t] flag) pulls exactly when
    [check_for_updates] finds updates, and then prints their number before
    it pulls; it never touches the marker of the hook. *)
Theorem check_freshness_pulls_iff_behind (E : env) (w : world) :
  let w' := snd (check_freshness E w) in
  marker w' = marker w
  /\ exists evs,
       trace w' = (trace w ++ evs)%list
       /\ (In (EGit (INSTALL_DIR E) hook_pull) evs <-> updates_found E = true)
       /\ (updates_found E = true ->
           exists before after,
             evs = (before ++ updates_line E :: pull_events E ++ after)%list).
Proof.
  cbv zeta. unfold check_freshness.
  rewrite bind_run.
  destruct (get_last_update_time_run E w) as (r0 & w0 & e0 & -> & M0 & T0 & K0).
  cbn [fst snd]. rewrite bind_run.
  assert (Hnot : ~ In (EGit (INSTALL_DIR E) hook_pull) e0).
  { intros H. pose proof (K0 _ H) as H'. discriminate H'. }
  assert (Hinfo : forall info : string,
    let w' :=
      snd (('(has_updates, message) <- check_for_updates E ;;
            (if has_updates then
               print ("[UPDATE] " ++ message) ;;
               pull_updates E ;;
               ret tt
             else print ("[OK] " ++ message)) ;;
            print "")%io (out w0 [EPrint info])) in
    marker w' = marker w
    /\ exists evs,
         trace w' = (trace w ++ evs)%list
         /\ (In (EGit (INSTALL_DIR E) hook_pull) evs <-> updates_found E = true)
         /\ (updates_found E = true ->
             exists before after,
               evs = (before ++ updates_line E :: pull_events E ++ after)%list)).
  { intros info.
    destruct (freshness_tail E (out w0 [EPrint info])) as (Mt & evs & Tt & Hiff & Hline).
    cbv zeta. split; [rewrite Mt; exact M0|].
    exists (e0 ++ [EPrint info] ++ evs)%list. split; [|split].
    - rewrite Tt. cbn [out trace]. rewrite T0, <- !app_assoc. reflexivity.
    - rewrite <- Hiff. rewrite !in_app_iff. split; [|tauto].
      intros [H|[H|H]]; [destruct (Hnot H) | no_such_event H | exact H].
    - intros Hup. destruct (Hline Hup) as (before & after & ->).
      exists (e0 ++ [EPrint info] ++ before)%list, after.
      rewrite <- !app_assoc. reflexivity. }
  destruct r0 as [dt|]; rewrite print_out; cbn [fst snd]; apply Hinfo.
Qed.

(** X23: of a document request only the first word counts: words after the
    topic change nothing, as long as the whole is not one of the changelog
    phrases. *)
Theorem extra_words_ignored (E : env) (w : world) check_fresh topic rest rest' :
  is_request check_fresh topic rest ->
  is_request check_fresh topic rest' ->
  main E (invocation check_fresh topic rest) w
  = main E (invocation check_fresh topic rest') w.
Proof.
  intros H H'.
  rewrite (main_request E w check_fresh topic rest H).
  rewrite (main_request E w check_fresh topic rest' H'). reflexivity.
Qed.

Lemma extra_words_ignored_witness :
  main env_quiet ["hooks"; "and"; "more"] (world_of mirror_two Absent 0)
  = main env_quiet ["hooks"] (world_of mirror_two Absent 0).
Proof.
  apply (extra_words_ignored env_quiet (world_of mirror_two Absent 0) false
           "hooks" ["and"; "more"] []).
  - split; [intros _; repeat split; discriminate | reflexivity].
  - apply request_plain; try discriminate. reflexivity.
Defined.

End HelperMore.

(** ** The installer and older installations *)

Module InstallDirsFacts.
Import InstallDirs InstallDirsSpec.

Lemma mem_In (x : string) (l : list string) : Py.mem x l = true <-> In x l.
Proof.
  unfold Py.mem. rewrite existsb_exists. split.
  - intros (y & Hy & He). apply String.eqb_eq in He. subst y. exact Hy.
  - intros H. exists x. split; [exact H | apply String.eqb_refl].
Qed.

Lemma in_without (q p : string) (l : list string) :
  In q (filter (fun d => negb (d =? p)) l) <-> In q l /\ q <> p.
Proof.
  rewrite filter_In. split; intros [H1 H2]; (split; [exact H1|]).
  - intros ->. rewrite String.eqb_refl in H2. discriminate H2.
  - apply String.eqb_neq in H2. rewrite H2. reflexivity.
Qed.

Ltac no_rmtree H :=
  repeat (destruct H as [H|H]; [discriminate H|]); destruct H.

(** One turn of the cleanup loop. *)
Lemma cleanup_one_facts (E : env) (p : string) (w : world) :
  let w' := snd (cleanup_one E p w) in
  exists evs,
    events_of w' = (events_of w ++ evs)%list
    /\ (forall q, In (ERmtree q) evs ->
          q = p /\ In p (dirs w) /\ clean_repo E p = true)
    /\ (forall q, In q (dirs w') -> In q (dirs w))
    /\ (forall q, In q (dirs w) -> q <> p \/ clean_repo E p = false -> In q (dirs w'))
    /\ (In p (dirs w) -> clean_repo E p = true ->
        In (ERmtree p) evs /\ (rmtree_error E p = None -> ~ In p (dirs w'))).
Proof.
  cbv zeta. unfold cleanup_one, dir_exists, events_of.
  destruct (Py.mem p (dirs w)) eqn:Hmem; cbn [negb].
  2: { cbn [snd]. exists []. rewrite app_nil_r. split; [reflexivity|].
       split; [intros q []|]. split; [auto|]. split; [auto|].
       intros Hin. apply mem_In in Hin. congruence. }
  apply mem_In in Hmem.
  unfold clean_repo, status_clean, status_args.
  unfold print, emit, git_operation, rmtree, lift, bind, ret,
    Install.print, Install.emit, Install.git_operation.
  cbn [io dirs fst snd Install.cwd Install.settings_file Install.trace].
  destruct (has_dot_git E p); cbn [andb].
  2: { cbn [io dirs fst snd Install.cwd Install.settings_file Install.trace].
       rewrite <- ?app_assoc. eexists. split; [reflexivity|].
       split; [intros q H; no_rmtree H|]. split; [auto|]. split; [auto|].
       discriminate. }
  destruct (Install.run_git (base E) p ["status"; "--porcelain"]) as [out|err];
    cbn [io dirs fst snd Install.cwd Install.settings_file Install.trace andb].
  2: { rewrite <- ?app_assoc. eexists. split; [reflexivity|].
       split; [intros q H; no_rmtree H|]. split; [auto|]. split; [auto|].
       discriminate. }
  destruct (Py.truthy (Py.strip out));
    cbn [negb io dirs fst snd Install.cwd Install.settings_file Install.trace].
  { rewrite <- ?app_assoc. eexists. split; [reflexivity|].
    split; [intros q H; no_rmtree H|]. split; [auto|]. split; [auto|].
    discriminate. }
  destruct (rmtree_error E p) as [e|];
    cbn [io dirs fst snd Install.cwd Install.settings_file Install.trace];
    rewrite <- ?app_assoc; (eexists; split; [reflexivity|]).
  - split.
    { intros q [H|[H|[H|[H|[]]]]]; try discriminate H.
      injection H as <-. auto. }
    split; [auto|]. split; [auto|]. intros _ _. split.
    + right. right. left. reflexivity.
    + discriminate.
  - split.
    { intros q [H|[H|[H|[H|[]]]]]; try discriminate H.
      injection H as <-. auto. }
    split; [intros q Hq; apply in_without in Hq; tauto|].
    split.
    { intros q Hq [Hne|Hc]; [|discriminate Hc]. apply in_without. tauto. }
    intros _ _. split.
    + right. right. left. reflexivity.
    + intros _ Hin. apply in_without in Hin. tauto.
Qed.

(** The whole loop. *)
Lemma cleanup_loop_facts (E : env) (l : list string) (w : world) :
  let w' := snd (for_each l (cleanup_one E) w) in
  exists evs,
    events_of w' = (events_of w ++ evs)%list
    /\ (forall q, In (ERmtree q) evs ->
          In q l /\ In q (dirs w) /\ clean_repo E q = true)
    /\ (forall q, In q (dirs w') -> In q (dirs w))
    /\ (forall q, In q (dirs w) -> ~ In q l \/ clean_repo E q = false ->
          In q (dirs w'))
    /\ (forall q, In q l -> In q (dirs w) -> clean_repo E q = true ->
          In (ERmtree q) evs /\ (rmtree_error E q = None -> ~ In q (dirs w'))).
Proof.
  revert w. induction l as [|a l IH]; intros w; cbv zeta; cbn [for_each].
  - unfold ret. cbn [snd]. exists []. rewrite app_nil_r. split; [reflexivity|].
    split; [intros q []|]. split; [auto|]. split; [auto|]. intros q [].
  - rewrite bind_run.
    destruct (cleanup_one_facts E a w) as (e1 & T1 & R1 & S1 & K1 & G1).
    set (w1 := snd (cleanup_one E a w)) in *.
    destruct (IH w1) as (e2 & T2 & R2 & S2 & K2 & G2).
    set (w2 := snd (for_each l (cleanup_one E) w1)) in *.
    exists (e1 ++ e2)%list. split; [rewrite T2, T1, app_assoc; reflexivity|].
    split; [|split; [|split]].
    + intros q H. apply in_app_or in H as [H|H].
      * destruct (R1 q H) as (-> & H2 & H3). split; [left; reflexivity|]. tauto.
      * destruct (R2 q H) as (H1 & H2 & H3). split; [right; exact H1|]. split; auto.
    + auto.
    + intros q Hq Hor. apply K2.
      * apply K1; [exact Hq|]. destruct (String.string_dec q a) as [->|Hne].
        -- right. destruct Hor as [Hn|Hc]; [|exact Hc].
           exfalso. apply Hn. left. reflexivity.
        -- left. exact Hne.
      * destruct Hor as [Hn|Hc]; [left|right; exact Hc].
        intros H. apply Hn. right. exact H.
    + intros q Hq Hd Hc. destruct (String.string_dec q a) as [->|Hne].
      * destruct (G1 Hd Hc) as [Hin Hgone]. split.
        -- apply in_or_app. left. exact Hin.
        -- intros Hr Hin'. exact (Hgone Hr (S2 _ Hin')).
      * destruct Hq as [Hq|Hq]; [congruence|].
        destruct (G2 q Hq (K1 q Hd (or_introl Hne)) Hc) as [Hin Hgone]. split.
        -- apply in_or_app. right. exact Hin.
        -- exact Hgone.
Qed.

Lemma cleanup_facts (E : env) (old : list string) (w : world) :
  let w' := snd (cleanup_old_installations E old w) in
  exists evs,
    events_of w' = (events_of w ++ evs)%list
    /\ (forall q, In (ERmtree q) evs ->
          In q old /\ In q (dirs w) /\ clean_repo E q = true)
    /\ (forall q, In q (dirs w') -> In q (dirs w))
    /\ (forall q, In q (dirs w) -> ~ In q old \/ clean_repo E q = false ->
          In q (dirs w'))
    /\ (forall q, In q old -> In q (dirs w) -> clean_repo E q = true ->
          In (ERmtree q) evs /\ (rmtree_error E q = None -> ~ In q (dirs w'))).
Proof.
  cbv zeta. unfold cleanup_old_installations.
  destruct old as [|a l].
  - unfold ret. cbn [snd]. exists []. unfold events_of. rewrite app_nil_r.
    split; [reflexivity|]. split; [intros q []|]. split; [auto|]. split; [auto|].
    intros q [].
  - set (old := a :: l).
    rewrite !bind_run.
    set (w0 := snd (print _ (snd (print _ (snd (print "" w)))))).
    assert (Hd : dirs w0 = dirs w) by reflexivity.
    assert (Ht : exists e0, events_of w0 = (events_of w ++ e0)%list
                            /\ forall q, ~ In (ERmtree q) e0).
    { subst w0. unfold events_of, print, lift, Install.print, Install.emit.
      cbn [io dirs fst snd Install.cwd Install.settings_file Install.trace].
      rewrite <- ?app_assoc. eexists. split; [reflexivity|].
      intros q H. no_rmtree H. }
    destruct Ht as (e0 & T0 & N0).
    destruct (cleanup_loop_facts E old w0) as (e1 & T1 & R1 & S1 & K1 & G1).
    rewrite Hd in *.
    exists (e0 ++ e1)%list. split; [rewrite T1, T0, app_assoc; reflexivity|].
    split; [|split; [|split]].
    + intros q H. apply in_app_or in H as [H|H]; [destruct (N0 q H)|]. auto.
    + exact S1.
    + exact K1.
    + intros q Hq Hin Hc. destruct (G1 q Hq Hin Hc) as [H1 H2].
      split; [apply in_or_app; right; exact H1 | exact H2].
Qed.

(** X24: [cleanup_old_installations] calls [shutil.rmtree] only on a
    directory of the list it was given that exists, has a [.git] and whose
    [git status --porcelain] succeeds with empty output. *)
Theorem cleanup_removes_only_clean_repos (E : env) (old : list string) (w : world)
        (evs : list event) (p : string) :
  events_of (snd (cleanup_old_installations E old w)) = (events_of w ++ evs)%list ->
  In (ERmtree p) evs ->
  In p old /\ In p (dirs w) /\ has_dot_git E p = true /\ status_clean E p = true.
Proof.
  intros Ht Hin.
  destruct (cleanup_facts E old w) as (evs' & T & R & _).
  rewrite T in Ht. apply app_inv_head in Ht. subst evs'.
  destruct (R p Hin) as (H1 & H2 & H3).
  unfold clean_repo in H3. apply andb_prop in H3. tauto.
Qed.

Lemma cleanup_removes_only_clean_repos_witness :
  In "/home/u/repo" ["/home/u/repo"; "/home/u/notes"]
  /\ In "/home/u/repo" (dirs world_old)
  /\ has_dot_git env_old_plain "/home/u/repo" = true
  /\ status_clean env_old_plain "/home/u/repo" = true.
Proof.
  apply (cleanup_removes_only_clean_repos env_old_plain
           ["/home/u/repo"; "/home/u/notes"] world_old
           (events_of (snd (cleanup_old_installations env_old_plain
                              ["/home/u/repo"; "/home/u/notes"] world_old)))).
  - reflexivity.
  - vm_compute. repeat (first [left; reflexivity | right]).
Defined.

(** X25: when no removal fails, the directories left after
    [cleanup_old_installations] are those that existed before and are not
    clean repositories of the list: a listed directory without [.git], or
    with changes, or whose status cannot be obtained, stays. *)
Theorem cleanup_leaves_the_rest (E : env) (old : list string) (w : world) (q : string) :
  (forall p, In p old -> rmtree_error E p = None) ->
  In q (dirs (snd (cleanup_old_installations E old w))) <->
  In q (dirs w) /\ (~ In q old \/ clean_repo E q = false).
Proof.
  intros Hok.
  destruct (cleanup_facts E old w) as (evs & _ & _ & S & K & G).
  split.
  - intros Hin. split; [exact (S q Hin)|].
    destruct (in_dec String.string_dec q old) as [Hq|Hq]; [|left; exact Hq].
    destruct (clean_repo E q) eqn:Hc; [|right; reflexivity].
    destruct (G q Hq (S q Hin) Hc) as [_ Hgone].
    destruct (Hgone (Hok q Hq) Hin).
  - intros [Hin Hor]. exact (K q Hin Hor).
Qed.

Lemma cleanup_leaves_the_rest_witness :
  In "/home/u/notes"
     (dirs (snd (cleanup_old_installations env_old_plain
                   ["/home/u/repo"; "/home/u/notes"] world_old)))
  <-> In "/home/u/notes" (dirs world_old)
      /\ (~ In "/home/u/notes" ["/home/u/repo"; "/home/u/notes"]
          \/ clean_repo env_old_plain "/home/u/notes" = false).
Proof.
  apply (cleanup_leaves_the_rest env_old_plain ["/home/u/repo"; "/home/u/notes"]
           world_old "/home/u/notes").
  intros p _. reflexivity.
Defined.

Lemma d_print_out (s : string) (w : world) : print s w = (tt, out w [EPrint s]).
Proof. reflexivity. Qed.

Lemma d_emit_out (e : event) (w : world) : emit e w = (tt, out w [e]).
Proof. reflexivity. Qed.

Lemma d_out_out (w : world) (a b : list event) : out (out w a) b = out w (a ++ b)%list.
Proof. unfold out. cbn. rewrite app_assoc. reflexivity. Qed.

Lemma d_git_run (E : env) (args : list string) (d : string) (w : world) :
  git_operation E args (Some d) w =
    (match Install.run_git (base E) d args with
     | Completed o => (true, Py.strip o)
     | CalledProcessError e => (false, Py.strip e)
     end, out w [EGit d args]).
Proof.
  unfold git_operation, lift, Install.git_operation.
  destruct (Install.run_git (base E) d args); reflexivity.
Qed.

Lemma clone_run (E : env) (w : world) :
  exists output,
    clone E w =
      ((clone_succeeds E w, output),
       if clone_succeeds E w
       then {| io := io (out w [EGit (Install.cwd (io w)) (clone_args E)]);
               dirs := Install.INSTALL_DIR (base E) :: dirs w |}
       else out w [EGit (Install.cwd (io w)) (clone_args E)]).
Proof.
  unfold clone, clone_succeeds, clone_args, git_operation, lift,
    Install.git_operation, bind.
  destruct (Install.run_git (base E) (Install.cwd (io w))
              ["clone"; "-b"; Install.INSTALL_BRANCH; REPO_URL;
               Install.INSTALL_DIR (base E)]);
    eexists; reflexivity.
Qed.

Lemma probe_run (E : env) (old_dir : string) (w : world) :
  (if has_dot_git E old_dir then
     '(success, output) <- git_operation E ["status"; "--porcelain"] (Some old_dir) ;;
     if success && Py.truthy output then
       print "[WARNING]  Uncommitted changes detected in old installation" ;;
       ret true
     else ret false
   else ret false)%io w =
  (should_preserve E old_dir,
   out w (if has_dot_git E old_dir then
            EGit old_dir status_args ::
            (if status_dirty E old_dir
             then [EPrint "[WARNING]  Uncommitted changes detected in old installation"]
             else [])
          else [])).
Proof.
  unfold should_preserve, status_dirty, status_args.
  destruct (has_dot_git E old_dir); cbn [andb].
  - rewrite bind_run, d_git_run. cbn [fst snd].
    destruct (Install.run_git (base E) old_dir ["status"; "--porcelain"]) as [o|e];
      cbn [andb].
    + destruct (Py.truthy (Py.strip o)).
      * rewrite bind_run, d_print_out. cbn [fst snd]. unfold ret.
        rewrite d_out_out. reflexivity.
      * reflexivity.
    + reflexivity.
  - unfold ret, out. destruct w as [[c sf tr] ds]. cbn. rewrite app_nil_r. reflexivity.
Qed.

Lemma no_rmtree_in_opening (E : env) (old_dir : string) (w : world) (q : string) :
  ~ In (ERmtree q) (opening_events E old_dir w).
Proof.
  unfold opening_events. intros H.
  apply in_app_or in H as [H|H]; [no_rmtree H|].
  apply in_app_or in H as [H|H]; [|no_rmtree H].
  destruct (has_dot_git E old_dir); [|destruct H].
  destruct (status_dirty E old_dir); no_rmtree H.
Qed.

(** What [migrate_installation] does, case by case. *)
Lemma migrate_run (E : env) (old_dir : string) (w : world) :
  exists output,
    migrate_installation E old_dir w =
      if clone_succeeds E w then
        let w1 := {| io := io (out w (opening_events E old_dir w));
                     dirs := Install.INSTALL_DIR (base E) :: dirs w |} in
        (Some tt,
         if should_preserve E old_dir then
           out w1 [ EPrint ("[INFO] Old installation preserved at: " ++ old_dir);
                    EPrint "   (has uncommitted changes)";
                    EPrint ""; EPrint "[SUCCESS] Migration complete!" ]
         else
           match rmtree_error E old_dir with
           | None =>
               out {| io := io w1;
                      dirs := filter (fun d => negb (d =? old_dir)) (dirs w1) |}
                   [ ERmtree old_dir; EPrint "[OK] Old installation removed";
                     EPrint ""; EPrint "[SUCCESS] Migration complete!" ]
           | Some e =>
               out w1 [ ERmtree old_dir;
                        EPrint ("[WARNING]  Could not remove old installation: " ++ e);
                        EPrint ""; EPrint "[SUCCESS] Migration complete!" ]
           end)
      else
        (None,
         out w (opening_events E old_dir w
                ++ [EPrint ("[ERROR] Failed to clone repository: " ++ output)])).
Proof.
  unfold migrate_installation.
  rewrite bind_run, d_print_out. cbn [fst snd].
  rewrite bind_run, d_print_out. cbn [fst snd].
  rewrite bind_run, d_print_out. cbn [fst snd].
  rewrite bind_run, probe_run. cbn [fst snd].
  rewrite bind_run, d_print_out. cbn [fst snd].
  rewrite !d_out_out. rewrite bind_run.
  match goal with |- context [clone E ?w0] => set (wc := w0) end.
  destruct (clone_run E wc) as (output & Hc). rewrite Hc. cbn [fst snd].
  exists output.
  assert (Hsame : clone_succeeds E wc = clone_succeeds E w) by reflexivity.
  rewrite Hsame.
  assert (Hopen : out wc [EGit (Install.cwd (io wc)) (clone_args E)]
                  = out w (opening_events E old_dir w)).
  { subst wc. rewrite d_out_out. unfold opening_events.
    cbn [out io Install.cwd]. rewrite <- ?app_assoc. reflexivity. }
  rewrite Hopen.
  destruct (clone_succeeds E w); cbn [negb].
  - assert (Hd : dirs wc = dirs w) by reflexivity. rewrite Hd.
    destruct (should_preserve E old_dir); cbn [negb].
    + rewrite !bind_run, !d_print_out. cbn [fst snd]. unfold ret.
      rewrite !d_out_out. reflexivity.
    + rewrite !bind_run, d_emit_out. cbn [fst snd].
      destruct (rmtree_error E old_dir) as [e|].
      * rewrite !d_print_out. cbn [fst snd]. unfold ret.
        rewrite !d_out_out. reflexivity.
      * rewrite !bind_run, !d_print_out. cbn [fst snd]. unfold ret, rmtree.
        cbn [fst snd]. unfold out. cbn [io dirs Install.cwd Install.settings_file
                                         Install.trace].
        rewrite <- ?app_assoc. reflexivity.
  - rewrite bind_run, d_print_out. cbn [fst snd]. unfold ret.
    rewrite d_out_out. reflexivity.
Qed.

(** X26: if the clone fails, [migrate_installation] leaves by
    [sys.exit(1)] with the old installation untouched: no directory is
    removed or made. *)
Theorem migrate_failed_clone_keeps_old (E : env) (old_dir : string) (w : world) :
  clone_succeeds E w = false ->
  let r := migrate_installation E old_dir w in
  fst r = None
  /\ dirs (snd r) = dirs w
  /\ exists evs,
       events_of (snd r) = (events_of w ++ evs)%list
       /\ forall q, ~ In (ERmtree q) evs.
Proof.
  intros Hclone. cbv zeta.
  destruct (migrate_run E old_dir w) as (output & ->). rewrite Hclone.
  cbn [fst snd]. split; [reflexivity|]. split; [reflexivity|].
  eexists. split; [reflexivity|].
  intros q H. apply in_app_or in H as [H|H].
  - exact (no_rmtree_in_opening E old_dir w q H).
  - no_rmtree H.
Qed.

Lemma migrate_failed_clone_keeps_old_witness :
  let r := migrate_installation env_no_network "/home/u/repo" world_old in
  fst r = None
  /\ dirs (snd r) = ["/home/u/repo"; "/home/u/notes"]
  /\ exists evs,
       events_of (snd r) = ([] ++ evs)%list
       /\ forall q, ~ In (ERmtree q) evs.
Proof.
  apply (migrate_failed_clone_keeps_old env_no_network "/home/u/repo" world_old).
  reflexivity.
Defined.

(** X27: after a successful clone [migrate_installation] removes the old
    directory unless it has a [.git] and its status is obtained and not
    empty; so an old directory that is no repository, or whose status
    cannot be obtained, is removed. Nothing else is removed, and a
    directory that is preserved is still there. *)
Theorem migrate_removes_unless_dirty (E : env) (old_dir : string) (w : world) :
  clone_succeeds E w = true ->
  let r := migrate_installation E old_dir w in
  fst r = Some tt
  /\ (forall q, In q (dirs w) -> q <> old_dir -> In q (dirs (snd r)))
  /\ (should_preserve E old_dir = true ->
      forall q, In q (dirs w) -> In q (dirs (snd r)))
  /\ (should_preserve E old_dir = false -> rmtree_error E old_dir = None ->
      ~ In old_dir (dirs (snd r)))
  /\ exists evs,
       events_of (snd r) = (events_of w ++ evs)%list
       /\ (In (ERmtree old_dir) evs <-> should_preserve E old_dir = false)
       /\ forall q, In (ERmtree q) evs -> q = old_dir.
Proof.
  intros Hclone. cbv zeta.
  destruct (migrate_run E old_dir w) as (output & ->). rewrite Hclone. cbv zeta.
  pose proof (no_rmtree_in_opening E old_dir w) as Hopen.
  unfold events_of.
  destruct (should_preserve E old_dir); [|destruct (rmtree_error E old_dir) as [e|]];
    cbn [fst snd out io dirs Install.cwd Install.settings_file Install.trace];
    (split; [reflexivity|]).
  - split; [intros q Hq _; right; exact Hq|].
    split; [intros _ q Hq; right; exact Hq|].
    split; [discriminate|].
    rewrite <- ?app_assoc. eexists. split; [reflexivity|]. split.
    + split; [|discriminate]. intros H. exfalso.
      apply in_app_or in H as [H|H]; [exact (Hopen _ H) | no_rmtree H].
    + intros q H. exfalso.
      apply in_app_or in H as [H|H]; [exact (Hopen _ H) | no_rmtree H].
  - split; [intros q Hq _; right; exact Hq|].
    split; [discriminate|].
    split; [discriminate|].
    rewrite <- ?app_assoc. eexists. split; [reflexivity|]. split.
    + split; [reflexivity|]. intros _. apply in_or_app. right. left. reflexivity.
    + intros q H. apply in_app_or in H as [H|H]; [destruct (Hopen _ H)|].
      destruct H as [H|H]; [injection H as <-; reflexivity | no_rmtree H].
  - split.
    { intros q Hq Hne. apply in_without. split; [right; exact Hq | exact Hne]. }
    split; [discriminate|].
    split.
    { intros _ _ H. apply in_without in H. tauto. }
    rewrite <- ?app_assoc. eexists. split; [reflexivity|]. split.
    + split; [reflexivity|]. intros _. apply in_or_app. right. left. reflexivity.
    + intros q H. apply in_app_or in H as [H|H]; [destruct (Hopen _ H)|].
      destruct H as [H|H]; [injection H as <-; reflexivity | no_rmtree H].
Qed.

Lemma migrate_removes_unless_dirty_witness :
  let r := migrate_installation env_old_plain "/home/u/notes" world_old in
  fst r = Some tt
  /\ (forall q, In q (dirs world_old) -> q <> "/home/u/notes" -> In q (dirs (snd r)))
  /\ (should_preserve env_old_plain "/home/u/notes" = true ->
      forall q, In q (dirs world_old) -> In q (dirs (snd r)))
  /\ (should_preserve env_old_plain "/home/u/notes" = false ->
      rmtree_error env_old_plain "/home/u/notes" = None ->
      ~ In "/home/u/notes" (dirs (snd r)))
  /\ exists evs,
       events_of (snd r) = (events_of world_old ++ evs)%list
       /\ (In (ERmtree "/home/u/notes") evs
           <-> should_preserve env_old_plain "/home/u/notes" = false)
       /\ forall q, In (ERmtree q) evs -> q = "/home/u/notes".
Proof.
  apply (migrate_removes_unless_dirty env_old_plain "/home/u/notes" world_old).
  reflexivity.
Defined.

End InstallDirsFacts.

(** ** The age of the documentation *)

Module HelperTimeFacts.
Import HelperTime.




(** X29: a time in the future (by less than 10^15 microseconds, the
    range on which the float division is exact) is always reported in
    minutes, with a count that is zero or negative and the unit in the
    plural, also when it is hours or days ahead. *)
Theorem format_time_ago_future (now dt : Z) :
  (- 1000000000000000 < now - dt < 0)%Z ->
  format_time_ago now dt
  = str (Z.quot (now - dt) MINUTE) ++ " minutes ago"
  /\ (Z.quot (now - dt) MINUTE <= 0)%Z.
Proof.
  intros [_ Hd]. unfold format_time_ago. cbv zeta.
  assert (Hq : (Z.quot (now - dt) MINUTE <= 0)%Z).
  { pose proof (Z.quot_opp_l (now - dt) MINUTE ltac:(discriminate)) as Ho.
    pose proof (Z.quot_pos (- (now - dt)) MINUTE ltac:(lia) ltac:(reflexivity)) as Hp.
    lia. }
  destruct (now - dt <? HOUR)%Z eqn:Hh.
  - split; [|exact Hq]. unfold plural.
    destruct (Z.quot (now - dt) MINUTE =? 1)%Z eqn:He; [|reflexivity].
    apply Z.eqb_eq in He. lia.
  - apply Z.ltb_ge in Hh. unfold HOUR in Hh. lia.
Qed.

Lemma format_time_ago_future_witness :
  format_time_ago 0 7200000000 = str (Z.quot (0 - 7200000000) MINUTE) ++ " minutes ago"
  /\ (Z.quot (0 - 7200000000) MINUTE <= 0)%Z.
Proof.
  apply (format_time_ago_future 0 7200000000). lia.
Defined.

End HelperTimeFacts.
